(** * ssh-login-alert: the key parser (key-parser.py)

    A shallow embedding of [SSHKeyParser] and [AuthLogParser] and the
    properties of fingerprint generation, registry loading, auth-log
    scanning and the correlation fallback chain.

    Conventions of the embedding:
    - a Python [str] is a list of characters; a character is its code point,
      restricted to code points below 256 (Rocq's [ascii]);
    - a text file is either missing, present but unreadable ([open] raises),
      read to its end (the lines that iterating the file or [readlines()]
      yield), or broken (the lines yielded before a read raises);
    - a Python [dict] is an insertion-ordered association list with unique
      keys (assignment to an existing key keeps its position);
    - a [try: ... except Exception] block is an [option]-valued body ([None]
      is "an exception was raised") followed by the handler's value. *)

From Stdlib Require Import Ascii String.
From Stdlib Require Import List ZArith NArith Lia Bool Arith.
From Stdlib Require Import Init.Byte.
Import ListNotations.
Open Scope string_scope.
Open Scope list_scope.

(* ================================================================== *)
(** ** Python text primitives *)

Module Py.

Definition str := list ascii.

(** String literals of the source. *)
Definition lit (s : string) : str := list_ascii_of_string s.
Arguments lit s%_string : simpl never.

Definition str_eq_dec : forall a b : str, {a = b} + {a <> b} :=
  list_eq_dec ascii_dec.

(** [a == b] on strings. *)
Definition str_eqb (a b : str) : bool :=
  if str_eq_dec a b then true else false.

(** [str.isspace()] on one character (code points below 256):
    TAB..CR, FS..US, space, NEL and NBSP. *)
Definition isspace (c : ascii) : bool :=
  let n := N_of_ascii c in
  (((9 <=? n) && (n <=? 13)) || ((28 <=? n) && (n <=? 32))
   || (n =? 133) || (n =? 160))%N.

Fixpoint lstrip (s : str) : str :=
  match s with
  | [] => []
  | c :: s' => if isspace c then lstrip s' else s
  end.

Definition rstrip (s : str) : str := rev (lstrip (rev s)).

(** [s.strip()] *)
Definition strip (s : str) : str := rstrip (lstrip s).

(** [s.split()]: maximal runs of non-whitespace characters. *)
Fixpoint split (s : str) : list str :=
  match s with
  | [] => []
  | c :: s' =>
      if isspace c then split s'
      else match s' with
           | [] => [[c]]
           | d :: _ =>
               if isspace d then [c] :: split s'
               else match split s' with
                    | w :: ws => (c :: w) :: ws
                    | [] => [[c]]
                    end
           end
  end.

(** [s.startswith(p)] *)
Fixpoint startswith (p s : str) : bool :=
  match p, s with
  | [], _ => true
  | _ :: _, [] => false
  | a :: p', b :: s' => Ascii.eqb a b && startswith p' s'
  end.

(** [needle in hay] *)
Fixpoint contains (needle hay : str) : bool :=
  startswith needle hay ||
  match hay with
  | [] => false
  | _ :: hay' => contains needle hay'
  end.

(** [part.split(sep, 1)] for a one-character [sep] that occurs in [part]:
    the text before the first [sep] and the text after it. *)
Fixpoint split_once (sep : ascii) (s : str) : str * str :=
  match s with
  | [] => ([], [])
  | c :: s' =>
      if Ascii.eqb c sep then ([], s')
      else let (k, v) := split_once sep s' in (c :: k, v)
  end.

(** [sep.join(parts)] *)
Fixpoint join (sep : str) (parts : list str) : str :=
  match parts with
  | [] => []
  | [p] => p
  | p :: ps => p ++ sep ++ join sep ps
  end.

(** Index normalisation of a slice bound on a sequence of length [n]. *)
Definition slice_index (n i : Z) : Z :=
  if (i <? 0)%Z then Z.max 0 (i + n) else Z.min i n.

(** [l[start:stop]] *)
Definition slice {A} (start stop : Z) (l : list A) : list A :=
  let n := Z.of_nat (length l) in
  let a := slice_index n start in
  let b := slice_index n stop in
  firstn (Z.to_nat (b - a)) (skipn (Z.to_nat a) l).

(** [l[start:]] *)
Definition slice_from {A} (start : Z) (l : list A) : list A :=
  skipn (Z.to_nat (slice_index (Z.of_nat (length l)) start)) l.

(** [range(0, n, 2)] *)
Definition range_step2 (n : nat) : list nat :=
  map (fun k => 2 * k) (seq 0 (Nat.div2 (S n))).

(** A [dict]: insertion-ordered, unique keys. *)
Definition dict (V : Type) := list (str * V).

(** [d.get(k)] *)
Fixpoint dict_get {V} (d : dict V) (k : str) : option V :=
  match d with
  | [] => None
  | (k', v) :: d' => if str_eqb k' k then Some v else dict_get d' k
  end.

(** [d[k] = v] *)
Fixpoint dict_set {V} (d : dict V) (k : str) (v : V) : dict V :=
  match d with
  | [] => [(k, v)]
  | (k', v') :: d' =>
      if str_eqb k' k then (k', v) :: d' else (k', v') :: dict_set d' k v
  end.

(** [d.values()] *)
Definition dict_values {V} (d : dict V) : list V := map snd d.

(** Truthiness of an optional string ([if x:] where [x] is [None] or a
    [str]). *)
Definition truthy (x : option str) : bool :=
  match x with
  | Some (_ :: _) => true
  | _ => false
  end.

(** [s.split(sep)] for a one-character separator: the fields between the
    separators, empty ones included. *)
Fixpoint split_char (sep : ascii) (s : str) : list str :=
  match s with
  | [] => [[]]
  | c :: s' =>
      if Ascii.eqb c sep then [] :: split_char sep s'
      else match split_char sep s' with
           | w :: ws => (c :: w) :: ws
           | [] => [[c]]
           end
  end.

(** [s.lower()] on one character (code points below 256): [A-Z] and the
    Latin-1 capitals U+00C0..U+00DE, the multiplication sign excepted. *)
Definition lower_char (c : ascii) : ascii :=
  let n := N_of_ascii c in
  if (((65 <=? n) && (n <=? 90))
      || ((192 <=? n) && (n <=? 222) && negb (n =? 215)))%N
  then ascii_of_N (n + 32) else c.

(** [s.lower()] *)
Definition lower (s : str) : str := map lower_char s.

End Py.

(* ================================================================== *)
(** ** [base64.b64decode] (standard library, default [validate=False]) *)

Module Base64.
Import Py.

Definition byte_of_N (n : N) : byte := byte_of_ascii (ascii_of_N n).

Definition in_range (lo hi c : ascii) : bool :=
  ((N_of_ascii lo <=? N_of_ascii c) && (N_of_ascii c <=? N_of_ascii hi))%N.

(** The decoding table: [A-Z] 0..25, [a-z] 26..51, [0-9] 52..61,
    [+] 62, [/] 63. *)
Definition b64_value (c : ascii) : option N :=
  let n := N_of_ascii c in
  if in_range "A" "Z" c then Some (n - 65)%N
  else if in_range "a" "z" c then Some (n - 97 + 26)%N
  else if in_range "0" "9" c then Some (n - 48 + 52)%N
  else if Ascii.eqb c "+" then Some 62%N
  else if Ascii.eqb c "/" then Some 63%N
  else None.

(** The decoding loop of [binascii.a2b_base64] in its non-strict mode:
    characters outside the alphabet are skipped, a pad sequence that
    completes a quad ends the decoding, and a trailing partial quad is an
    error ([None]).  [acc] holds the decoded bytes in reverse. *)
Fixpoint a2b_loop (s : str) (quad_pos : nat) (leftchar : N) (pads : nat)
         (acc : list byte) : option (list byte) :=
  match s with
  | [] => if Nat.eqb quad_pos 0 then Some (rev acc) else None
  | c :: s' =>
      if Ascii.eqb c "=" then
        if Nat.leb 2 quad_pos then
          if Nat.leb 4 (quad_pos + S pads) then Some (rev acc)
          else a2b_loop s' quad_pos leftchar (S pads) acc
        else a2b_loop s' quad_pos leftchar pads acc
      else
        match b64_value c with
        | None => a2b_loop s' quad_pos leftchar pads acc
        | Some v =>
            match quad_pos with
            | 0 => a2b_loop s' 1 v 0 acc
            | 1 => a2b_loop s' 2 (N.land v 15) 0
                     (byte_of_N (N.lor (N.shiftl leftchar 2) (N.shiftr v 4)) :: acc)
            | 2 => a2b_loop s' 3 (N.land v 3) 0
                     (byte_of_N (N.lor (N.shiftl leftchar 4) (N.shiftr v 2)) :: acc)
            | _ => a2b_loop s' 0 0%N 0
                     (byte_of_N (N.lor (N.shiftl leftchar 6) v) :: acc)
            end
        end
  end.

(** [s.encode('ascii')] succeeds iff every code point is below 128. *)
Definition is_ascii (s : str) : bool :=
  forallb (fun c => (N_of_ascii c <? 128)%N) s.

(** [base64.b64decode(s)] for a [str] argument; [None] when it raises
    ([ValueError] for a non-ASCII string, [binascii.Error] otherwise). *)
Definition b64decode (s : str) : option (list byte) :=
  if is_ascii s then a2b_loop s 0 0%N 0 [] else None.

End Base64.

(* ================================================================== *)
(** ** [hashlib.md5] (standard library; RFC 1321) *)

Module MD5.

Local Open Scope N_scope.

Definition w32 (x : N) : N := x mod 2 ^ 32.
Definition add32 (x y : N) : N := w32 (x + y).
Definition not32 (x : N) : N := N.lxor x 0xffffffff.
Definition rotl32 (x : N) (n : N) : N :=
  N.lor (w32 (N.shiftl x n)) (N.shiftr x (32 - n)).

Definition K : list N :=
  [ 0xd76aa478; 0xe8c7b756; 0x242070db; 0xc1bdceee; 0xf57c0faf; 0x4787c62a; 0xa8304613; 0xfd469501;
    0x698098d8; 0x8b44f7af; 0xffff5bb1; 0x895cd7be; 0x6b901122; 0xfd987193; 0xa679438e; 0x49b40821;
    0xf61e2562; 0xc040b340; 0x265e5a51; 0xe9b6c7aa; 0xd62f105d; 0x02441453; 0xd8a1e681; 0xe7d3fbc8;
    0x21e1cde6; 0xc33707d6; 0xf4d50d87; 0x455a14ed; 0xa9e3e905; 0xfcefa3f8; 0x676f02d9; 0x8d2a4c8a;
    0xfffa3942; 0x8771f681; 0x6d9d6122; 0xfde5380c; 0xa4beea44; 0x4bdecfa9; 0xf6bb4b60; 0xbebfbc70;
    0x289b7ec6; 0xeaa127fa; 0xd4ef3085; 0x04881d05; 0xd9d4d039; 0xe6db99e5; 0x1fa27cf8; 0xc4ac5665;
    0xf4292244; 0x432aff97; 0xab9423a7; 0xfc93a039; 0x655b59c3; 0x8f0ccc92; 0xffeff47d; 0x85845dd1;
    0x6fa87e4f; 0xfe2ce6e0; 0xa3014314; 0x4e0811a1; 0xf7537e82; 0xbd3af235; 0x2ad7d2bb; 0xeb86d391 ].

Definition shifts : list N :=
  [ 7; 12; 17; 22; 7; 12; 17; 22; 7; 12; 17; 22; 7; 12; 17; 22;
    5;  9; 14; 20; 5;  9; 14; 20; 5;  9; 14; 20; 5;  9; 14; 20;
    4; 11; 16; 23; 4; 11; 16; 23; 4; 11; 16; 23; 4; 11; 16; 23;
    6; 10; 15; 21; 6; 10; 15; 21; 6; 10; 15; 21; 6; 10; 15; 21 ].

(** The four chaining words A, B, C, D. *)
Record state := mk_state { sA : N; sB : N; sC : N; sD : N }.

Definition init : state :=
  mk_state 0x67452301 0xefcdab89 0x98badcfe 0x10325476.

(** One of the 64 operations of a block, on message words [M]. *)
Definition round (M : list N) (st : state) (i : nat) : state :=
  let '(mk_state a b c d) := st in
  let '(f, g) :=
    if Nat.ltb i 16 then (N.lor (N.land b c) (N.land (not32 b) d), i)
    else if Nat.ltb i 32 then
      (N.lor (N.land d b) (N.land (not32 d) c), Nat.modulo (5 * i + 1) 16)
    else if Nat.ltb i 48 then
      (N.lxor b (N.lxor c d), Nat.modulo (3 * i + 5) 16)
    else (N.lxor c (N.lor b (not32 d)), Nat.modulo (7 * i) 16) in
  let f' := add32 (add32 (add32 f a) (nth i K 0)) (nth g M 0) in
  mk_state d (add32 b (rotl32 f' (nth i shifts 0))) b c.

(** Little-endian 32-bit words of a byte sequence. *)
Fixpoint words (bs : list N) : list N :=
  match bs with
  | b0 :: b1 :: b2 :: b3 :: rest =>
      (b0 + 256 * b1 + 65536 * b2 + 16777216 * b3) :: words rest
  | _ => []
  end.

Definition process_block (st : state) (block : list N) : state :=
  let M := words block in
  let st' := fold_left (round M) (seq 0 64) st in
  mk_state (add32 (sA st) (sA st')) (add32 (sB st) (sB st'))
           (add32 (sC st) (sC st')) (add32 (sD st) (sD st')).

(** The first [blocks] blocks of 64 bytes each. *)
Fixpoint process (blocks : nat) (st : state) (bs : list N) : state :=
  match blocks with
  | O => st
  | S blocks' =>
      process blocks' (process_block st (firstn 64 bs)) (skipn 64 bs)
  end.

Definition le_bytes (n : nat) (x : N) : list N :=
  map (fun k => (x / 256 ^ N.of_nat k) mod 256) (seq 0 n).

(** Padding: a 1 bit, zeros up to 56 modulo 64, the bit length on 64 bits. *)
Definition pad (msg : list N) : list N :=
  let len := length msg in
  let zeros := Nat.modulo (64 + 55 - Nat.modulo len 64) 64 in
  msg ++ 128 :: repeat 0 zeros ++ le_bytes 8 ((N.of_nat len * 8) mod 2 ^ 64).

(** The 16 digest bytes. *)
Definition digest (msg : list byte) : list byte :=
  let padded := pad (map Byte.to_N msg) in
  let st := process (Nat.div (length padded) 64) init padded in
  map Base64.byte_of_N
      (le_bytes 4 (sA st) ++ le_bytes 4 (sB st) ++
       le_bytes 4 (sC st) ++ le_bytes 4 (sD st)).

Definition hex_digit (n : N) : ascii :=
  if n <? 10 then ascii_of_N (48 + n) else ascii_of_N (87 + n).

(** [hashlib.md5(msg).hexdigest()]: two lowercase hex digits per byte. *)
Definition hexdigest (msg : list byte) : Py.str :=
  flat_map (fun b => let n := Byte.to_N b in
                     [hex_digit (n / 16); hex_digit (n mod 16)])
           (digest msg).

End MD5.

(* ================================================================== *)
(** ** The fragment of [re] the parser uses *)

Module Re.
Import Py.

(** [[A-Za-z0-9+/=]] *)
Definition cls_base64 (c : ascii) : bool :=
  Base64.in_range "A" "Z" c || Base64.in_range "a" "z" c
  || Base64.in_range "0" "9" c
  || Ascii.eqb c "+" || Ascii.eqb c "/" || Ascii.eqb c "=".

(** [[a-f0-9:]] *)
Definition cls_hex_colon (c : ascii) : bool :=
  Base64.in_range "a" "f" c || Base64.in_range "0" "9" c || Ascii.eqb c ":".

(** A pattern [prefix([cls]{min_run,})]: literal text followed by one
    capturing group, a greedy run of at least [min_run] characters of a
    class ([+] is [{1,}]). *)
Record pattern := mk_pattern {
  prefix : str;
  cls : ascii -> bool;
  min_run : nat
}.

(** The longest prefix of [s] inside the class. *)
Fixpoint take_class (cls : ascii -> bool) (s : str) : str :=
  match s with
  | c :: s' => if cls c then c :: take_class cls s' else []
  | [] => []
  end.

(** A match anchored at the start of [s]; the result is [group(1)]. *)
Definition match_here (p : pattern) (s : str) : option str :=
  if startswith (prefix p) s then
    let run := take_class (cls p) (skipn (length (prefix p)) s) in
    if Nat.leb (min_run p) (length run) then Some run else None
  else None.

(** [re.search(p, s)]: the leftmost match; [None] when there is none,
    otherwise [group(1)]. *)
Fixpoint search (p : pattern) (s : str) : option str :=
  match match_here p s with
  | Some g => Some g
  | None => match s with
            | [] => None
            | _ :: s' => search p s'
            end
  end.

(** [for pattern in patterns: m = re.search(pattern, line);
     if m: result = m.group(1); break] *)
Fixpoint first_match (ps : list pattern) (line : str) : option str :=
  match ps with
  | [] => None
  | p :: ps' => match search p line with
                | Some g => Some g
                | None => first_match ps' line
                end
  end.

(** An alternation of literals [(a1|a2|...)] anchored at the start. *)
Fixpoint match_alt (alts : list str) (s : str) : option str :=
  match alts with
  | [] => None
  | a :: alts' => if startswith a s then Some a else match_alt alts' s
  end.

(** [re.search(r'(a1|a2|...)', s)]: leftmost position, then the first
    alternative that matches there. *)
Fixpoint search_alt (alts : list str) (s : str) : option str :=
  match match_alt alts s with
  | Some g => Some g
  | None => match s with
            | [] => None
            | _ :: s' => search_alt alts s'
            end
  end.

(** [re.search(re.escape(text), s)] as a truth value: the escaped pattern
    matches exactly the occurrences of [text]. *)
Definition search_escaped (text s : str) : bool := contains text s.

End Re.

(* ================================================================== *)
(** ** Exceptions, files and the environment *)

Module Exc.

(** The outcome of a [try] body. *)
Inductive outcome (A : Type) : Type :=
| Return (a : A)
| Raise.
Arguments Return {A} a.
Arguments Raise {A}.

Definition bind {A B} (c : outcome A) (k : A -> outcome B) : outcome B :=
  match c with
  | Return a => k a
  | Raise => Raise
  end.

(** [try: body  except Exception: return handler] *)
Definition try_except {A} (body : outcome A) (handler : A) : A :=
  match body with
  | Return a => a
  | Raise => handler
  end.

Definition of_option {A} (o : option A) : outcome A :=
  match o with
  | Some a => Return a
  | None => Raise
  end.

End Exc.

Notation "x <- c ;; k" := (Exc.bind c (fun x => k))
(at level 61, c at next level, right associativity).

Module OS.
Import Py Exc.

(** A path's file: absent; present but [open] raises; read to its end,
    with its lines (each with its line terminator, as iteration yields
    them); or broken, with the lines that are yielded before a read raises
    (a decoding or an I/O error part-way through the file). *)
Inductive file : Type :=
| Missing
| Unreadable
| Content (lines : list str)
| Broken (lines : list str).

Definition filesystem := str -> file.

(** [os.path.exists(path)] *)
Definition exists_ (fs : filesystem) (path : str) : bool :=
  match fs path with
  | Missing => false
  | _ => true
  end.

(** [open(path, 'r')] followed by [f.readlines()]: all the lines, or an
    exception and no line at all. *)
Definition read_lines (fs : filesystem) (path : str) : outcome (list str) :=
  match fs path with
  | Content lines => Return lines
  | _ => Raise
  end.

(** [open(path, 'r')] followed by [for line in f]: the lines the loop body
    sees, and whether the iteration then ends with an exception instead of
    the end of the file.  [Raise] when [open] itself raises. *)
Definition iterate (fs : filesystem) (path : str)
  : outcome (list str * bool) :=
  match fs path with
  | Content lines => Return (lines, false)
  | Broken lines => Return (lines, true)
  | _ => Raise
  end.

(** [os.environ.get] *)
Definition environ := str -> option str.

End OS.

(* ================================================================== *)
(** ** Records of the two dictionaries the parsers build *)

(** The dictionary returned by [_parse_authorized_key_line]; the key
  ['line_number'] is present only on entries stored by
  [_load_authorized_keys]. *)
Record KeyInfo := mk_KeyInfo {
k_type : Py.str;
k_data : Py.str;
k_fingerprint : Py.str;
k_comment : Py.str;
k_options : Py.dict Py.str;
k_full_line : Py.str;
k_line_number : option nat
}.

(** [key_info['line_number'] = n] *)
Definition set_line_number (ki : KeyInfo) (n : nat) : KeyInfo :=
mk_KeyInfo (k_type ki) (k_data ki) (k_fingerprint ki) (k_comment ki)
           (k_options ki) (k_full_line ki) (Some n).

(** The dictionary returned by [_parse_ssh_connection_line]. *)
Record ConnectionInfo := mk_ConnectionInfo {
c_fingerprint : Py.str;
c_key_type : Py.str;
c_auth_method : Py.str;
c_key_data : Py.str
}.

(* ================================================================== *)
(** ** class AuthLogParser *)

Module AuthLogParser.
Import Py Exc OS.

Record t := mk { auth_log_path : str }.

(** [AuthLogParser()] with the default path. *)
Definition __init__ : t := mk (lit "/var/log/auth.log").

Definition _is_ssh_connection_line (line ip_address username : str) : bool :=
  let patterns :=
    [ lit "Accepted publickey for " ++ username ++ lit " from " ++ ip_address;
      lit "Accepted password for " ++ username ++ lit " from " ++ ip_address;
      lit "Accepted keyboard-interactive for " ++ username ++ lit " from "
        ++ ip_address ] in
  existsb (fun pattern => Re.search_escaped pattern line) patterns.

Definition fingerprint_patterns : list Re.pattern :=
  [ Re.mk_pattern (lit "RSA SHA256:") Re.cls_base64 1;
    Re.mk_pattern (lit "ED25519 SHA256:") Re.cls_base64 1;
    Re.mk_pattern (lit "ECDSA SHA256:") Re.cls_base64 1;
    Re.mk_pattern (lit "DSA SHA256:") Re.cls_base64 1;
    Re.mk_pattern (lit "key fingerprint ") Re.cls_hex_colon 1;
    Re.mk_pattern (lit "fingerprint ") Re.cls_hex_colon 1 ].

Definition key_data_patterns : list Re.pattern :=
  [ Re.mk_pattern (lit "key ") Re.cls_base64 50;
    Re.mk_pattern (lit "RSA ") Re.cls_base64 50;
    Re.mk_pattern (lit "ED25519 ") Re.cls_base64 50;
    Re.mk_pattern (lit "ECDSA ") Re.cls_base64 50;
    Re.mk_pattern (lit "DSA ") Re.cls_base64 50 ].

Definition or_unknown (o : option str) : str :=
  match o with
  | Some s => s
  | None => lit "unknown"
  end.

(** Nothing in the [try] body raises ([re.search] and [in] on strings), so
    the handler is never entered and the result is the one built here. *)
Definition _parse_ssh_connection_line (line : str) : ConnectionInfo :=
  let fingerprint := or_unknown (Re.first_match fingerprint_patterns line) in
  let key_data := or_unknown (Re.first_match key_data_patterns line) in
  let key_type :=
    or_unknown (Re.search_alt [lit "RSA"; lit "ECDSA"; lit "ED25519"; lit "DSA"]
                              line) in
  let auth_method :=
    if contains (lit "publickey") line then lit "publickey"
    else if contains (lit "password") line then lit "password"
    else if contains (lit "keyboard-interactive") line
         then lit "keyboard-interactive"
    else lit "unknown" in
  mk_ConnectionInfo fingerprint key_type auth_method key_data.

(** [lines[-max_lines:] if len(lines) > max_lines else lines] *)
Definition recent_lines (max_lines : Z) (lines : list str) : list str :=
  if (Z.of_nat (length lines) >? max_lines)%Z
  then slice_from (- max_lines) lines
  else lines.

(** [ip_address in line and "Accepted" in line and "sshd" in line] *)
Definition is_accepted_from (ip_address line : str) : bool :=
  contains ip_address line && contains (lit "Accepted") line
  && contains (lit "sshd") line.

(** The [try] body of [find_recent_ssh_connection]. *)
Definition find_recent_ssh_connection_body (self : t) (fs : filesystem)
           (ip_address username : str) (max_lines : Z)
  : outcome (option ConnectionInfo) :=
  if negb (exists_ fs (auth_log_path self)) then Return None
  else
    lines <- read_lines fs (auth_log_path self) ;;
    let recent := recent_lines max_lines lines in
    match find (fun line => _is_ssh_connection_line line ip_address username)
               (rev recent) with
    | Some line => Return (Some (_parse_ssh_connection_line line))
    | None =>
        match find (is_accepted_from ip_address) (rev recent) with
        | Some line => Return (Some (_parse_ssh_connection_line line))
        | None => Return None
        end
    end.

Definition find_recent_ssh_connection (self : t) (fs : filesystem)
           (ip_address username : str) (max_lines : Z)
  : option ConnectionInfo :=
  try_except
    (find_recent_ssh_connection_body self fs ip_address username max_lines)
    None.

(** The default of the [max_lines] parameter. *)
Definition default_max_lines : Z := 1000.

End AuthLogParser.

(* ================================================================== *)
(** ** class SSHKeyParser *)

Module SSHKeyParser.
Import Py Exc OS.

Record t := mk {
  authorized_keys_path : str;
  auth_log_path : str;
  key_cache : dict KeyInfo
}.

(** The [try] body of [_generate_fingerprint]. *)
Definition _generate_fingerprint_body (key_type key_data : str) : outcome str :=
  key_bytes <- of_option (Base64.b64decode key_data) ;;
  let md5_hash := MD5.hexdigest key_bytes in
  Return (join (lit ":")
               (map (fun i => slice (Z.of_nat i) (Z.of_nat i + 2) md5_hash)
                    (range_step2 (length md5_hash)))).

Definition _generate_fingerprint (key_type key_data : str) : str :=
  try_except (_generate_fingerprint_body key_type key_data) (lit "unknown").

(** The loop over [parts[2:-1]] that fills [options]. *)
Definition add_option (options : dict str) (part : str) : dict str :=
  if contains (lit "=") part
  then let (key, value) := split_once "=" part in dict_set options key value
  else options.

(** [_generate_fingerprint] handles its own exceptions and the unpacking of
    [part.split('=', 1)] is guarded by ['=' in part]: the [try] body does
    not raise. *)
Definition _parse_authorized_key_line (line : str) : option KeyInfo :=
  let parts := split line in
  if Nat.ltb (length parts) 2 then None
  else
    let key_type := nth 0 parts [] in
    let key_data := nth 1 parts [] in
    let comment := if Nat.ltb 2 (length parts) then nth 2 parts [] else [] in
    let fingerprint := _generate_fingerprint key_type key_data in
    let options :=
      if Nat.ltb 3 (length parts)
      then fold_left add_option (slice 2 (-1) parts) []
      else [] in
    Some (mk_KeyInfo key_type key_data fingerprint comment options line None).

(** One iteration of the loop of [_load_authorized_keys]. *)
Definition load_line (cache : dict KeyInfo) (line_num : nat) (line : str)
  : dict KeyInfo :=
  let line := strip line in
  match line with
  | [] => cache
  | _ =>
      if startswith (lit "#") line then cache
      else match _parse_authorized_key_line line with
           | Some key_info =>
               dict_set cache (k_fingerprint key_info)
                        (set_line_number key_info line_num)
           | None => cache
           end
  end.

(** [for line_num, line in enumerate(f, line_num): ...] *)
Fixpoint load_lines (cache : dict KeyInfo) (line_num : nat) (lines : list str)
  : dict KeyInfo :=
  match lines with
  | [] => cache
  | line :: rest => load_lines (load_line cache line_num line) (S line_num) rest
  end.

(** [_load_authorized_keys]: the resulting [key_cache].  The loop stores
    into [self.key_cache] as it goes, so when a read raises part-way the
    handler only logs and the entries of the lines seen so far stay. *)
Definition _load_authorized_keys (fs : filesystem) (path : str)
           (cache : dict KeyInfo) : dict KeyInfo :=
  if negb (exists_ fs path) then cache
  else try_except (stream <- iterate fs path ;;
                   Return (load_lines cache 1 (fst stream)))
                  cache.

(** [SSHKeyParser(authorized_keys_path)] *)
Definition __init__ (fs : filesystem) (authorized_keys_path : str) : t :=
  mk authorized_keys_path (lit "/var/log/auth.log")
     (_load_authorized_keys fs authorized_keys_path []).

Definition default_authorized_keys_path : str := lit "/root/.ssh/authorized_keys".

Definition find_key_by_fingerprint (self : t) (fingerprint : str)
  : option KeyInfo :=
  dict_get (key_cache self) fingerprint.

(** The condition of the loop of [_find_key_by_data] on one line. *)
Definition data_matches (key_data line : str) : bool :=
  match strip line with
  | [] => false
  | _ =>
      negb (startswith (lit "#") line)
      && (let parts := split (strip line) in
          Nat.leb 2 (length parts) && str_eqb (nth 1 parts []) key_data)
  end.

(** The [try] body of [_find_key_by_data]: the loop returns at the first
    matching line; a read that raises before any match reaches the
    handler. *)
Definition _find_key_by_data_body (self : t) (fs : filesystem) (key_data : str)
  : outcome (option KeyInfo) :=
  if negb (exists_ fs (authorized_keys_path self)) then Return None
  else
    stream <- iterate fs (authorized_keys_path self) ;;
    match find (data_matches key_data) (fst stream) with
    | Some line => Return (_parse_authorized_key_line (strip line))
    | None => if snd stream then Raise else Return None
    end.

Definition _find_key_by_data (self : t) (fs : filesystem) (key_data : str)
  : option KeyInfo :=
  try_except (_find_key_by_data_body self fs key_data) None.

(** The [try] body only reads the environment and the index. *)
Definition _find_key_from_ssh_environment (self : t) (env : environ)
  : option KeyInfo :=
  let ssh_key_fingerprint := env (lit "SSH_KEY_FINGERPRINT") in
  if truthy ssh_key_fingerprint
  then find_key_by_fingerprint self
         (match ssh_key_fingerprint with Some s => s | None => [] end)
  else
    let ssh_key_comment := env (lit "SSH_KEY_COMMENT") in
    if truthy ssh_key_comment
    then find (fun key_info =>
                 str_eqb (k_comment key_info)
                         (match ssh_key_comment with Some s => s | None => [] end))
              (dict_values (key_cache self))
    else None.

(** Step 1 of [find_key_by_ip_and_user]: lookup by the logged fingerprint. *)
Definition by_logged_fingerprint (self : t)
           (connection_info : option ConnectionInfo) : option KeyInfo :=
  match connection_info with
  | Some ci =>
      if negb (str_eqb (c_fingerprint ci) (lit "unknown"))
      then find_key_by_fingerprint self (c_fingerprint ci)
      else None
  | None => None
  end.

(** Step 2 ("Method 1"): lookup by the logged key data. *)
Definition by_logged_key_data (self : t) (fs : filesystem)
           (connection_info : option ConnectionInfo) : option KeyInfo :=
  match connection_info with
  | Some ci =>
      if negb (str_eqb (c_key_data ci) (lit "unknown"))
      then _find_key_by_data self fs (c_key_data ci)
      else None
  | None => None
  end.

(** The loop of step 3 ("Method 2") over [reversed(recent_lines)]. *)
Fixpoint scan_recent (self : t) (fs : filesystem) (ip_address : str)
         (lines : list str) : option KeyInfo :=
  match lines with
  | [] => None
  | line :: rest =>
      if AuthLogParser.is_accepted_from ip_address line then
        let parsed_line := AuthLogParser._parse_ssh_connection_line line in
        if negb (str_eqb (c_key_data parsed_line) (lit "unknown")) then
          match _find_key_by_data self fs (c_key_data parsed_line) with
          | Some found_key => Some found_key
          | None => scan_recent self fs ip_address rest
          end
        else scan_recent self fs ip_address rest
      else scan_recent self fs ip_address rest
  end.

(** Step 3: the last 100 lines of [self.auth_log_path]. *)
Definition by_recent_lines (self : t) (fs : filesystem) (ip_address : str)
  : outcome (option KeyInfo) :=
  if exists_ fs (auth_log_path self) then
    lines <- read_lines fs (auth_log_path self) ;;
    let recent_lines :=
      if Nat.ltb 100 (length lines) then slice_from (-100) lines else lines in
    Return (scan_recent self fs ip_address (rev recent_lines))
  else Return None.

(** The [try] body of [find_key_by_ip_and_user]. *)
Definition find_key_by_ip_and_user_body (self : t) (fs : filesystem)
           (env : environ) (ip_address username : str)
  : outcome (option KeyInfo) :=
  let auth_parser := AuthLogParser.__init__ in
  let connection_info :=
    AuthLogParser.find_recent_ssh_connection
      auth_parser fs ip_address username AuthLogParser.default_max_lines in
  match by_logged_fingerprint self connection_info with
  | Some found_key => Return (Some found_key)
  | None =>
      match by_logged_key_data self fs connection_info with
      | Some found_key => Return (Some found_key)
      | None =>
          found <- by_recent_lines self fs ip_address ;;
          match found with
          | Some found_key => Return (Some found_key)
          | None => Return (_find_key_from_ssh_environment self env)
          end
      end
  end.

Definition find_key_by_ip_and_user (self : t) (fs : filesystem)
           (env : environ) (ip_address username : str) : option KeyInfo :=
  try_except (find_key_by_ip_and_user_body self fs env ip_address username)
             None.

Definition get_key_comment (self : t) (fingerprint : str) : str :=
  match find_key_by_fingerprint self fingerprint with
  | Some key_info => k_comment key_info
  | None => lit "unknown"
  end.

Definition get_key_options (self : t) (fingerprint : str) : dict str :=
  match find_key_by_fingerprint self fingerprint with
  | Some key_info => k_options key_info
  | None => []
  end.

Definition get_ssh_user_from_options (self : t) (fingerprint : str)
  : option str :=
  dict_get (get_key_options self fingerprint) (lit "SSH_USER").

End SSHKeyParser.

(* ================================================================== *)
(** ** class SSHConnectionDetector *)

(** The dictionary returned by [get_connection_info]. *)
Record ConnectionDetails := mk_ConnectionDetails {
  d_ip_address : Py.str;
  d_username : Py.str;
  d_connection_type : Py.str;
  d_key_fingerprint : Py.str;
  d_key_comment : Py.str;
  d_ssh_user : option Py.str;
  d_port : Py.str;
  d_client_version : Py.str
}.

Module SSHConnectionDetector.
Import Py Exc OS.

(** What the detector reads of the process and the system: the
    environment, [subprocess.run(argv, capture_output=True, text=True)] as
    the return code and the standard output of the command (or an
    exception, such as a missing program), [sys.stdin.isatty()] and
    [sys.stdout.isatty()] (which raise on a closed or absent stream) and
    [str(os.getppid())]. *)
Record world := mk_world {
  env : environ;
  run : list str -> outcome (Z * str);
  stdin_isatty : outcome bool;
  stdout_isatty : outcome bool;
  ppid : str
}.

(** [l[0]], an [IndexError] on the empty list. *)
Definition first_item (l : list str) : outcome str :=
  match l with
  | x :: _ => Return x
  | [] => Raise
  end.

(** The loop of [_get_source_ip] over the lines of [ss -tnp]: the first
    line with [sshd] and [ESTAB] whose fourth field has a colon gives the
    text before that colon. *)
Fixpoint scan_ss (lines : list str) : option str :=
  match lines with
  | [] => None
  | line :: rest =>
      if contains (lit "sshd") line && contains (lit "ESTAB") line then
        let parts := split line in
        if Nat.leb 4 (length parts) then
          let remote_addr := nth 3 parts [] in
          if contains (lit ":") remote_addr
          then Some (nth 0 (split_char ":" remote_addr) [])
          else scan_ss rest
        else scan_ss rest
      else scan_ss rest
  end.

(** The [try] block of [_get_source_ip]; [None] when it falls through. *)
Definition source_ip_from_ss (w : world) : option str :=
  try_except
    (result <- run w [lit "ss"; lit "-tnp"] ;;
     if (fst result =? 0)%Z
     then Return (scan_ss (split_char "010" (snd result)))
     else Return None)
    None.

(** Only the two subscripts outside the [try] block can raise. *)
Definition _get_source_ip (w : world) : outcome str :=
  let ssh_connection := env w (lit "SSH_CONNECTION") in
  if truthy ssh_connection
  then first_item (split (match ssh_connection with Some v => v | None => [] end))
  else
    let ssh_client := env w (lit "SSH_CLIENT") in
    if truthy ssh_client
    then first_item (split (match ssh_client with Some v => v | None => [] end))
    else match source_ip_from_ss w with
         | Some ip => Return ip
         | None => Return (lit "unknown")
         end.

Definition _get_username (w : world) : str :=
  let ssh_user := env w (lit "SSH_USER") in
  if truthy ssh_user
  then match ssh_user with Some v => v | None => [] end
  else
    (* os.environ.get('USER') or os.environ.get('LOGNAME') *)
    let username :=
      if truthy (env w (lit "USER")) then env w (lit "USER")
      else env w (lit "LOGNAME") in
    if truthy username
    then match username with Some v => v | None => [] end
    else
      match try_except
              (result <- run w [lit "whoami"] ;;
               if (fst result =? 0)%Z
               then Return (Some (strip (snd result)))
               else Return None)
              None with
      | Some name => name
      | None => lit "unknown"
      end.

(** [sys.stdin.isatty() and sys.stdout.isatty()]: the second test runs
    only when the first one is true. *)
Definition both_terminals (w : world) : outcome bool :=
  first <- stdin_isatty w ;;
  if first then stdout_isatty w else Return false.

(** The two terminal tests are outside the [try] block: their exception
    leaves the function. *)
Definition _get_connection_type (w : world) : outcome str :=
  if truthy (env w (lit "SSH_ORIGINAL_COMMAND"))
  then Return (lit "Command execution")
  else if truthy (env w (lit "SSH_TUNNEL")) then Return (lit "Tunnel")
  else
    interactive <- both_terminals w ;;
    if interactive then Return (lit "Interactive shell")
    else
      match try_except
              (result <- run w [lit "ps"; lit "-o"; lit "cmd="; lit "-p"; ppid w] ;;
               if (fst result =? 0)%Z then
                 let parent_cmd := strip (snd result) in
                 if contains (lit "tunnel") (lower parent_cmd)
                 then Return (Some (lit "Tunnel"))
                 else if contains (lit "command") (lower parent_cmd)
                 then Return (Some (lit "Command execution"))
                 else Return None
               else Return None)
              None with
      | Some kind => Return kind
      | None => Return (lit "Interactive shell")
      end.

(** The second token of a variable, when it is set, non-empty and has
    two tokens. *)
Definition port_of (value : option str) : option str :=
  if truthy value then
    let parts := split (match value with Some v => v | None => [] end) in
    if Nat.leb 2 (length parts) then Some (nth 1 parts []) else None
  else None.

Definition _get_source_port (w : world) : str :=
  match port_of (env w (lit "SSH_CONNECTION")) with
  | Some port => port
  | None =>
      match port_of (env w (lit "SSH_CLIENT")) with
      | Some port => port
      | None => lit "unknown"
      end
  end.

(** The fields are filled in the order of the source; the keys
    ['key_fingerprint'] and ['key_comment'] keep their initial value. *)
Definition get_connection_info (w : world) : outcome ConnectionDetails :=
  ip_address <- _get_source_ip w ;;
  let username := _get_username w in
  connection_type <- _get_connection_type w ;;
  let ssh_user := env w (lit "SSH_USER") in
  let port := _get_source_port w in
  let client_version :=
    match env w (lit "SSH_CLIENT_VERSION") with
    | Some v => v
    | None => lit "unknown"
    end in
  Return (mk_ConnectionDetails ip_address username connection_type
                               (lit "unknown") (lit "unknown")
                               ssh_user port client_version).

End SSHConnectionDetector.

Import Py Exc OS.

(* ================================================================== *)
(** ** Vocabulary of the statements *)

(** [needle] occurs in [hay]. *)
Definition occurs (needle hay : str) : Prop :=
  exists before after, hay = before ++ needle ++ after.


(** The ['auth_method'] a log line is parsed to. *)
Definition auth_method (line : str) : str :=
  c_auth_method (AuthLogParser._parse_ssh_connection_line line).

(** The scan of [key_cache.values()] for a comment, as
    [_find_key_from_ssh_environment] runs it on the value of
    [SSH_KEY_COMMENT]. *)
Definition comment_scan (self : SSHKeyParser.t) (ssh_key_comment : option str)
  : option KeyInfo :=
  match ssh_key_comment with
  | Some (c :: cs) =>
      find (fun key_info => str_eqb (k_comment key_info) (c :: cs))
           (dict_values (SSHKeyParser.key_cache self))
  | _ => None
  end.

(** An environment variable that is unset or set to the empty string. *)
Definition unset_or_empty (env : environ) (name : str) : Prop :=
  env name = None \/ env name = Some [].

(** The dictionary obtained by assigning, in order, [key = value] for every
    token that contains [=], split at its first [=]. *)
Definition options_of (tokens : list str) : dict str :=
  fold_left (fun d kv => dict_set d (fst kv) (snd kv))
            (map (split_once "=") (filter (contains (lit "=")) tokens)) [].

(** [[0-9a-f]] *)
Definition lower_hex (c : ascii) : bool :=
  Base64.in_range "0" "9" c || Base64.in_range "a" "f" c.

(** Two lowercase hex characters. *)
Definition octet_pair (o : str) : Prop :=
  length o = 2 /\ forallb lower_hex o = true.

(** The two hex characters [hexdigest] renders a byte to. *)
Definition hex_of_byte (b : byte) : str :=
  [MD5.hex_digit (Byte.to_N b / 16); MD5.hex_digit (Byte.to_N b mod 16)].

(** A registry line the loader keeps: after [strip()] it is not a comment
    and has at least the two tokens key type and key data. *)
Definition key_line (line key_type key_data : str) (trailing : list str) : Prop :=
  startswith (lit "#") (strip line) = false /\
  split (strip line) = key_type :: key_data :: trailing.


(** The entry a registry line contributes to the index, before its line
    number is attached. *)
Definition loaded_entry (line : str) : option KeyInfo :=
  match strip line with
  | [] => None
  | l => if startswith (lit "#") l then None
         else SSHKeyParser._parse_authorized_key_line l
  end.

(** The second whitespace-separated token of a line, if any. *)
Definition key_data_token (line : str) : option str :=
  nth_error (split (strip line)) 1.

(** A line of a text file: its text and the line feed. *)
Definition text_line (s : string) : str := lit s ++ ["010"%char].

(** A file system holding one file. *)
Definition single_file (path : str) (lines : list str) : filesystem :=
  fun p => if str_eqb p path then Content lines else Missing.

(** An auth log without evidence for [ip_address]: no line matches one of
    the three [Accepted ... for <username> from <ip>] patterns, and no line
    contains the address together with [Accepted] and [sshd]. *)
Definition non_matching_log (ip_address username : str) (lines : list str) : Prop :=
  forall line, In line lines ->
    AuthLogParser._is_ssh_connection_line line ip_address username = false /\
    AuthLogParser.is_accepted_from ip_address line = false.

(** The last [n] lines of a file (all of them when it is shorter). *)
Definition last_lines (n : nat) (lines : list str) : list str :=
  skipn (length lines - n) lines.

(** The first key-data pattern, [key ([A-Za-z0-9+/=]{50,})]. *)
Definition key_pattern : Re.pattern :=
  Re.mk_pattern (lit "key ") Re.cls_base64 50.

(** Some suffix of [s] starts with a run of at least [n] characters of the
    class. *)
Fixpoint has_run (cls : ascii -> bool) (n : nat) (s : str) : bool :=
  Nat.leb n (length (Re.take_class cls s)) ||
  match s with
  | [] => false
  | _ :: s' => has_run cls n s'
  end.

(** [post] does not continue a run of the class. *)
Definition run_ends (cls : ascii -> bool) (post : str) : Prop :=
  match post with
  | [] => True
  | c :: _ => cls c = false
  end.

(** The text of a log line up to the key material:
    [<pre>Accepted publickey for <username> from <ip><mid>]. *)
Definition accepted_publickey (pre username ip_address mid : str) : str :=
  pre ++ lit "Accepted publickey for " ++ username ++ lit " from "
      ++ ip_address ++ mid.

(** A file system holding two files. *)
Definition two_files (path1 : str) (lines1 : list str)
           (path2 : str) (lines2 : list str) : filesystem :=
  fun p => if str_eqb p path1 then Content lines1
           else if str_eqb p path2 then Content lines2
           else Missing.

(** A log line that names the user and the address: it contains
    [Accepted <method> for <username> from <ip>] for one of the three
    methods. *)
Definition names_user_and_address (line ip_address username : str) : Prop :=
  exists method,
    In method [lit "publickey"; lit "password"; lit "keyboard-interactive"] /\
    occurs (lit "Accepted " ++ method ++ lit " for " ++ username
                ++ lit " from " ++ ip_address) line.

(** A log line that names the address only: it contains the address,
    [Accepted] and [sshd]. *)
Definition names_address (line ip_address : str) : Prop :=
  occurs ip_address line /\ occurs (lit "Accepted") line /\
  occurs (lit "sshd") line.

(** The four key-type names of the key-type pattern, in its order. *)
Definition key_type_names : list str :=
  [lit "RSA"; lit "ECDSA"; lit "ED25519"; lit "DSA"].

(** The fingerprint patterns of the SHA256 form, [<type> SHA256:<base64>]. *)
Definition sha256_patterns : list Re.pattern :=
  firstn 4 AuthLogParser.fingerprint_patterns.

(** An environment value that is set and non-empty but holds white space
    only. *)
Definition blank_value (value : option str) : Prop :=
  exists s, value = Some s /\ s <> [] /\ forallb isspace s = true.

(** A text without white space. *)
Definition visible (s : str) : bool := forallb (fun c => negb (isspace c)) s.

(** The three connection types [_get_connection_type] can report. *)
Definition connection_types : list str :=
  [lit "Command execution"; lit "Tunnel"; lit "Interactive shell"].

(** The test [sys.stdin.isatty() and sys.stdout.isatty()] raises: the
    first call does, or it answers true and the second call raises. *)
Definition terminal_test_raises (stdin_isatty stdout_isatty : outcome bool) : Prop :=
  stdin_isatty = Raise \/ (stdin_isatty = Return true /\ stdout_isatty = Raise).

(** The lines a file yields to an iteration, up to its end or up to the
    read that raises. *)
Definition yields (f : file) (lines : list str) : Prop :=
  f = Content lines \/ f = Broken lines.

(* ================================================================== *)
(** * Properties *)

(** ** The models of the standard library on known values *)

(** RFC 1321, appendix A.5, and a message of two blocks. *)
Example md5_empty :
  MD5.hexdigest [] = lit "d41d8cd98f00b204e9800998ecf8427e".
Proof. vm_compute; reflexivity. Qed.

Example md5_abc :
  MD5.hexdigest (list_byte_of_string "abc") = lit "900150983cd24fb0d6963f7d28e17f72".
Proof. vm_compute; reflexivity. Qed.

Example md5_message_digest :
  MD5.hexdigest (list_byte_of_string "message digest")
  = lit "f96b697d7cb7938d525a2f31aaf161d0".
Proof. vm_compute; reflexivity. Qed.

Example md5_two_blocks :
  MD5.hexdigest (list_byte_of_string
    "12345678901234567890123456789012345678901234567890123456789012345678901234567890")
  = lit "57edf4a22be3c955ac49da2e2107b67a".
Proof. vm_compute; reflexivity. Qed.

(** [b64decode] without validation: characters outside the alphabet are
    dropped, padding closes a quad, a dangling quad is an error. *)
Example b64decode_values :
  map Base64.b64decode
      [lit "QUJD"; lit "QUI="; lit "QQ=="; lit "AA-AA"; lit "QU=JD"; lit "QUJD=RA=="]
  = map (fun s => Some (list_byte_of_string s))
        ["ABC"; "AB"; "A"; String "000" (String "000" (String "000" ""));
         "ABC"; "ABCD"].
Proof. vm_compute; reflexivity. Qed.

Example b64decode_errors :
  map Base64.b64decode [lit "QUI"; lit "QUJDRA"; lit "not-base64!!"; lit "A"]
  = [None; None; None; None].
Proof. vm_compute; reflexivity. Qed.

Example split_strip_values :
  split (lit "  ssh-rsa   QUJD  me@host ") = [lit "ssh-rsa"; lit "QUJD"; lit "me@host"] /\
  strip (text_line "  ssh-rsa QUJD me@host ") = lit "ssh-rsa QUJD me@host" /\
  split (lit "   ") = [] /\
  slice 2 (-1) [1; 2; 3; 4; 5] = [3; 4] /\
  slice_from (-2) [1; 2; 3] = [2; 3] /\
  slice_from (-0) [1; 2; 3] = [1; 2; 3].
Proof. repeat split. Qed.

(** The extraction rules of [_parse_ssh_connection_line] on a line of a
    current sshd. *)
Example parse_ssh_connection_line_sha256 :
  AuthLogParser._parse_ssh_connection_line
    (text_line "sshd[9]: Accepted publickey for bob from 10.1.2.3 port 22 ssh2: ECDSA SHA256:abc+/9")
  = mk_ConnectionInfo (lit "abc+/9") (lit "ECDSA") (lit "publickey") (lit "unknown").
Proof. vm_compute; reflexivity. Qed.

(** ** Text primitives *)

Lemma startswith_app (p s : str) : startswith p (p ++ s) = true.
Proof.
  induction p as [|a p IH]; simpl; [reflexivity|].
  now rewrite Ascii.eqb_refl, IH.
Qed.

Lemma startswith_inv (p s : str) :
  startswith p s = true -> exists rest, s = p ++ rest.
Proof.
  revert s; induction p as [|a p IH]; intros s H.
  - now exists s.
  - destruct s as [|b s]; simpl in H; [discriminate|].
    apply andb_true_iff in H as [Hab Hps].
    apply Ascii.eqb_eq in Hab; subst b.
    destruct (IH _ Hps) as [rest ->].
    now exists rest.
Qed.

Lemma contains_unfold (needle hay : str) :
  contains needle hay =
  startswith needle hay || match hay with [] => false | _ :: h => contains needle h end.
Proof. destruct hay; reflexivity. Qed.

Lemma contains_occurs (needle hay : str) :
  contains needle hay = true <-> occurs needle hay.
Proof.
  split.
  - induction hay as [|c hay IH]; simpl; intros H.
    + rewrite orb_false_r in H.
      destruct (startswith_inv _ _ H) as [rest Hr].
      exists [], rest; exact Hr.
    + apply orb_true_iff in H as [H|H].
      * destruct (startswith_inv _ _ H) as [rest Hr].
        exists [], rest; exact Hr.
      * destruct (IH H) as (b & a & ->).
        exists (c :: b), a; reflexivity.
  - intros (b & a & ->).
    induction b as [|c b IH].
    + rewrite contains_unfold; simpl; now rewrite startswith_app.
    + rewrite contains_unfold; simpl in *; rewrite IH; apply orb_true_r.
Qed.

Lemma contains_not_occurs (needle hay : str) :
  contains needle hay = false <-> ~ occurs needle hay.
Proof.
  rewrite <- contains_occurs.
  destruct (contains needle hay); split; intros; congruence.
Qed.

Lemma str_eqb_eq (a b : str) : str_eqb a b = true <-> a = b.
Proof. unfold str_eqb; destruct (str_eq_dec a b); split; congruence. Qed.

Lemma str_eqb_neq (a b : str) : str_eqb a b = false <-> a <> b.
Proof. unfold str_eqb; destruct (str_eq_dec a b); split; congruence. Qed.

Lemma str_eqb_refl (a : str) : str_eqb a a = true.
Proof. now apply str_eqb_eq. Qed.

(** ** Dictionaries *)

Lemma dict_get_set_same {V} (d : dict V) k v :
  dict_get (dict_set d k v) k = Some v.
Proof.
  induction d as [|[k' v'] d IH]; simpl.
  - now rewrite str_eqb_refl.
  - destruct (str_eqb k' k) eqn:E; simpl; rewrite E; auto.
Qed.

Lemma dict_get_set_other {V} (d : dict V) k k' v :
  k <> k' -> dict_get (dict_set d k v) k' = dict_get d k'.
Proof.
  intros Hne; induction d as [|[k0 v0] d IH]; simpl.
  - apply str_eqb_neq in Hne; now rewrite Hne.
  - destruct (str_eqb k0 k) eqn:E; simpl.
    + apply str_eqb_eq in E; subst k0.
      apply str_eqb_neq in Hne; now rewrite Hne.
    + destruct (str_eqb k0 k'); auto.
Qed.




(** ** C4 *)

(** C4 (decode-failure degrade): whenever [base64.b64decode] raises on the
    key data, [_generate_fingerprint] returns the sentinel ["unknown"]; the
    function is total, so nothing propagates to the caller. *)
Theorem generate_fingerprint_decode_failure (key_type key_data : str) :
  Base64.b64decode key_data = None ->
  SSHKeyParser._generate_fingerprint key_type key_data = lit "unknown".
Proof.
  intros H.
  unfold SSHKeyParser._generate_fingerprint,
    SSHKeyParser._generate_fingerprint_body.
  now rewrite H.
Qed.

Lemma generate_fingerprint_decode_failure_witness :
  Base64.b64decode (lit "not-base64!!") = None /\
  SSHKeyParser._generate_fingerprint (lit "ssh-rsa") (lit "not-base64!!")
  = lit "unknown".
Proof.
  split; [reflexivity|].
  apply (generate_fingerprint_decode_failure (lit "ssh-rsa") (lit "not-base64!!")).
  reflexivity.
Defined.

(** ** C6 *)

(** C6 (auth-method priority): the method is decided by substring
    occurrence in the order [publickey], [password],
    [keyboard-interactive]; a line with [publickey] yields ["publickey"]
    whatever else it contains, and a line with none of the three yields
    ["unknown"]. *)
Theorem auth_method_priority (line : str) :
  (occurs (lit "publickey") line -> auth_method line = lit "publickey") /\
  (~ occurs (lit "publickey") line -> occurs (lit "password") line ->
   auth_method line = lit "password") /\
  (~ occurs (lit "publickey") line -> ~ occurs (lit "password") line ->
   occurs (lit "keyboard-interactive") line ->
   auth_method line = lit "keyboard-interactive") /\
  (~ occurs (lit "publickey") line -> ~ occurs (lit "password") line ->
   ~ occurs (lit "keyboard-interactive") line ->
   auth_method line = lit "unknown").
Proof.
  unfold auth_method, AuthLogParser._parse_ssh_connection_line; cbn [c_auth_method].
  repeat split; intros;
    repeat match goal with
           | H : occurs _ _ |- _ => apply contains_occurs in H; rewrite H
           | H : ~ occurs _ _ |- _ => apply contains_not_occurs in H; rewrite H
           end; reflexivity.
Qed.

Lemma auth_method_priority_witness :
  let line := lit "sshd[7]: Accepted publickey for bob from 10.0.0.5 (password fallback)" in
  occurs (lit "publickey") line /\ occurs (lit "password") line /\
  c_auth_method (AuthLogParser._parse_ssh_connection_line line) = lit "publickey".
Proof.
  intros line.
  assert (Hpk : occurs (lit "publickey") line)
    by (apply contains_occurs; reflexivity).
  assert (Hpw : occurs (lit "password") line)
    by (apply contains_occurs; reflexivity).
  split; [exact Hpk | split; [exact Hpw |]].
  exact (proj1 (auth_method_priority line) Hpk).
Defined.

(** ** C10 *)

(** C10 (the environment fingerprint suppresses the comment fallback): when
    [SSH_KEY_FINGERPRINT] is set and non-empty the step returns the
    fingerprint lookup as it is, absent included, whatever
    [SSH_KEY_COMMENT] holds; the comment scan decides the result only when
    [SSH_KEY_FINGERPRINT] is unset or empty. *)
Theorem environment_fingerprint_suppresses_comment
        (self : SSHKeyParser.t) (env : environ) :
  (forall fp, env (lit "SSH_KEY_FINGERPRINT") = Some fp -> fp <> [] ->
     SSHKeyParser._find_key_from_ssh_environment self env
     = SSHKeyParser.find_key_by_fingerprint self fp /\
     forall env' : environ,
       env' (lit "SSH_KEY_FINGERPRINT") = Some fp ->
       SSHKeyParser._find_key_from_ssh_environment self env'
       = SSHKeyParser._find_key_from_ssh_environment self env) /\
  (unset_or_empty env (lit "SSH_KEY_FINGERPRINT") ->
     SSHKeyParser._find_key_from_ssh_environment self env
     = comment_scan self (env (lit "SSH_KEY_COMMENT"))).
Proof.
  unfold SSHKeyParser._find_key_from_ssh_environment; split.
  - intros fp Hfp Hne; rewrite Hfp.
    destruct fp as [|c fp]; [congruence|]; simpl.
    split; [reflexivity|].
    intros env' Hfp'; now rewrite Hfp'.
  - intros [H|H]; rewrite H; simpl;
      destruct (env (lit "SSH_KEY_COMMENT")) as [[|c cs]|]; reflexivity.
Qed.

(** A registry holding one key with comment [alice@laptop], and an
    environment naming a fingerprint the registry does not hold together
    with that comment: the result is absent. *)
Lemma environment_fingerprint_suppresses_comment_witness :
  let entry := mk_KeyInfo (lit "ssh-rsa") (lit "QUJD") (lit "90:01")
                          (lit "alice@laptop") [] (lit "ssh-rsa QUJD alice@laptop")
                          (Some 1) in
  let self := SSHKeyParser.mk (lit "/root/.ssh/authorized_keys")
                              (lit "/var/log/auth.log") [(lit "90:01", entry)] in
  let env : environ := fun name =>
    if str_eqb name (lit "SSH_KEY_FINGERPRINT") then Some (lit "ff:ff")
    else if str_eqb name (lit "SSH_KEY_COMMENT") then Some (lit "alice@laptop")
    else None in
  comment_scan self (env (lit "SSH_KEY_COMMENT")) = Some entry /\
  SSHKeyParser._find_key_from_ssh_environment self env = None.
Proof.
  intros entry self env; split; [reflexivity|].
  destruct (environment_fingerprint_suppresses_comment self env) as [H _].
  destruct (H (lit "ff:ff")) as [-> _]; [reflexivity|discriminate|reflexivity].
Defined.

(** ** C7 *)

Lemma split_once_spec (part : str) :
  occurs (lit "=") part ->
  let (key, value) := split_once "=" part in
  part = key ++ lit "=" ++ value /\ ~ In "="%char key.
Proof.
  intros (b & a & ->).
  induction b as [|c b IH]; simpl.
  - split; [reflexivity|tauto].
  - destruct (Ascii.eqb c "=") eqn:E.
    + apply Ascii.eqb_eq in E; subst c; split; [reflexivity|tauto].
    + simpl in IH; destruct (split_once "=" (b ++ "="%char :: a)) as [k v].
      destruct IH as [-> Hk]; split; [reflexivity|].
      intros [->|Hin]; [now rewrite Ascii.eqb_refl in E|tauto].
Qed.

Lemma fold_add_option (tokens : list str) (d : dict str) :
  fold_left SSHKeyParser.add_option tokens d =
  fold_left (fun d kv => dict_set d (fst kv) (snd kv))
            (map (split_once "=") (filter (contains (lit "=")) tokens)) d.
Proof.
  revert d; induction tokens as [|t ts IH]; intros d; simpl; [reflexivity|].
  rewrite IH; unfold SSHKeyParser.add_option.
  destruct (contains (lit "=") t); [|reflexivity].
  simpl; now destruct (split_once "=" t).
Qed.

Lemma removelast_firstn_length {A} (l : list A) :
  removelast l = firstn (length l - 1) l.
Proof.
  induction l as [|a [|b l] IH]; simpl in *; [reflexivity..|].
  rewrite IH; now rewrite Nat.sub_0_r.
Qed.

(** [parts[2:-1]] are the tokens after the key data without the last one. *)
Lemma slice_2_minus1 {A} (a b : A) (trailing : list A) :
  slice 2 (-1) (a :: b :: trailing) = removelast trailing.
Proof.
  unfold slice, slice_index; rewrite removelast_firstn_length.
  destruct trailing as [|c trailing]; [reflexivity|].
  change (length (a :: b :: c :: trailing)) with (S (S (S (length trailing)))).
  cbn [Z.ltb Z.compare].
  rewrite Z.min_l, Z.max_r by lia.
  change (Z.to_nat 2) with 2; cbn [skipn].
  f_equal; simpl length; lia.
Qed.

Lemma fold_set_keeps {V} (l : list (str * V)) (d : dict V) k :
  dict_get d k <> None \/ In k (map fst l) ->
  dict_get (fold_left (fun d kv => dict_set d (fst kv) (snd kv)) l d) k <> None.
Proof.
  revert d; induction l as [|[k0 v0] l IH]; intros d H; simpl.
  - destruct H as [H|[]]; exact H.
  - apply IH; simpl in H.
    destruct (str_eq_dec k0 k) as [->|Hne].
    + left; rewrite dict_get_set_same; discriminate.
    + destruct H as [H|[H|H]]; [left|congruence|now right].
      now rewrite dict_get_set_other.
Qed.

Lemma fold_set_sound {V} (l : list (str * V)) (d : dict V) k v :
  dict_get (fold_left (fun d kv => dict_set d (fst kv) (snd kv)) l d) k = Some v ->
  dict_get d k = Some v \/ In (k, v) l.
Proof.
  revert d; induction l as [|[k0 v0] l IH]; intros d H; simpl in *; [now left|].
  apply IH in H as [H|H]; [|now right; right].
  destruct (str_eq_dec k0 k) as [->|Hne].
  - rewrite dict_get_set_same in H; injection H as ->; right; now left.
  - rewrite dict_get_set_other in H by exact Hne; now left.
Qed.

(** Every option comes from a token that contains [=]. *)
Lemma options_of_sound (tokens : list str) (key value : str) :
  dict_get (options_of tokens) key = Some value ->
  exists t, In t tokens /\ occurs (lit "=") t /\ split_once "=" t = (key, value).
Proof.
  intros H; apply fold_set_sound in H as [H|H]; [discriminate H|].
  apply in_map_iff in H as (t & Ht & Hin).
  apply filter_In in Hin as [Hin Heq].
  exists t; split; [exact Hin|split; [now apply contains_occurs|exact Ht]].
Qed.

(** C7 (token ranges of a registry line): with tokens [t0 t1 trailing...],
    the comment is the first trailing token (the empty string when there is
    none) and the options come exactly from the trailing tokens without the
    last one, each token containing [=] split at its first [=].  Hence a
    single trailing token gives no options, and with two or more trailing
    tokens the first one is the comment and an option source at once. *)
Theorem parse_line_token_ranges (line t0 t1 : str) (trailing : list str) :
  split line = t0 :: t1 :: trailing ->
  exists key_info,
    SSHKeyParser._parse_authorized_key_line line = Some key_info /\
    k_type key_info = t0 /\ k_data key_info = t1 /\
    k_comment key_info = hd [] trailing /\
    k_options key_info = options_of (removelast trailing) /\
    (forall key value,
       dict_get (k_options key_info) key = Some value ->
       exists t, In t (removelast trailing) /\ occurs (lit "=") t /\
                 split_once "=" t = (key, value)) /\
    (length trailing <= 1 -> k_options key_info = []) /\
    (forall t2 t3 more, trailing = t2 :: t3 :: more ->
       occurs (lit "=") t2 ->
       k_comment key_info = t2 /\
       exists value,
         dict_get (k_options key_info) (fst (split_once "=" t2)) = Some value).
Proof.
  intros Hs; unfold SSHKeyParser._parse_authorized_key_line; rewrite Hs.
  eexists; split; [reflexivity|]; cbn [k_type k_data k_comment k_options nth].
  assert (Hopt :
    (if Nat.ltb 3 (length (t0 :: t1 :: trailing))
     then fold_left SSHKeyParser.add_option (slice 2 (-1) (t0 :: t1 :: trailing)) []
     else []) = options_of (removelast trailing)).
  { destruct trailing as [|t2 [|t3 more]]; [reflexivity..|].
    change (Nat.ltb 3 (length (t0 :: t1 :: t2 :: t3 :: more))) with true.
    cbv iota; rewrite slice_2_minus1, fold_add_option; reflexivity. }
  rewrite Hopt.
  split; [reflexivity|]. split; [reflexivity|].
  split; [destruct trailing; reflexivity|].
  split; [reflexivity|].
  split; [intros key value; apply options_of_sound|].
  split.
  - intros Hlen; destruct trailing as [|t2 [|t3 more]]; [reflexivity..|].
    simpl in Hlen; lia.
  - intros t2 t3 more -> Heq; split; [reflexivity|].
    match goal with |- exists v, ?g = Some v => destruct g eqn:E end;
      [eexists; reflexivity|exfalso].
    revert E; apply fold_set_keeps; right.
    apply contains_occurs in Heq.
    change (removelast (t2 :: t3 :: more)) with (t2 :: removelast (t3 :: more)).
    cbn [filter]; rewrite Heq; simpl; now left.
Qed.

(** The line of the specification's option-parsing scenario. *)
Lemma parse_line_token_ranges_witness :
  exists key_info,
    SSHKeyParser._parse_authorized_key_line
      (lit "ssh-rsa QUJD SSH_USER=alice comment-text") = Some key_info /\
    k_comment key_info = lit "SSH_USER=alice" /\
    k_options key_info = [(lit "SSH_USER", lit "alice")].
Proof.
  destruct (parse_line_token_ranges
              (lit "ssh-rsa QUJD SSH_USER=alice comment-text")
              (lit "ssh-rsa") (lit "QUJD")
              [lit "SSH_USER=alice"; lit "comment-text"] eq_refl)
    as (key_info & Hp & _ & _ & Hc & Ho & _).
  exists key_info; split; [exact Hp|split; [exact Hc|exact Ho]].
Defined.

(** ** C3 *)

Lemma le_bytes_length (n : nat) (x : N) : length (MD5.le_bytes n x) = n.
Proof. unfold MD5.le_bytes; now rewrite length_map, length_seq. Qed.

Lemma digest_length (msg : list byte) : length (MD5.digest msg) = 16.
Proof.
  unfold MD5.digest; rewrite length_map, !length_app, !le_bytes_length.
  reflexivity.
Qed.

Lemma hexdigest_octets (msg : list byte) :
  MD5.hexdigest msg = concat (map hex_of_byte (MD5.digest msg)).
Proof. unfold MD5.hexdigest; now rewrite flat_map_concat_map. Qed.

Lemma hex_of_byte_pair (b : byte) : octet_pair (hex_of_byte b).
Proof. split; [reflexivity|]; destruct b; reflexivity. Qed.

(** Cutting the hex rendering of 16 bytes at every second character gives
    back the 16 pairs. *)
Lemma pairs_of_hex (bs : list byte) :
  length bs = 16 ->
  let md5_hash := concat (map hex_of_byte bs) in
  map (fun i => slice (Z.of_nat i) (Z.of_nat i + 2) md5_hash)
      (range_step2 (length md5_hash))
  = map hex_of_byte bs.
Proof.
  intros H.
  do 16 (destruct bs as [|? bs]; [discriminate H|]).
  destruct bs; [|discriminate H].
  unfold hex_of_byte.
  repeat match goal with
         | |- context [MD5.hex_digit ?x] =>
             let c := fresh "c" in generalize (MD5.hex_digit x); intros c
         end.
  reflexivity.
Qed.

(** The value [_generate_fingerprint] returns on decodable key data. *)
Lemma generate_fingerprint_decoded (key_type key_data : str) (key_bytes : list byte) :
  Base64.b64decode key_data = Some key_bytes ->
  SSHKeyParser._generate_fingerprint key_type key_data
  = join (lit ":") (map hex_of_byte (MD5.digest key_bytes)).
Proof.
  intros H.
  unfold SSHKeyParser._generate_fingerprint,
    SSHKeyParser._generate_fingerprint_body.
  rewrite H; cbn [of_option bind try_except].
  rewrite hexdigest_octets.
  now rewrite (pairs_of_hex (MD5.digest key_bytes) (digest_length key_bytes)).
Qed.

Lemma join_colon_16_length (octets : list str) :
  length octets = 16 -> Forall octet_pair octets ->
  length (join (lit ":") octets) = 47.
Proof.
  intros H HF.
  do 16 (destruct octets as [|? octets]; [discriminate H|]).
  destruct octets; [|discriminate H].
  repeat match goal with
         | H : Forall _ (_ :: _) |- _ => inversion H as [|? ? [? _] ?]; clear H; subst
         end.
  cbn [join]; rewrite !length_app.
  repeat match goal with H : length _ = 2 |- _ => rewrite H; clear H end.
  reflexivity.
Qed.

Lemma generate_fingerprint_decoded_length (key_type key_data : str)
      (key_bytes : list byte) :
  Base64.b64decode key_data = Some key_bytes ->
  length (SSHKeyParser._generate_fingerprint key_type key_data) = 47.
Proof.
  intros H; rewrite (generate_fingerprint_decoded key_type key_data key_bytes H).
  apply join_colon_16_length.
  - now rewrite length_map, digest_length.
  - apply Forall_forall; intros o Ho; apply in_map_iff in Ho as (b & <- & _).
    apply hex_of_byte_pair.
Qed.



(** ** Loading the registry *)

Lemma parse_authorized_key_line_tokens (line t0 t1 : str) (trailing : list str) :
  split line = t0 :: t1 :: trailing ->
  exists comment options,
    SSHKeyParser._parse_authorized_key_line line
    = Some (mk_KeyInfo t0 t1 (SSHKeyParser._generate_fingerprint t0 t1)
                       comment options line None).
Proof.
  intros Hs; unfold SSHKeyParser._parse_authorized_key_line; rewrite Hs.
  cbn [length Nat.ltb Nat.leb nth]; eauto.
Qed.

Lemma parse_authorized_key_line_inv (line : str) (key_info : KeyInfo) :
  SSHKeyParser._parse_authorized_key_line line = Some key_info ->
  exists trailing,
    split line = k_type key_info :: k_data key_info :: trailing /\
    k_fingerprint key_info
    = SSHKeyParser._generate_fingerprint (k_type key_info) (k_data key_info) /\
    k_full_line key_info = line /\ k_line_number key_info = None.
Proof.
  unfold SSHKeyParser._parse_authorized_key_line.
  destruct (split line) as [|t0 [|t1 trailing]]; cbn [length Nat.ltb Nat.leb];
    try discriminate.
  intros [= <-]; exists trailing; cbn; auto.
Qed.

Lemma key_line_loaded (line kt kd : str) (trailing : list str) :
  key_line line kt kd trailing ->
  exists key_info,
    loaded_entry line = Some key_info /\
    SSHKeyParser._parse_authorized_key_line (strip line) = Some key_info /\
    k_type key_info = kt /\ k_data key_info = kd /\
    k_fingerprint key_info = SSHKeyParser._generate_fingerprint kt kd /\
    k_full_line key_info = strip line /\ k_line_number key_info = None.
Proof.
  intros [Hc Hs].
  destruct (parse_authorized_key_line_tokens _ _ _ _ Hs) as (c & o & Hp).
  exists (mk_KeyInfo kt kd (SSHKeyParser._generate_fingerprint kt kd) c o
                     (strip line) None).
  unfold loaded_entry.
  destruct (strip line) as [|x l] eqn:E; [discriminate Hs|].
  rewrite Hc; repeat split; exact Hp.
Qed.

Lemma loaded_key_line (line : str) (key_info : KeyInfo) :
  loaded_entry line = Some key_info ->
  exists trailing,
    key_line line (k_type key_info) (k_data key_info) trailing /\
    k_fingerprint key_info
    = SSHKeyParser._generate_fingerprint (k_type key_info) (k_data key_info).
Proof.
  unfold loaded_entry, key_line.
  destruct (strip line) as [|x l] eqn:E; [discriminate|].
  destruct (startswith (lit "#") (x :: l)) eqn:Hc; [discriminate|].
  intros Hp; destruct (parse_authorized_key_line_inv _ _ Hp) as (tr & Hs & Hf & _).
  exists tr; auto.
Qed.

Lemma load_line_entry (cache : dict KeyInfo) (n : nat) (line : str) :
  SSHKeyParser.load_line cache n line =
  match loaded_entry line with
  | Some key_info =>
      dict_set cache (k_fingerprint key_info) (set_line_number key_info n)
  | None => cache
  end.
Proof.
  unfold SSHKeyParser.load_line, loaded_entry.
  destruct (strip line); [reflexivity|].
  destruct (startswith _ _); reflexivity.
Qed.

Lemma load_lines_app (cache : dict KeyInfo) (n : nat) (l1 l2 : list str) :
  SSHKeyParser.load_lines cache n (l1 ++ l2) =
  SSHKeyParser.load_lines (SSHKeyParser.load_lines cache n l1) (n + length l1) l2.
Proof.
  revert cache n; induction l1 as [|l l1 IH]; intros cache n; simpl.
  - now rewrite Nat.add_0_r.
  - rewrite IH; f_equal; lia.
Qed.

(** Lines that contribute no entry under [fp] leave its slot alone. *)
Lemma load_lines_other (fp : str) (lines : list str) :
  (forall l key_info, In l lines -> loaded_entry l = Some key_info ->
                      k_fingerprint key_info <> fp) ->
  forall cache n,
    dict_get (SSHKeyParser.load_lines cache n lines) fp = dict_get cache fp.
Proof.
  induction lines as [|l lines IH]; intros H cache n; simpl; [reflexivity|].
  rewrite IH by (intros; eapply H; eauto; now right).
  rewrite load_line_entry.
  destruct (loaded_entry l) as [ki|] eqn:E; [|reflexivity].
  apply dict_get_set_other; eapply H; eauto; now left.
Qed.



(** The index slot of [fp] holds the last line that contributes an entry
    under [fp], with its 1-based line number. *)
Lemma load_lines_last (fp : str) (pre post : list str) (line : str)
      (key_info : KeyInfo) (cache : dict KeyInfo) (n : nat) :
  loaded_entry line = Some key_info ->
  k_fingerprint key_info = fp ->
  (forall l ki, In l post -> loaded_entry l = Some ki -> k_fingerprint ki <> fp) ->
  dict_get (SSHKeyParser.load_lines cache n (pre ++ line :: post)) fp
  = Some (set_line_number key_info (n + length pre)).
Proof.
  intros He Hf Hpost.
  rewrite load_lines_app; simpl.
  rewrite load_lines_other by exact Hpost.
  rewrite load_line_entry, He, Hf.
  apply dict_get_set_same.
Qed.

Lemma init_key_cache (fs : filesystem) (path : str) (lines : list str) :
  fs path = Content lines ->
  SSHKeyParser.key_cache (SSHKeyParser.__init__ fs path)
  = SSHKeyParser.load_lines [] 1 lines.
Proof.
  intros H; unfold SSHKeyParser.__init__, SSHKeyParser._load_authorized_keys,
    exists_, iterate; cbn [SSHKeyParser.key_cache]; now rewrite H.
Qed.

Lemma init_key_cache_yields (fs : filesystem) (path : str) (lines : list str) :
  yields (fs path) lines ->
  SSHKeyParser.key_cache (SSHKeyParser.__init__ fs path)
  = SSHKeyParser.load_lines [] 1 lines.
Proof.
  intros [H|H]; unfold SSHKeyParser.__init__,
    SSHKeyParser._load_authorized_keys, exists_, iterate;
    cbn [SSHKeyParser.key_cache]; now rewrite H.
Qed.

Lemma fingerprint_unknown_iff (kt kd : str) :
  SSHKeyParser._generate_fingerprint kt kd = lit "unknown"
  <-> Base64.b64decode kd = None.
Proof.
  split; intros H.
  - destruct (Base64.b64decode kd) as [bs|] eqn:E; [|reflexivity].
    apply (generate_fingerprint_decoded_length kt) in E.
    rewrite H in E; discriminate E.
  - unfold SSHKeyParser._generate_fingerprint,
      SSHKeyParser._generate_fingerprint_body; now rewrite H.
Qed.

(** ** C9 *)



(** ** C2 *)

Lemma lstrip_snoc_nonspace (l : str) (c : ascii) :
  isspace c = false -> exists x, lstrip (l ++ [c]) = x ++ [c].
Proof.
  intros Hc; induction l as [|a l IH]; simpl.
  - rewrite Hc; now exists [].
  - destruct (isspace a); [exact IH|now exists (a :: l)].
Qed.

(** A line that starts with [#] still does after [strip()]. *)
Lemma startswith_hash_strip (line : str) :
  startswith (lit "#") line = true -> startswith (lit "#") (strip line) = true.
Proof.
  intros H; destruct (startswith_inv _ _ H) as [rest ->].
  unfold strip, rstrip; change (lit "#" ++ rest) with ("#"%char :: rest).
  cbn [lstrip]; change (isspace "#") with false; cbv iota.
  cbn [rev].
  destruct (lstrip_snoc_nonspace (rev rest) "#" eq_refl) as [x ->].
  now rewrite rev_app_distr.
Qed.

Lemma key_line_data_matches (line kt kd : str) (trailing : list str) :
  key_line line kt kd trailing -> SSHKeyParser.data_matches kd line = true.
Proof.
  intros [Hc Hs]; unfold SSHKeyParser.data_matches.
  destruct (startswith (lit "#") line) eqn:E.
  - apply startswith_hash_strip in E; congruence.
  - rewrite Hs; destruct (strip line); [discriminate Hs|].
    cbn; now rewrite str_eqb_refl.
Qed.

Lemma data_matches_token (line kd : str) :
  SSHKeyParser.data_matches kd line = true -> key_data_token line = Some kd.
Proof.
  unfold SSHKeyParser.data_matches, key_data_token.
  destruct (strip line) as [|x l]; [discriminate|].
  destruct (split (x :: l)) as [|t0 [|t1 tr]]; cbn;
    rewrite ?andb_false_r; try discriminate.
  intros H; apply andb_true_iff in H as [_ H].
  now apply str_eqb_eq in H; subst.
Qed.

Lemma find_first {A} (f : A -> bool) (before after : list A) (x : A) :
  (forall y, In y before -> f y = false) -> f x = true ->
  find f (before ++ x :: after) = Some x.
Proof.
  intros Hb Hx; induction before as [|y before IH]; simpl.
  - now rewrite Hx.
  - rewrite (Hb y) by now left.
    apply IH; intros; apply Hb; now right.
Qed.

Lemma data_matches_inv (key_data line : str) :
  SSHKeyParser.data_matches key_data line = true ->
  startswith (lit "#") line = false /\ key_data_token line = Some key_data.
Proof.
  intros H; split; [|now apply data_matches_token].
  unfold SSHKeyParser.data_matches in H.
  destruct (strip line); [discriminate H|].
  destruct (startswith (lit "#") line); [discriminate H|reflexivity].
Qed.

(** [_find_key_by_data] returns the parse of the first line of the file
    that does not start with [#] and whose second token is the key data,
    whatever the index holds. *)
Lemma find_key_by_data_first (self : SSHKeyParser.t) (fs : filesystem)
      (before after : list str) (line kt kd : str) (trailing : list str) :
  fs (SSHKeyParser.authorized_keys_path self) = Content (before ++ line :: after) ->
  key_line line kt kd trailing ->
  (forall l, In l before ->
             startswith (lit "#") l = true \/ key_data_token l <> Some kd) ->
  SSHKeyParser._find_key_by_data self fs kd
  = SSHKeyParser._parse_authorized_key_line (strip line).
Proof.
  intros Hfs Hk Hb.
  unfold SSHKeyParser._find_key_by_data, SSHKeyParser._find_key_by_data_body,
    exists_, iterate.
  rewrite Hfs; cbn [negb bind fst snd].
  rewrite (find_first (SSHKeyParser.data_matches kd) before after line).
  - reflexivity.
  - intros l Hin; destruct (SSHKeyParser.data_matches kd l) eqn:E; [|reflexivity].
    apply data_matches_inv in E as [Hc Ht].
    destruct (Hb l Hin); congruence.
  - eapply key_line_data_matches; eauto.
Qed.

(** C2 (registry precedence, amended): when two kept lines of the registry
    file carry the same key data, their entries have the same fingerprint;
    the fingerprint lookup returns the entry of the later line (with its
    line number) provided no line after it yields that fingerprint, and the
    key-data lookup returns the entry parsed from the earlier line, read
    from the file whatever the index of the parser holds, provided no line
    before it that does not start with [#] has that key data as its second
    token. *)
Theorem registry_precedence
        (fs : filesystem) (path : str) (before between after : list str)
        (earlier later : str) (key_data kt1 kt2 : str) (tr1 tr2 : list str) :
  fs path = Content (before ++ earlier :: between ++ later :: after) ->
  key_line earlier kt1 key_data tr1 ->
  key_line later kt2 key_data tr2 ->
  (forall l, In l before ->
             startswith (lit "#") l = true \/ key_data_token l <> Some key_data) ->
  (forall l ki, In l after -> loaded_entry l = Some ki ->
     k_fingerprint ki <> SSHKeyParser._generate_fingerprint kt2 key_data) ->
  exists e1 e2,
    SSHKeyParser._parse_authorized_key_line (strip earlier) = Some e1 /\
    SSHKeyParser._parse_authorized_key_line (strip later) = Some e2 /\
    k_full_line e1 = strip earlier /\ k_full_line e2 = strip later /\
    k_fingerprint e1 = k_fingerprint e2 /\
    SSHKeyParser.find_key_by_fingerprint
      (SSHKeyParser.__init__ fs path) (k_fingerprint e2)
    = Some (set_line_number e2 (length before + length between + 2)) /\
    (forall self,
        SSHKeyParser.authorized_keys_path self = path ->
        SSHKeyParser._find_key_by_data self fs key_data = Some e1).
Proof.
  intros Hfs H1 H2 Hbefore Hafter.
  destruct (key_line_loaded _ _ _ _ H1) as (e1 & _ & Hp1 & _ & _ & Hf1 & Hl1 & _).
  destruct (key_line_loaded _ _ _ _ H2) as (e2 & He2 & Hp2 & _ & _ & Hf2 & Hl2 & _).
  exists e1, e2; repeat split; auto.
  - rewrite Hf1, Hf2.
    destruct (Base64.b64decode key_data) as [bs|] eqn:E.
    + now rewrite !(generate_fingerprint_decoded _ _ _ E).
    + transitivity (lit "unknown"); [|symmetry];
        now apply fingerprint_unknown_iff.
  - unfold SSHKeyParser.find_key_by_fingerprint.
    rewrite (init_key_cache _ _ _ Hfs).
    replace (before ++ earlier :: between ++ later :: after)
      with ((before ++ earlier :: between) ++ later :: after)
      by (now rewrite <- app_assoc).
    rewrite (load_lines_last (k_fingerprint e2) _ after later e2 [] 1 He2 eq_refl).
    + rewrite length_app; simpl; do 2 f_equal; lia.
    + intros l ki Hin He; rewrite Hf2; eapply Hafter; eauto.
  - intros self Hpath; subst path.
    rewrite (find_key_by_data_first self fs before (between ++ later :: after)
                                    earlier kt1 key_data tr1 Hfs H1 Hbefore).
    exact Hp1.
Qed.

(** A plain comment line that carries the key data may precede the two
    lines. *)
Lemma registry_precedence_witness :
  let path := SSHKeyParser.default_authorized_keys_path in
  let lines := [ text_line "#ssh-rsa QUJD old";
                 text_line "ssh-rsa QUJD first";
                 text_line "ssh-rsa QUJD second" ] in
  let fs := single_file path lines in
  let self := SSHKeyParser.__init__ fs path in
  exists e1 e2,
    k_comment e1 = lit "first" /\ k_comment e2 = lit "second" /\
    SSHKeyParser.find_key_by_fingerprint
      self (lit "90:2f:bd:d2:b1:df:0c:4f:70:b4:a5:d2:35:25:e9:32")
    = Some (set_line_number e2 3) /\
    SSHKeyParser._find_key_by_data self fs (lit "QUJD") = Some e1.
Proof.
  intros path lines fs self.
  destruct (registry_precedence
              fs path [text_line "#ssh-rsa QUJD old"] [] []
              (text_line "ssh-rsa QUJD first") (text_line "ssh-rsa QUJD second")
              (lit "QUJD") (lit "ssh-rsa") (lit "ssh-rsa")
              [lit "first"] [lit "second"])
    as (e1 & e2 & Hp1 & Hp2 & _ & _ & _ & Hget & Hdata).
  - reflexivity.
  - split; reflexivity.
  - split; reflexivity.
  - intros l [<-|[]]; left; reflexivity.
  - intros l ki [].
  - exists e1, e2.
    assert (E1 : e1 = mk_KeyInfo (lit "ssh-rsa") (lit "QUJD")
                   (lit "90:2f:bd:d2:b1:df:0c:4f:70:b4:a5:d2:35:25:e9:32")
                   (lit "first") [] (lit "ssh-rsa QUJD first") None)
      by (vm_compute in Hp1; injection Hp1 as <-; reflexivity).
    assert (E2 : e2 = mk_KeyInfo (lit "ssh-rsa") (lit "QUJD")
                   (lit "90:2f:bd:d2:b1:df:0c:4f:70:b4:a5:d2:35:25:e9:32")
                   (lit "second") [] (lit "ssh-rsa QUJD second") None)
      by (vm_compute in Hp2; injection Hp2 as <-; reflexivity).
    split; [now rewrite E1|]. split; [now rewrite E2|].
    split; [rewrite E2 in Hget at 1; exact Hget|].
    apply Hdata; reflexivity.
Defined.

(** The claim fails without the two provisos.  In the first file an
    indented comment line precedes the two lines: the loader skips it, but
    the key-data lookup returns it instead of the earlier line.  In the
    second file a later line has another key-data token that decodes to the
    same bytes: the fingerprint lookup returns that line instead of the
    later of the two. *)
Lemma registry_precedence_counterexample :
  let path := SSHKeyParser.default_authorized_keys_path in
  let first := text_line "ssh-rsa QUJD first" in
  let second := text_line "ssh-rsa QUJD second" in
  let retired := text_line " #ssh-rsa QUJD retired" in
  let third := text_line "ssh-dss QU-JD third" in
  let fs1 := single_file path [retired; first; second] in
  let fs2 := single_file path [first; second; third] in
  exists e1 e2 r1 r2,
    loaded_entry first = Some e1 /\ loaded_entry second = Some e2 /\
    k_data e1 = lit "QUJD" /\ k_data e2 = lit "QUJD" /\
    loaded_entry retired = None /\
    key_data_token third <> Some (lit "QUJD") /\
    SSHKeyParser._find_key_by_data (SSHKeyParser.__init__ fs1 path) fs1 (lit "QUJD")
    = Some r1 /\
    k_type r1 = lit "#ssh-rsa" /\ r1 <> e1 /\
    SSHKeyParser.find_key_by_fingerprint
      (SSHKeyParser.__init__ fs2 path) (k_fingerprint e2) = Some r2 /\
    k_comment r2 = lit "third" /\ r2 <> set_line_number e2 2.
Proof.
  cbv zeta.
  exists (mk_KeyInfo (lit "ssh-rsa") (lit "QUJD")
            (lit "90:2f:bd:d2:b1:df:0c:4f:70:b4:a5:d2:35:25:e9:32")
            (lit "first") [] (lit "ssh-rsa QUJD first") None),
         (mk_KeyInfo (lit "ssh-rsa") (lit "QUJD")
            (lit "90:2f:bd:d2:b1:df:0c:4f:70:b4:a5:d2:35:25:e9:32")
            (lit "second") [] (lit "ssh-rsa QUJD second") None),
         (mk_KeyInfo (lit "#ssh-rsa") (lit "QUJD")
            (lit "90:2f:bd:d2:b1:df:0c:4f:70:b4:a5:d2:35:25:e9:32")
            (lit "retired") [] (lit "#ssh-rsa QUJD retired") None),
         (mk_KeyInfo (lit "ssh-dss") (lit "QU-JD")
            (lit "90:2f:bd:d2:b1:df:0c:4f:70:b4:a5:d2:35:25:e9:32")
            (lit "third") [] (lit "ssh-dss QU-JD third") (Some 3)).
  repeat (split; [vm_compute; try reflexivity; discriminate|]).
  vm_compute; discriminate.
Qed.

(** ** C8 *)

Lemma find_absent {A} (f : A -> bool) (l : list A) :
  (forall x, In x l -> f x = false) -> find f l = None.
Proof.
  induction l as [|a l IH]; intros H; simpl; [reflexivity|].
  rewrite (H a) by now left.
  apply IH; intros; apply H; now right.
Qed.

Lemma in_skipn {A} (n : nat) (l : list A) (x : A) : In x (skipn n l) -> In x l.
Proof.
  revert l; induction n as [|n IH]; intros [|a l]; simpl; auto.
Qed.

Lemma in_recent_lines (max_lines : Z) (lines : list str) (x : str) :
  In x (AuthLogParser.recent_lines max_lines lines) -> In x lines.
Proof.
  unfold AuthLogParser.recent_lines, slice_from.
  destruct (_ >? _)%Z; [apply in_skipn|auto].
Qed.

Lemma find_recent_non_matching (self : AuthLogParser.t) (fs : filesystem)
      (ip username : str) (max_lines : Z) (lines : list str) :
  fs (AuthLogParser.auth_log_path self) = Content lines ->
  non_matching_log ip username lines ->
  AuthLogParser.find_recent_ssh_connection self fs ip username max_lines = None.
Proof.
  intros Hfs Hno.
  unfold AuthLogParser.find_recent_ssh_connection,
    AuthLogParser.find_recent_ssh_connection_body, exists_, read_lines.
  rewrite Hfs; cbn [negb bind].
  rewrite !find_absent; [reflexivity| |];
    intros x Hx; apply in_rev, in_recent_lines in Hx; now apply Hno in Hx.
Qed.

Lemma scan_recent_absent (self : SSHKeyParser.t) (fs : filesystem) (ip : str)
      (lines : list str) :
  (forall l, In l lines -> AuthLogParser.is_accepted_from ip l = false) ->
  SSHKeyParser.scan_recent self fs ip lines = None.
Proof.
  induction lines as [|l lines IH]; intros H; simpl; [reflexivity|].
  rewrite (H l) by now left.
  apply IH; intros; apply H; now right.
Qed.

Lemma environment_without_hints (self : SSHKeyParser.t) (env : environ) :
  unset_or_empty env (lit "SSH_KEY_FINGERPRINT") ->
  unset_or_empty env (lit "SSH_KEY_COMMENT") ->
  SSHKeyParser._find_key_from_ssh_environment self env = None.
Proof.
  unfold SSHKeyParser._find_key_from_ssh_environment.
  intros [-> | ->] [-> | ->]; reflexivity.
Qed.

(** C8 (no-evidence totality): when the auth log is missing or holds no
    matching line and neither [SSH_KEY_FINGERPRINT] nor [SSH_KEY_COMMENT] is
    set (or they are empty), [find_key_by_ip_and_user] returns [None] for
    every address and user name, and its body reaches its last [return]
    without raising; this holds whatever the registry file is, an empty or
    missing one included. *)
Theorem no_evidence_is_absent
        (fs : filesystem) (registry_path : str) (env : environ)
        (ip_address username : str) :
  (fs (lit "/var/log/auth.log") = Missing \/
   exists lines, fs (lit "/var/log/auth.log") = Content lines /\
                 non_matching_log ip_address username lines) ->
  unset_or_empty env (lit "SSH_KEY_FINGERPRINT") ->
  unset_or_empty env (lit "SSH_KEY_COMMENT") ->
  let self := SSHKeyParser.__init__ fs registry_path in
  SSHKeyParser.find_key_by_ip_and_user_body self fs env ip_address username
  = Return None /\
  SSHKeyParser.find_key_by_ip_and_user self fs env ip_address username = None.
Proof.
  intros Hlog Hfp Hcomment self.
  assert (Hbody :
    SSHKeyParser.find_key_by_ip_and_user_body self fs env ip_address username
    = Return None).
  { unfold SSHKeyParser.find_key_by_ip_and_user_body.
    assert (Hci : AuthLogParser.find_recent_ssh_connection
                    AuthLogParser.__init__ fs ip_address username
                    AuthLogParser.default_max_lines = None).
    { destruct Hlog as [Hm | (lines & Hc & Hno)].
      - unfold AuthLogParser.find_recent_ssh_connection,
          AuthLogParser.find_recent_ssh_connection_body, exists_.
        cbn [AuthLogParser.__init__ AuthLogParser.auth_log_path].
        now rewrite Hm.
      - now apply find_recent_non_matching with lines. }
    rewrite Hci; cbn [SSHKeyParser.by_logged_fingerprint
                        SSHKeyParser.by_logged_key_data].
    assert (Hstep3 : SSHKeyParser.by_recent_lines self fs ip_address = Return None).
    { unfold SSHKeyParser.by_recent_lines, exists_, read_lines.
      cbn [self SSHKeyParser.__init__ SSHKeyParser.auth_log_path].
      destruct Hlog as [Hm | (lines & Hc & Hno)]; [now rewrite Hm|].
      rewrite Hc; cbn [bind]; f_equal.
      apply scan_recent_absent; intros l Hl; apply in_rev in Hl.
      assert (Hin : In l lines).
      { destruct (Nat.ltb 100 (length lines)); [|exact Hl].
        unfold slice_from in Hl; now apply in_skipn in Hl. }
      now apply Hno in Hin. }
    rewrite Hstep3; cbn [bind].
    now rewrite environment_without_hints. }
  split; [exact Hbody|].
  unfold SSHKeyParser.find_key_by_ip_and_user; now rewrite Hbody.
Qed.

(** Nothing at all on the machine: no registry, no auth log, an empty
    environment. *)
Lemma no_evidence_is_absent_witness :
  let fs : filesystem := fun _ => Missing in
  let env : environ := fun _ => None in
  SSHKeyParser.key_cache
    (SSHKeyParser.__init__ fs SSHKeyParser.default_authorized_keys_path) = [] /\
  SSHKeyParser.find_key_by_ip_and_user
    (SSHKeyParser.__init__ fs SSHKeyParser.default_authorized_keys_path)
    fs env (lit "10.0.0.5") (lit "alice") = None.
Proof.
  intros fs env; split; [reflexivity|].
  apply (no_evidence_is_absent fs SSHKeyParser.default_authorized_keys_path env
                               (lit "10.0.0.5") (lit "alice")).
  - left; reflexivity.
  - left; reflexivity.
  - left; reflexivity.
Defined.

(** ** C5 *)

Lemma recent_lines_last (max_lines : Z) (lines : list str) :
  (1 <= max_lines)%Z ->
  AuthLogParser.recent_lines max_lines lines
  = last_lines (Z.to_nat max_lines) lines.
Proof.
  intros Hm; unfold AuthLogParser.recent_lines, last_lines, slice_from, slice_index.
  destruct (Z.gtb_spec (Z.of_nat (length lines)) max_lines) as [Hgt|Hle].
  - destruct (Z.ltb_spec (- max_lines) 0) as [_|Hneg]; [|lia].
    f_equal; lia.
  - replace (length lines - Z.to_nat max_lines) with 0 by lia.
    reflexivity.
Qed.

(** For a window of at least one line the scan sees only the last
    [max_lines] lines: two logs that agree on them give the same result. *)
Lemma find_recent_window_positive (self : AuthLogParser.t) (fs1 fs2 : filesystem)
      (ip username : str) (max_lines : Z) (lines1 lines2 : list str) :
  (1 <= max_lines)%Z ->
  fs1 (AuthLogParser.auth_log_path self) = Content lines1 ->
  fs2 (AuthLogParser.auth_log_path self) = Content lines2 ->
  last_lines (Z.to_nat max_lines) lines1 = last_lines (Z.to_nat max_lines) lines2 ->
  AuthLogParser.find_recent_ssh_connection self fs1 ip username max_lines
  = AuthLogParser.find_recent_ssh_connection self fs2 ip username max_lines.
Proof.
  intros Hm H1 H2 Hlast.
  unfold AuthLogParser.find_recent_ssh_connection,
    AuthLogParser.find_recent_ssh_connection_body, exists_, read_lines.
  rewrite H1, H2; cbn [negb bind].
  now rewrite !recent_lines_last, Hlast by exact Hm.
Qed.

(** C5 (log window bound) at [max_lines = 0]: the two logs below agree on
    their last 0 lines, yet the scan of the first one inspects its only
    line and returns its evidence, while the scan of the second one returns
    nothing; [lines[-0:]] is the whole list. *)
Theorem find_recent_window_zero :
  let self := AuthLogParser.__init__ in
  let path := AuthLogParser.auth_log_path self in
  let old := text_line
    "Nov  3 10:00:00 host sshd[812]: Accepted publickey for alice from 10.0.0.5 port 50022 ssh2" in
  let log1 := [old] in
  let log2 := [text_line "Nov  3 10:00:01 host cron[900]: session opened"] in
  last_lines 0 log1 = last_lines 0 log2 /\
  AuthLogParser.recent_lines 0 log1 = log1 /\
  AuthLogParser.find_recent_ssh_connection
    self (single_file path log1) (lit "10.0.0.5") (lit "alice") 0
  = Some (AuthLogParser._parse_ssh_connection_line old) /\
  AuthLogParser.find_recent_ssh_connection
    self (single_file path log2) (lit "10.0.0.5") (lit "alice") 0
  = None.
Proof.
  repeat split; vm_compute; reflexivity.
Qed.

(** ** C1 *)

Lemma take_class_stop (cls : ascii -> bool) (a b : str) (c : ascii) :
  cls c = false -> Re.take_class cls (a ++ c :: b) = Re.take_class cls a.
Proof.
  intros Hc; induction a as [|x a IH]; simpl.
  - now rewrite Hc.
  - destruct (cls x); [now rewrite IH|reflexivity].
Qed.

Lemma take_class_run (cls : ascii -> bool) (run post : str) :
  forallb cls run = true -> run_ends cls post ->
  Re.take_class cls (run ++ post) = run.
Proof.
  intros Hr Hp; induction run as [|x run IH]; simpl in *.
  - destruct post as [|c post]; simpl in *; [reflexivity|now rewrite Hp].
  - apply andb_true_iff in Hr as [Hx Hr]; rewrite Hx; now rewrite IH.
Qed.

Lemma skipn_prefix {A} (a b : list A) : skipn (length a) (a ++ b) = b.
Proof. induction a; simpl; auto. Qed.

Lemma match_here_run (p : Re.pattern) (run post : str) :
  forallb (Re.cls p) run = true -> Re.min_run p <= length run ->
  run_ends (Re.cls p) post ->
  Re.match_here p (Re.prefix p ++ run ++ post) = Some run.
Proof.
  intros Hr Hlen Hp; unfold Re.match_here.
  rewrite startswith_app, skipn_prefix, take_class_run by assumption.
  apply Nat.leb_le in Hlen; now rewrite Hlen.
Qed.

Lemma search_unfold (p : Re.pattern) (s : str) :
  Re.search p s =
  match Re.match_here p s with
  | Some g => Some g
  | None => match s with [] => None | _ :: s' => Re.search p s' end
  end.
Proof. destruct s; reflexivity. Qed.

(** The search passes over a text in which no match starts. *)
Lemma search_skip (p : Re.pattern) (head rest : str) :
  (forall j, j < length head -> Re.match_here p (skipn j head ++ rest) = None) ->
  Re.search p (head ++ rest) = Re.search p rest.
Proof.
  induction head as [|c head IH]; intros H; [reflexivity|].
  rewrite search_unfold.
  pose proof (H 0 (Nat.lt_0_succ _)) as H0; cbn [skipn] in H0; rewrite H0.
  simpl; apply IH; intros j Hj.
  apply (H (S j)); simpl; lia.
Qed.

Lemma has_run_suffix (cls : ascii -> bool) (n : nat) (s : str) :
  has_run cls n s = false ->
  forall j, Nat.leb n (length (Re.take_class cls (skipn j s))) = false.
Proof.
  induction s as [|c s IH]; intros H j.
  - rewrite skipn_nil; simpl in H; now rewrite orb_false_r in H.
  - cbn [has_run] in H; apply orb_false_iff in H as [H0 Hs].
    destruct j as [|j]; [exact H0|now apply IH].
Qed.

(** No match of [key_pattern] starts inside a text that, followed by [key],
    has no run of 50 base64 characters. *)
Lemma no_key_match_before (head rest : str) :
  has_run Re.cls_base64 50 (head ++ lit "key") = false ->
  forall j, j < length head ->
    Re.match_here key_pattern (skipn j head ++ lit "key " ++ rest) = None.
Proof.
  intros Hrun j Hj.
  pose proof (has_run_suffix _ _ _ Hrun (4 + j)) as Hbound.
  rewrite <- skipn_skipn, skipn_app in Hbound.
  replace (j - length head) with 0 in Hbound by lia.
  cbn [skipn] in Hbound.
  assert (Hne : skipn j head <> []).
  { intros E; apply (f_equal (@length _)) in E.
    rewrite length_skipn in E; simpl in E; lia. }
  unfold Re.match_here; cbn [key_pattern Re.prefix Re.cls Re.min_run].
  change (lit "key ") with ["k"; "e"; "y"; " "]%char in *.
  change (lit "key") with ["k"; "e"; "y"]%char in *.
  destruct (skipn j head) as [|c1 [|c2 [|c3 [|c4 s']]]]; [congruence|..].
  - cbn; now rewrite andb_false_r.
  - cbn; now rewrite !andb_false_r.
  - cbn; now rewrite !andb_false_r.
  - cbn [app] in *.
    destruct (startswith _ _); [|reflexivity].
    cbn [length skipn] in *.
    change (s' ++ "k"%char :: "e"%char :: "y"%char :: " "%char :: rest)
      with (s' ++ ["k"; "e"; "y"]%char ++ " "%char :: rest).
    rewrite app_assoc, take_class_stop by reflexivity.
    now rewrite Hbound.
Qed.

(** The key-data pattern finds the key material that follows the first
    [key ] not preceded by another long base64 run. *)
Lemma search_key_data (head kd post : str) :
  has_run Re.cls_base64 50 (head ++ lit "key") = false ->
  forallb Re.cls_base64 kd = true -> 50 <= length kd ->
  run_ends Re.cls_base64 post ->
  Re.search key_pattern (head ++ lit "key " ++ kd ++ post) = Some kd.
Proof.
  intros Hrun Hkd Hlen Hpost.
  rewrite search_skip by (now apply no_key_match_before).
  rewrite search_unfold.
  pose proof (match_here_run key_pattern kd post Hkd Hlen Hpost) as Hm.
  cbn [key_pattern Re.prefix] in Hm; fold key_pattern in Hm.
  now rewrite Hm.
Qed.

Lemma is_ssh_connection_line_publickey (pre username ip mid rest : str) :
  AuthLogParser._is_ssh_connection_line
    (accepted_publickey pre username ip mid ++ rest) ip username = true.
Proof.
  unfold AuthLogParser._is_ssh_connection_line, Re.search_escaped.
  cbn [existsb]; apply orb_true_iff; left.
  apply contains_occurs; exists pre, (mid ++ rest).
  unfold accepted_publickey; now repeat rewrite <- app_assoc.
Qed.

(** The scan returns the evidence of the last line of the log that matches
    one of the three exact patterns, when it lies in the window. *)
Lemma find_recent_last_exact (fs : filesystem) (ip username : str)
      (log_before log_after : list str) (line : str) :
  fs (lit "/var/log/auth.log") = Content (log_before ++ line :: log_after) ->
  length log_after < 1000 ->
  AuthLogParser._is_ssh_connection_line line ip username = true ->
  (forall l, In l log_after ->
             AuthLogParser._is_ssh_connection_line l ip username = false) ->
  AuthLogParser.find_recent_ssh_connection
    AuthLogParser.__init__ fs ip username AuthLogParser.default_max_lines
  = Some (AuthLogParser._parse_ssh_connection_line line).
Proof.
  intros Hfs Hlen Hline Hafter.
  unfold AuthLogParser.find_recent_ssh_connection,
    AuthLogParser.find_recent_ssh_connection_body, exists_, read_lines.
  cbn [AuthLogParser.__init__ AuthLogParser.auth_log_path].
  rewrite Hfs; cbn [negb bind].
  rewrite recent_lines_last by (unfold AuthLogParser.default_max_lines; lia).
  unfold last_lines; rewrite skipn_app.
  replace (length (log_before ++ line :: log_after)
           - Z.to_nat AuthLogParser.default_max_lines - length log_before)
    with 0
    by (rewrite length_app; simpl;
        change (Z.to_nat AuthLogParser.default_max_lines) with 1000; lia).
  cbn [skipn]; rewrite rev_app_distr; cbn [rev]; rewrite <- app_assoc.
  cbn [app].
  rewrite (find_first _ (rev log_after) _ line); [reflexivity| |exact Hline].
  intros l Hl; apply in_rev in Hl; now apply Hafter.
Qed.

(** ** What a match of a pattern is *)

Lemma take_class_prefix (cls : ascii -> bool) (s : str) :
  forallb cls (Re.take_class cls s) = true /\
  exists rest, s = Re.take_class cls s ++ rest.
Proof.
  induction s as [|c s [IH1 [rest IH2]]]; simpl.
  - split; [reflexivity|now exists []].
  - destruct (cls c) eqn:E; simpl.
    + rewrite E, IH1; split; [reflexivity|].
      exists rest; now rewrite <- IH2.
    + split; [reflexivity|now exists (c :: s)].
Qed.

Lemma take_class_app_run (cls : ascii -> bool) (run rest : str) :
  forallb cls run = true ->
  Re.take_class cls (run ++ rest) = run ++ Re.take_class cls rest.
Proof.
  induction run as [|c run IH]; simpl; [reflexivity|].
  intros H; apply andb_true_iff in H as [Hc Hr]; rewrite Hc; now rewrite IH.
Qed.

Lemma match_here_sound (p : Re.pattern) (s g : str) :
  Re.match_here p s = Some g ->
  forallb (Re.cls p) g = true /\ Re.min_run p <= length g /\
  exists rest, s = Re.prefix p ++ g ++ rest.
Proof.
  unfold Re.match_here.
  destruct (startswith (Re.prefix p) s) eqn:Hp; [|discriminate].
  destruct (startswith_inv _ _ Hp) as [tail ->].
  rewrite skipn_prefix.
  destruct (Nat.leb_spec (Re.min_run p) (length (Re.take_class (Re.cls p) tail)));
    [|discriminate].
  intros [= <-].
  destruct (take_class_prefix (Re.cls p) tail) as [Hc [rest Hr]].
  repeat split; auto.
  exists rest; now rewrite <- Hr.
Qed.

Lemma search_sound (p : Re.pattern) (s g : str) :
  Re.search p s = Some g ->
  forallb (Re.cls p) g = true /\ Re.min_run p <= length g /\
  occurs (Re.prefix p ++ g) s.
Proof.
  induction s as [|c s IH]; rewrite search_unfold;
    destruct (Re.match_here p _) as [g'|] eqn:E; try discriminate.
  - intros [= ->]; destruct (match_here_sound _ _ _ E) as (H1 & H2 & rest & Hr).
    repeat split; auto; exists [], rest; now rewrite <- app_assoc.
  - intros [= ->]; destruct (match_here_sound _ _ _ E) as (H1 & H2 & rest & Hr).
    repeat split; auto; exists [], rest; now rewrite <- app_assoc.
  - intros H; destruct (IH H) as (H1 & H2 & b & a & ->).
    repeat split; auto; exists (c :: b), a; reflexivity.
Qed.

Lemma search_none_here (p : Re.pattern) (before s : str) :
  Re.search p (before ++ s) = None -> Re.match_here p s = None.
Proof.
  induction before as [|c before IH]; rewrite search_unfold; simpl.
  - destruct (Re.match_here p s); [discriminate|reflexivity].
  - destruct (Re.match_here p (c :: before ++ s)); [discriminate|exact IH].
Qed.

Lemma search_complete (p : Re.pattern) (s g : str) :
  Re.search p s = None ->
  forallb (Re.cls p) g = true -> Re.min_run p <= length g ->
  ~ occurs (Re.prefix p ++ g) s.
Proof.
  intros Hs Hg Hlen (b & a & ->).
  apply search_none_here in Hs; unfold Re.match_here in Hs.
  rewrite <- app_assoc, startswith_app, skipn_prefix, take_class_app_run in Hs
    by exact Hg.
  rewrite length_app in Hs.
  destruct (Nat.leb_spec (Re.min_run p)
                         (length g + length (Re.take_class (Re.cls p) a)));
    [discriminate Hs|lia].
Qed.

Lemma first_match_some (ps : list Re.pattern) (s g : str) :
  Re.first_match ps s = Some g ->
  exists p, In p ps /\ Re.search p s = Some g.
Proof.
  induction ps as [|p ps IH]; simpl; [discriminate|].
  destruct (Re.search p s) as [g'|] eqn:E.
  - intros [= ->]; exists p; auto.
  - intros H; destruct (IH H) as (q & Hq & Hs); exists q; auto.
Qed.

Lemma first_match_none (ps : list Re.pattern) (s : str) :
  Re.first_match ps s = None ->
  forall p, In p ps -> Re.search p s = None.
Proof.
  induction ps as [|p ps IH]; simpl; [intros _ ? []|].
  destruct (Re.search p s) eqn:E; [discriminate|].
  intros H q [<-|Hq]; auto.
Qed.

Lemma first_match_app (ps qs : list Re.pattern) (s : str) :
  Re.first_match (ps ++ qs) s
  = match Re.first_match ps s with
    | Some g => Some g
    | None => Re.first_match qs s
    end.
Proof.
  induction ps as [|p ps IH]; simpl; [reflexivity|].
  destruct (Re.search p s); [reflexivity|exact IH].
Qed.

Lemma load_lines_no_entries (lines : list str) :
  (forall l, In l lines -> loaded_entry l = None) ->
  forall cache n, SSHKeyParser.load_lines cache n lines = cache.
Proof.
  induction lines as [|l lines IH]; intros H cache n; simpl; [reflexivity|].
  rewrite load_line_entry, (H l) by now left.
  apply IH; intros; apply H; now right.
Qed.

Lemma is_ssh_connection_line_publickey_occurs (line ip username : str) :
  occurs (lit "Accepted publickey for " ++ username ++ lit " from " ++ ip) line ->
  AuthLogParser._is_ssh_connection_line line ip username = true.
Proof.
  intros H; unfold AuthLogParser._is_ssh_connection_line, Re.search_escaped.
  cbn [existsb]; apply orb_true_iff; left; now apply contains_occurs.
Qed.

(** C1 (fallback ordering, amended): the registry file holds one entry
    only, with key data [key_data], and no line before it that does not
    start with [#] has that key data as its second token; the last line of
    the auth log that matches the user and the address contains
    [Accepted publickey for <username> from <ip>], lies within the last
    1000 lines of the log, has no parsable fingerprint token, and its
    leftmost [key <run of at least 50 base64 characters>] is the key data.
    Then the evidence has fingerprint ["unknown"], the fingerprint step
    gives nothing, the key-data step finds the entry of the registry and
    [find_key_by_ip_and_user] returns it. *)
Theorem fallback_to_key_data
        (fs : filesystem) (registry_path : str) (env : environ)
        (ip_address username : str)
        (registry_before registry_after : list str)
        (registry_line key_type key_data : str) (trailing : list str)
        (log_before log_after : list str) (line : str) :
  fs registry_path
  = Content (registry_before ++ registry_line :: registry_after) ->
  key_line registry_line key_type key_data trailing ->
  (forall l, In l (registry_before ++ registry_after) -> loaded_entry l = None) ->
  (forall l, In l registry_before ->
             startswith (lit "#") l = true \/ key_data_token l <> Some key_data) ->
  fs (lit "/var/log/auth.log") = Content (log_before ++ line :: log_after) ->
  length log_after < 1000 ->
  occurs (lit "Accepted publickey for " ++ username ++ lit " from " ++ ip_address)
         line ->
  (forall l, In l log_after ->
             AuthLogParser._is_ssh_connection_line l ip_address username = false) ->
  Re.first_match AuthLogParser.fingerprint_patterns line = None ->
  Re.search key_pattern line = Some key_data ->
  let self := SSHKeyParser.__init__ fs registry_path in
  let connection_info :=
    AuthLogParser.find_recent_ssh_connection
      AuthLogParser.__init__ fs ip_address username
      AuthLogParser.default_max_lines in
  exists entry,
    SSHKeyParser._parse_authorized_key_line (strip registry_line) = Some entry /\
    k_data entry = key_data /\
    SSHKeyParser.key_cache self
    = [(k_fingerprint entry,
        set_line_number entry (length registry_before + 1))] /\
    forallb Re.cls_base64 key_data = true /\ 50 <= length key_data /\
    occurs (lit "key " ++ key_data) line /\
    connection_info = Some (AuthLogParser._parse_ssh_connection_line line) /\
    c_fingerprint (AuthLogParser._parse_ssh_connection_line line) = lit "unknown" /\
    c_key_data (AuthLogParser._parse_ssh_connection_line line) = key_data /\
    SSHKeyParser.by_logged_fingerprint self connection_info = None /\
    SSHKeyParser.by_logged_key_data self fs connection_info = Some entry /\
    SSHKeyParser.find_key_by_ip_and_user self fs env ip_address username
    = Some entry.
Proof.
  intros Hreg Hkey Honly Hfirst Hlog Hafter Hline Hnone Hfp Hsearch
         self connection_info.
  destruct (key_line_loaded _ _ _ _ Hkey)
    as (entry & Hentry & Hparse & _ & Hdata & _).
  destruct (search_sound _ _ _ Hsearch) as (Hcls & Hlen & Hocc).
  cbn [key_pattern Re.cls Re.min_run Re.prefix] in Hcls, Hlen, Hocc.
  assert (Hci : connection_info
                = Some (AuthLogParser._parse_ssh_connection_line line)).
  { apply find_recent_last_exact with log_before log_after; auto.
    now apply is_ssh_connection_line_publickey_occurs. }
  assert (Hcfp : c_fingerprint (AuthLogParser._parse_ssh_connection_line line)
                 = lit "unknown").
  { unfold AuthLogParser._parse_ssh_connection_line; cbn [c_fingerprint].
    now rewrite Hfp. }
  assert (Hckd : c_key_data (AuthLogParser._parse_ssh_connection_line line)
                 = key_data).
  { unfold AuthLogParser._parse_ssh_connection_line; cbn [c_key_data].
    unfold AuthLogParser.key_data_patterns; cbn [Re.first_match].
    change (Re.mk_pattern (lit "key ") Re.cls_base64 50) with key_pattern.
    now rewrite Hsearch. }
  assert (Hstep1 : SSHKeyParser.by_logged_fingerprint self connection_info = None).
  { rewrite Hci; unfold SSHKeyParser.by_logged_fingerprint.
    now rewrite Hcfp, str_eqb_refl. }
  assert (Hstep2 : SSHKeyParser.by_logged_key_data self fs connection_info
                   = Some entry).
  { rewrite Hci; unfold SSHKeyParser.by_logged_key_data; rewrite Hckd.
    assert (Hne : str_eqb key_data (lit "unknown") = false).
    { apply str_eqb_neq; intros E; rewrite E in Hlen; simpl in Hlen; lia. }
    rewrite Hne; cbn [negb].
    rewrite (find_key_by_data_first self fs registry_before registry_after
                                    registry_line key_type key_data trailing);
      [exact Hparse|exact Hreg|exact Hkey|exact Hfirst]. }
  exists entry.
  split; [exact Hparse|]. split; [exact Hdata|].
  split.
  { unfold self; rewrite (init_key_cache _ _ _ Hreg), load_lines_app.
    rewrite (load_lines_no_entries registry_before)
      by (intros; apply Honly, in_or_app; now left).
    cbn [SSHKeyParser.load_lines].
    rewrite (load_lines_no_entries registry_after)
      by (intros; apply Honly, in_or_app; now right).
    rewrite load_line_entry, Hentry; cbn [dict_set].
    do 3 f_equal; lia. }
  split; [exact Hcls|]. split; [exact Hlen|]. split; [exact Hocc|].
  repeat split; auto.
  unfold SSHKeyParser.find_key_by_ip_and_user,
    SSHKeyParser.find_key_by_ip_and_user_body.
  fold connection_info; now rewrite Hstep1, Hstep2.
Qed.

(** The scenario of the specification: one registry entry, and a log whose
    matching line carries the key data but no fingerprint. *)
Lemma fallback_to_key_data_witness :
  let key_data :=
    lit "AAAAB3NzaC1yc2EAAAADAQABAAAAFQECAwQFBgcICQoLDA0ODxAREhMUFQ==" in
  let registry_line := lit "ssh-rsa " ++ key_data ++ text_line " alice@laptop" in
  let registry := [text_line "# deployment keys"; registry_line; text_line ""] in
  let line :=
    accepted_publickey (lit "Nov  3 10:00:00 host sshd[812]: ") (lit "alice")
                       (lit "10.0.0.5") (lit " port 50022 ssh2: ")
      ++ lit "key " ++ key_data ++ text_line "" in
  let log := [ text_line "Nov  3 09:59:58 host sshd[812]: Connection from 10.0.0.5 port 50022";
               line;
               text_line "Nov  3 10:00:01 host sshd[812]: session opened for user alice" ] in
  let fs := two_files SSHKeyParser.default_authorized_keys_path registry
                      (lit "/var/log/auth.log") log in
  let env : environ := fun _ => None in
  let self := SSHKeyParser.__init__ fs SSHKeyParser.default_authorized_keys_path in
  exists entry,
    SSHKeyParser.find_key_by_ip_and_user self fs env (lit "10.0.0.5") (lit "alice")
    = Some entry /\
    k_comment entry = lit "alice@laptop" /\
    k_fingerprint entry = lit "71:df:e8:df:06:f5:b0:16:63:18:b5:e3:45:87:54:60" /\
    SSHKeyParser.by_logged_fingerprint
      self (AuthLogParser.find_recent_ssh_connection
              AuthLogParser.__init__ fs (lit "10.0.0.5") (lit "alice")
              AuthLogParser.default_max_lines) = None.
Proof.
  intros key_data registry_line registry line log fs env self.
  destruct (fallback_to_key_data
              fs SSHKeyParser.default_authorized_keys_path env
              (lit "10.0.0.5") (lit "alice")
              [text_line "# deployment keys"] [text_line ""]
              registry_line (lit "ssh-rsa") key_data [lit "alice@laptop"]
              [text_line "Nov  3 09:59:58 host sshd[812]: Connection from 10.0.0.5 port 50022"]
              [text_line "Nov  3 10:00:01 host sshd[812]: session opened for user alice"]
              line)
    as (entry & Hparse & _ & _ & _ & _ & _ & _ & _ & _ & Hstep1 & _ & Hresult).
  - reflexivity.
  - split; reflexivity.
  - intros l [<-|[<-|[]]]; reflexivity.
  - intros l [<-|[]]; left; reflexivity.
  - reflexivity.
  - simpl; lia.
  - apply contains_occurs; reflexivity.
  - intros l [<-|[]]; reflexivity.
  - reflexivity.
  - reflexivity.
  - exists entry.
    assert (E : entry = mk_KeyInfo (lit "ssh-rsa") key_data
                  (lit "71:df:e8:df:06:f5:b0:16:63:18:b5:e3:45:87:54:60")
                  (lit "alice@laptop") []
                  (lit "ssh-rsa " ++ key_data ++ lit " alice@laptop") None)
      by (vm_compute in Hparse; injection Hparse as <-; reflexivity).
    split; [exact Hresult|].
    split; [now rewrite E|].
    split; [now rewrite E|exact Hstep1].
Defined.

(** The claim fails without the three provisos.  Each input has a registry
    whose index holds the one entry [entry], and a log whose only matching
    line reads [... Accepted publickey for alice from 10.0.0.5 ... key
    <key data>] without a fingerprint token.  In the first the line is
    followed by 1000 other lines and the scan does not see it; in the
    second an indented comment line of the registry file carries the key
    data and is returned in place of the entry; in the third the line
    shows another long run after an earlier [key ], which is the one
    looked up. *)
Lemma fallback_to_key_data_counterexample :
  let path := SSHKeyParser.default_authorized_keys_path in
  let key_data :=
    lit "AAAAB3NzaC1yc2EAAAADAQABAAAAFQECAwQFBgcICQoLDA0ODxAREhMUFQ==" in
  let other :=
    lit "BBBBB3NzaC1yc2EAAAADAQABAAAAFQECAwQFBgcICQoLDA0ODxAREhMUFQ==" in
  let registry_line := lit "ssh-rsa " ++ key_data ++ text_line " alice@laptop" in
  let retired := lit "  #ssh-rsa " ++ key_data ++ text_line " retired" in
  let line mid :=
    accepted_publickey (lit "sshd[812]: ") (lit "alice") (lit "10.0.0.5") mid
      ++ lit "key " ++ key_data ++ text_line "" in
  let plain := line (lit " port 50022 ssh2: ") in
  let filler := text_line "cron[7]: session closed" in
  let fs1 := two_files path [registry_line] (lit "/var/log/auth.log")
                       (plain :: repeat filler 1000) in
  let fs2 := two_files path [retired; registry_line] (lit "/var/log/auth.log")
                       [plain] in
  let fs3 := two_files path [registry_line] (lit "/var/log/auth.log")
                       [line (lit " ssh2: key " ++ other ++ lit " ")] in
  let resolve fs :=
    SSHKeyParser.find_key_by_ip_and_user
      (SSHKeyParser.__init__ fs path) fs (fun _ => None)
      (lit "10.0.0.5") (lit "alice") in
  exists entry returned,
    loaded_entry registry_line = Some entry /\
    k_data entry = key_data /\
    forallb Re.cls_base64 key_data = true /\ 50 <= length key_data /\
    map fst (SSHKeyParser.key_cache (SSHKeyParser.__init__ fs1 path))
    = [k_fingerprint entry] /\
    map fst (SSHKeyParser.key_cache (SSHKeyParser.__init__ fs2 path))
    = [k_fingerprint entry] /\
    Re.first_match AuthLogParser.fingerprint_patterns plain = None /\
    Re.first_match AuthLogParser.fingerprint_patterns
                   (line (lit " ssh2: key " ++ other ++ lit " ")) = None /\
    AuthLogParser._is_ssh_connection_line filler (lit "10.0.0.5") (lit "alice")
    = false /\
    AuthLogParser.is_accepted_from (lit "10.0.0.5") filler = false /\
    resolve fs1 = None /\
    resolve fs2 = Some returned /\ k_type returned = lit "#ssh-rsa" /\
    returned <> entry /\
    resolve fs3 = None.
Proof.
  cbv zeta.
  exists (mk_KeyInfo (lit "ssh-rsa")
            (lit "AAAAB3NzaC1yc2EAAAADAQABAAAAFQECAwQFBgcICQoLDA0ODxAREhMUFQ==")
            (lit "71:df:e8:df:06:f5:b0:16:63:18:b5:e3:45:87:54:60")
            (lit "alice@laptop") []
            (lit "ssh-rsa AAAAB3NzaC1yc2EAAAADAQABAAAAFQECAwQFBgcICQoLDA0ODxAREhMUFQ== alice@laptop")
            None),
         (mk_KeyInfo (lit "#ssh-rsa")
            (lit "AAAAB3NzaC1yc2EAAAADAQABAAAAFQECAwQFBgcICQoLDA0ODxAREhMUFQ==")
            (lit "71:df:e8:df:06:f5:b0:16:63:18:b5:e3:45:87:54:60")
            (lit "retired") []
            (lit "#ssh-rsa AAAAB3NzaC1yc2EAAAADAQABAAAAFQECAwQFBgcICQoLDA0ODxAREhMUFQ== retired")
            None).
  split; [vm_compute; reflexivity|].
  split; [reflexivity|].
  split; [vm_compute; reflexivity|].
  split; [vm_compute; lia|].
  repeat (split; [vm_compute; try reflexivity; discriminate|]).
  vm_compute; reflexivity.
Qed.

(* ================================================================== *)
(** * Further properties of the registry *)

(** ** Where an index entry comes from *)

Lemma load_lines_get_inv (fp : str) (lines : list str) :
  forall cache n0 ki,
    dict_get (SSHKeyParser.load_lines cache n0 lines) fp = Some ki ->
    (dict_get cache fp = Some ki /\
     forall l e, In l lines -> loaded_entry l = Some e -> k_fingerprint e <> fp)
    \/
    exists i line e,
      nth_error lines i = Some line /\ loaded_entry line = Some e /\
      k_fingerprint e = fp /\ ki = set_line_number e (n0 + i) /\
      (forall j line' e',
          i < j -> nth_error lines j = Some line' ->
          loaded_entry line' = Some e' -> k_fingerprint e' <> fp).
Proof.
  induction lines as [|l rest IH]; intros cache n0 ki H.
  - left; split; [exact H|intros ? ? []].
  - simpl in H.
    destruct (IH _ _ _ H) as [[Hget Hrest] | (i & line & e & Hn & He & Hf & Hki & Hlater)].
    + rewrite load_line_entry in Hget.
      destruct (loaded_entry l) as [e|] eqn:E.
      * destruct (str_eq_dec (k_fingerprint e) fp) as [Heq|Hne].
        -- rewrite Heq, dict_get_set_same in Hget; injection Hget as <-.
           right; exists 0, l, e.
           split; [reflexivity|]. split; [exact E|]. split; [exact Heq|].
           split; [now rewrite Nat.add_0_r|].
           intros [|j] line' e' Hj Hnth He'; [lia|].
           simpl in Hnth; apply nth_error_In in Hnth; eauto.
        -- rewrite dict_get_set_other in Hget by exact Hne.
           left; split; [exact Hget|].
           intros l' e' [<-|Hin] He'; [congruence|eauto].
      * left; split; [exact Hget|].
        intros l' e' [<-|Hin] He'; [congruence|eauto].
    + right; exists (S i), line, e.
      split; [exact Hn|]. split; [exact He|]. split; [exact Hf|].
      split; [rewrite Hki; f_equal; lia|].
      intros [|j] line' e' Hj Hnth He'; [lia|].
      simpl in Hnth; apply (Hlater j line' e'); auto; lia.
Qed.

(** X1: every entry the index returns was stored under its own
    fingerprint by the last line of the registry file that yields this
    fingerprint, and carries that line's 1-based number. *)
Theorem index_entry_origin
        (fs : filesystem) (path : str) (lines : list str)
        (fingerprint : str) (key_info : KeyInfo) :
  fs path = Content lines ->
  SSHKeyParser.find_key_by_fingerprint (SSHKeyParser.__init__ fs path) fingerprint
  = Some key_info ->
  exists i line entry,
    nth_error lines i = Some line /\
    loaded_entry line = Some entry /\
    k_fingerprint entry = fingerprint /\
    key_info = set_line_number entry (i + 1) /\
    (forall j line' entry',
        i < j -> nth_error lines j = Some line' ->
        loaded_entry line' = Some entry' ->
        k_fingerprint entry' <> fingerprint).
Proof.
  intros Hfs Hget; unfold SSHKeyParser.find_key_by_fingerprint in Hget.
  rewrite (init_key_cache _ _ _ Hfs) in Hget.
  destruct (load_lines_get_inv _ _ _ _ _ Hget)
    as [[Hnil _] | (i & line & e & Hn & He & Hf & Hki & Hlater)];
    [discriminate Hnil|].
  exists i, line, e.
  split; [exact Hn|]. split; [exact He|]. split; [exact Hf|].
  split; [rewrite Hki; f_equal; lia|exact Hlater].
Qed.

Lemma index_entry_origin_witness :
  let path := SSHKeyParser.default_authorized_keys_path in
  let lines := [ text_line "ssh-rsa QUJD first";
                 text_line "# rotated";
                 text_line "ssh-ed25519 QUJD second" ] in
  exists i line entry,
    nth_error lines i = Some line /\
    loaded_entry line = Some entry /\
    SSHKeyParser.find_key_by_fingerprint
      (SSHKeyParser.__init__ (single_file path lines) path)
      (lit "90:2f:bd:d2:b1:df:0c:4f:70:b4:a5:d2:35:25:e9:32")
    = Some (set_line_number entry (i + 1)).
Proof.
  intros path lines.
  assert (Hget : SSHKeyParser.find_key_by_fingerprint
                   (SSHKeyParser.__init__ (single_file path lines) path)
                   (lit "90:2f:bd:d2:b1:df:0c:4f:70:b4:a5:d2:35:25:e9:32")
                 = Some (mk_KeyInfo (lit "ssh-ed25519") (lit "QUJD")
                           (lit "90:2f:bd:d2:b1:df:0c:4f:70:b4:a5:d2:35:25:e9:32")
                           (lit "second") [] (lit "ssh-ed25519 QUJD second")
                           (Some 3)))
    by (vm_compute; reflexivity).
  destruct (index_entry_origin (single_file path lines) path lines _ _
                               eq_refl Hget)
    as (i & line & entry & Hn & He & _ & Hki & _).
  exists i, line, entry.
  split; [exact Hn|]. split; [exact He|].
  rewrite Hget; f_equal; exact Hki.
Defined.

(** ** A registry whose read fails *)

Lemma init_key_cache_unavailable (fs : filesystem) (path : str) :
  fs path = Missing \/ fs path = Unreadable ->
  SSHKeyParser.key_cache (SSHKeyParser.__init__ fs path) = [].
Proof.
  intros H.
  unfold SSHKeyParser.__init__, SSHKeyParser._load_authorized_keys,
    exists_, iterate; cbn [SSHKeyParser.key_cache].
  destruct H as [-> | ->]; reflexivity.
Qed.

(** An index entry comes from a line the file yielded. *)
Lemma index_entry_line (fs : filesystem) (path : str) (fp : str) (ki : KeyInfo) :
  dict_get (SSHKeyParser.key_cache (SSHKeyParser.__init__ fs path)) fp = Some ki ->
  exists lines i line e,
    yields (fs path) lines /\ nth_error lines i = Some line /\
    loaded_entry line = Some e /\ k_fingerprint e = fp /\
    ki = set_line_number e (i + 1).
Proof.
  intros Hget.
  assert (Hy : exists lines, yields (fs path) lines).
  { destruct (fs path) as [| |lines|lines] eqn:Hfs;
      try (rewrite init_key_cache_unavailable in Hget by auto; discriminate Hget);
      exists lines; [now left|now right]. }
  destruct Hy as [lines Hy].
  rewrite (init_key_cache_yields _ _ _ Hy) in Hget.
  destruct (load_lines_get_inv _ _ _ _ _ Hget)
    as [[Hnil _] | (i & line & e & Hn & He & Hf & Hki & _)];
    [discriminate Hnil|].
  exists lines, i, line, e; repeat split; auto.
  rewrite Hki; f_equal; lia.
Qed.


Lemma find_key_by_data_yields (self : SSHKeyParser.t) (fs : filesystem)
      (lines : list str) (key_data : str) :
  yields (fs (SSHKeyParser.authorized_keys_path self)) lines ->
  SSHKeyParser._find_key_by_data self fs key_data
  = match find (SSHKeyParser.data_matches key_data) lines with
    | Some line => SSHKeyParser._parse_authorized_key_line (strip line)
    | None => None
    end.
Proof.
  intros [Hfs|Hfs];
    unfold SSHKeyParser._find_key_by_data, SSHKeyParser._find_key_by_data_body,
      exists_, iterate;
    rewrite Hfs; cbn [negb bind fst snd];
    destruct (find _ lines); reflexivity.
Qed.



(** ** The key-data lookup *)

Lemma data_matches_iff (key_data line : str) :
  SSHKeyParser.data_matches key_data line = true <->
  startswith (lit "#") line = false /\ key_data_token line = Some key_data.
Proof.
  unfold SSHKeyParser.data_matches, key_data_token; split.
  - destruct (strip line) as [|x l]; [discriminate|].
    destruct (startswith (lit "#") line); [discriminate|].
    destruct (split (x :: l)) as [|t0 [|t1 tr]]; cbn; try discriminate.
    intros H; apply str_eqb_eq in H; now subst.
  - intros [Hc Ht]; rewrite Hc.
    destruct (strip line) as [|x l]; [discriminate Ht|].
    destruct (split (x :: l)) as [|t0 [|t1 tr]]; cbn in *; try discriminate.
    injection Ht as ->; apply str_eqb_refl.
Qed.

Lemma data_matches_parse (key_data line : str) :
  SSHKeyParser.data_matches key_data line = true ->
  exists entry,
    SSHKeyParser._parse_authorized_key_line (strip line) = Some entry /\
    k_data entry = key_data /\ k_full_line entry = strip line /\
    k_line_number entry = None /\
    k_fingerprint entry
    = SSHKeyParser._generate_fingerprint (k_type entry) key_data /\
    k_type entry = hd [] (split (strip line)).
Proof.
  intros H; apply data_matches_iff in H as [_ Ht]; unfold key_data_token in Ht.
  destruct (split (strip line)) as [|t0 [|t1 tr]] eqn:Hs; try discriminate Ht.
  injection Ht as ->.
  destruct (parse_authorized_key_line_tokens _ _ _ _ Hs) as (c & o & Hp).
  eexists; split; [exact Hp|]; cbn; auto 6.
Qed.

Lemma find_split {A} (f : A -> bool) (l : list A) (x : A) :
  find f l = Some x ->
  exists before after,
    l = before ++ x :: after /\ f x = true /\
    forall y, In y before -> f y = false.
Proof.
  induction l as [|a l IH]; simpl; [discriminate|].
  destruct (f a) eqn:E.
  - intros [= ->]; exists [], l; repeat split; auto; intros ? [].
  - intros H; destruct (IH H) as (b & c & -> & Hx & Hb).
    exists (a :: b), c; repeat split; auto.
    intros y [<-|Hy]; auto.
Qed.

Lemma find_key_by_data_content (self : SSHKeyParser.t) (fs : filesystem)
      (lines : list str) (key_data : str) :
  fs (SSHKeyParser.authorized_keys_path self) = Content lines ->
  SSHKeyParser._find_key_by_data self fs key_data
  = match find (SSHKeyParser.data_matches key_data) lines with
    | Some line => SSHKeyParser._parse_authorized_key_line (strip line)
    | None => None
    end.
Proof. intros Hfs; apply find_key_by_data_yields; now left. Qed.

Lemma find_key_by_data_closed (self : SSHKeyParser.t) (fs : filesystem)
      (key_data : str) :
  fs (SSHKeyParser.authorized_keys_path self) = Missing \/
  fs (SSHKeyParser.authorized_keys_path self) = Unreadable ->
  SSHKeyParser._find_key_by_data self fs key_data = None.
Proof.
  unfold SSHKeyParser._find_key_by_data, SSHKeyParser._find_key_by_data_body,
    exists_, iterate.
  intros [-> | ->]; reflexivity.
Qed.

Lemma file_cases (f : file) :
  f = Missing \/ f = Unreadable \/ exists lines, yields f lines.
Proof.
  destruct f as [| |lines|lines]; auto;
    right; right; exists lines; [now left|now right].
Qed.

(** X3: an entry returned by the key-data lookup was parsed from the first
    line of the registry file that does not start with [#] and has the key
    data as its second token, among the lines the file yields (to its end,
    or up to a read that fails); it carries that key data, the stripped
    line and no line number. *)
Theorem find_key_by_data_sound
        (self : SSHKeyParser.t) (fs : filesystem) (key_data : str)
        (entry : KeyInfo) :
  SSHKeyParser._find_key_by_data self fs key_data = Some entry ->
  exists before line after,
    yields (fs (SSHKeyParser.authorized_keys_path self))
           (before ++ line :: after) /\
    startswith (lit "#") line = false /\
    key_data_token line = Some key_data /\
    (forall l, In l before ->
               startswith (lit "#") l = true \/ key_data_token l <> Some key_data) /\
    SSHKeyParser._parse_authorized_key_line (strip line) = Some entry /\
    k_data entry = key_data /\
    k_full_line entry = strip line /\
    k_line_number entry = None.
Proof.
  intros H.
  destruct (file_cases (fs (SSHKeyParser.authorized_keys_path self)))
    as [Hfs|[Hfs|[lines Hfs]]];
    try (rewrite find_key_by_data_closed in H by auto; discriminate H).
  rewrite (find_key_by_data_yields self fs lines key_data Hfs) in H.
  destruct (find _ lines) as [line|] eqn:Hfind; [|discriminate H].
  destruct (find_split _ _ _ Hfind) as (before & after & -> & Hm & Hb).
  destruct (data_matches_parse _ _ Hm) as (e & Hp & Hd & Hl & Hn & _).
  assert (e = entry) by congruence; subst e.
  apply data_matches_iff in Hm as [Hc Ht].
  exists before, line, after; repeat split; auto.
  intros l Hin; apply Hb in Hin.
  destruct (startswith (lit "#") l) eqn:E; [now left|right].
  intros Ht'; assert (SSHKeyParser.data_matches key_data l = true)
    by (apply data_matches_iff; auto).
  congruence.
Qed.

Lemma find_key_by_data_sound_witness :
  let path := SSHKeyParser.default_authorized_keys_path in
  let lines := [ text_line "#ssh-rsa QUJD disabled";
                 text_line "ssh-rsa QUJD alice@laptop" ] in
  let fs := single_file path lines in
  exists entry line,
    SSHKeyParser._find_key_by_data (SSHKeyParser.__init__ fs path) fs (lit "QUJD")
    = Some entry /\
    In line lines /\ k_full_line entry = strip line /\
    k_data entry = lit "QUJD".
Proof.
  intros path lines fs.
  assert (Hfind : SSHKeyParser._find_key_by_data
                    (SSHKeyParser.__init__ fs path) fs (lit "QUJD")
                  = Some (mk_KeyInfo (lit "ssh-rsa") (lit "QUJD")
                            (lit "90:2f:bd:d2:b1:df:0c:4f:70:b4:a5:d2:35:25:e9:32")
                            (lit "alice@laptop") []
                            (lit "ssh-rsa QUJD alice@laptop") None))
    by (vm_compute; reflexivity).
  destruct (find_key_by_data_sound _ _ _ _ Hfind)
    as (before & line & after & Hfs & _ & _ & _ & _ & Hd & Hl & _).
  eexists; exists line; split; [exact Hfind|].
  split; [|split; [exact Hl|exact Hd]].
  assert (E : Content lines = Content (before ++ line :: after)).
  { destruct Hfs as [Hfs|Hfs]; [rewrite <- Hfs; reflexivity|].
    exfalso; assert (Content lines = Broken (before ++ line :: after))
      by (rewrite <- Hfs; reflexivity).
    discriminate. }
  injection E as ->; apply in_elt.
Defined.

(** X4: the key-data lookup is absent exactly when the registry file is
    missing or cannot be opened, or none of the lines it yields (to its
    end, or up to a read that fails) both does not start with [#] and has
    the key data as its second token. *)
Theorem find_key_by_data_absent
        (self : SSHKeyParser.t) (fs : filesystem) (key_data : str) :
  SSHKeyParser._find_key_by_data self fs key_data = None <->
  match fs (SSHKeyParser.authorized_keys_path self) with
  | Content lines | Broken lines =>
      forall l, In l lines ->
                startswith (lit "#") l = true \/ key_data_token l <> Some key_data
  | Missing | Unreadable => True
  end.
Proof.
  assert (Hlines : forall lines,
    yields (fs (SSHKeyParser.authorized_keys_path self)) lines ->
    (SSHKeyParser._find_key_by_data self fs key_data = None <->
     forall l, In l lines ->
               startswith (lit "#") l = true \/ key_data_token l <> Some key_data)).
  { intros lines Hy.
    rewrite (find_key_by_data_yields self fs lines key_data Hy); split.
    + intros H l Hin.
      destruct (find _ lines) as [line|] eqn:Hfind.
      * apply find_some in Hfind as [_ Hm].
        destruct (data_matches_parse _ _ Hm) as (e & Hp & _); congruence.
      * pose proof (find_none _ _ Hfind l Hin) as Hl; cbv beta in Hl.
        destruct (startswith (lit "#") l) eqn:E; [now left|right].
        intros Ht; assert (SSHKeyParser.data_matches key_data l = true)
          by (apply data_matches_iff; auto).
        congruence.
    + intros H; rewrite find_absent; [reflexivity|].
      intros l Hin; destruct (SSHKeyParser.data_matches key_data l) eqn:E;
        [|reflexivity].
      apply data_matches_iff in E as [Hc Ht].
      destruct (H l Hin); congruence. }
  destruct (fs (SSHKeyParser.authorized_keys_path self)) as [| |lines|lines] eqn:Hfs.
  - rewrite find_key_by_data_closed by auto; tauto.
  - rewrite find_key_by_data_closed by auto; tauto.
  - apply Hlines; now left.
  - apply Hlines; now right.
Qed.

(** Any key type gives the same fingerprint. *)
Lemma generate_fingerprint_any_type (kt kt' kd : str) :
  SSHKeyParser._generate_fingerprint kt kd
  = SSHKeyParser._generate_fingerprint kt' kd.
Proof.
  destruct (Base64.b64decode kd) as [bs|] eqn:E.
  - now rewrite !(generate_fingerprint_decoded _ _ _ E).
  - transitivity (lit "unknown"); [|symmetry];
      now apply fingerprint_unknown_iff.
Qed.

(** X5: every key the index holds is reachable by its key data: for an
    entry returned by the fingerprint lookup, the key-data lookup on the
    entry's key data finds an entry with the same key data and the same
    fingerprint (of the first line carrying that key data, which need not
    be the indexed one). *)
Theorem indexed_key_found_by_data
        (fs : filesystem) (path : str) (fingerprint : str) (key_info : KeyInfo) :
  let self := SSHKeyParser.__init__ fs path in
  SSHKeyParser.find_key_by_fingerprint self fingerprint = Some key_info ->
  exists entry,
    SSHKeyParser._find_key_by_data self fs (k_data key_info) = Some entry /\
    k_data entry = k_data key_info /\
    k_fingerprint entry = fingerprint.
Proof.
  intros self Hget.
  destruct (index_entry_line fs path fingerprint key_info Hget)
    as (lines & i & line & e & Hfs & Hn & He & Hf & Hki).
  change path with (SSHKeyParser.authorized_keys_path self) in Hfs.
  assert (Hkd : k_data key_info = k_data e) by (rewrite Hki; reflexivity).
  destruct (loaded_key_line _ _ He) as (tr & Hk & Hfe).
  pose proof (key_line_data_matches _ _ _ _ Hk) as Hm.
  pose proof (find_key_by_data_yields self fs lines (k_data e) Hfs) as Hc.
  rewrite Hkd.
  destruct (find (SSHKeyParser.data_matches (k_data e)) lines) as [line0|] eqn:Hfind.
  - apply find_some in Hfind as [_ Hm0].
    destruct (data_matches_parse _ _ Hm0) as (e0 & Hp & Hd & _ & _ & Hf0 & _).
    exists e0; split; [now rewrite Hc|split; [exact Hd|]].
    rewrite Hf0, <- Hf, Hfe; apply generate_fingerprint_any_type.
  - apply nth_error_In in Hn.
    pose proof (find_none _ _ Hfind line Hn) as Hno; cbv beta in Hno; congruence.
Qed.

Lemma indexed_key_found_by_data_witness :
  let path := SSHKeyParser.default_authorized_keys_path in
  let lines := [ text_line "ssh-rsa QUJD first";
                 text_line "ssh-ed25519 QUJD second" ] in
  let fs := single_file path lines in
  let self := SSHKeyParser.__init__ fs path in
  exists key_info entry,
    SSHKeyParser.find_key_by_fingerprint
      self (lit "90:2f:bd:d2:b1:df:0c:4f:70:b4:a5:d2:35:25:e9:32") = Some key_info /\
    k_comment key_info = lit "second" /\
    SSHKeyParser._find_key_by_data self fs (k_data key_info) = Some entry /\
    k_fingerprint entry = lit "90:2f:bd:d2:b1:df:0c:4f:70:b4:a5:d2:35:25:e9:32".
Proof.
  intros path lines fs self.
  assert (Hget : SSHKeyParser.find_key_by_fingerprint
                   self (lit "90:2f:bd:d2:b1:df:0c:4f:70:b4:a5:d2:35:25:e9:32")
                 = Some (mk_KeyInfo (lit "ssh-ed25519") (lit "QUJD")
                           (lit "90:2f:bd:d2:b1:df:0c:4f:70:b4:a5:d2:35:25:e9:32")
                           (lit "second") [] (lit "ssh-ed25519 QUJD second")
                           (Some 2)))
    by (vm_compute; reflexivity).
  destruct (indexed_key_found_by_data fs path _ _ Hget) as (entry & Hd & _ & Hf).
  eexists; exists entry; split; [exact Hget|].
  split; [reflexivity|split; [exact Hd|exact Hf]].
Defined.

(** ** Comment lines: the loader and the key-data lookup disagree *)

Lemma find_key_by_data_at (self : SSHKeyParser.t) (fs : filesystem)
      (before after : list str) (line key_data : str) :
  fs (SSHKeyParser.authorized_keys_path self) = Content (before ++ line :: after) ->
  SSHKeyParser.data_matches key_data line = true ->
  (forall l, In l before -> key_data_token l <> Some key_data) ->
  SSHKeyParser._find_key_by_data self fs key_data
  = SSHKeyParser._parse_authorized_key_line (strip line).
Proof.
  intros Hfs Hm Hb.
  rewrite (find_key_by_data_content self fs _ key_data Hfs).
  rewrite (find_first (SSHKeyParser.data_matches key_data) before after line);
    [reflexivity| |exact Hm].
  intros l Hin; destruct (SSHKeyParser.data_matches key_data l) eqn:E;
    [|reflexivity].
  apply data_matches_iff in E as [_ Ht]; now apply Hb in Hin.
Qed.

(** The first token of a text that starts with a visible character
    starts with that character. *)
Lemma split_first_char (c : ascii) (s : str) (t0 : str) (rest : list str) :
  isspace c = false -> split (c :: s) = t0 :: rest -> exists t, t0 = c :: t.
Proof.
  intros Hc; cbn [split]; rewrite Hc.
  destruct s as [|d s']; [intros [= <- _]; now exists []|].
  destruct (isspace d); [intros [= <- _]; now exists []|].
  destruct (split (d :: s')) as [|w ws]; intros [= <- _]; eauto.
Qed.

(** X6: a commented-out key that is indented (the line starts with white
    space and then [#]) is skipped by the loader, so it never enters the
    index, but the key-data lookup tests the unstripped line for [#] and
    therefore still returns it, with a key type that starts with [#]. *)
Theorem indented_comment_found_by_data
        (line t0 key_data : str) (trailing : list str) :
  startswith (lit "#") (strip line) = true ->
  startswith (lit "#") line = false ->
  split (strip line) = t0 :: key_data :: trailing ->
  loaded_entry line = None /\
  forall (self : SSHKeyParser.t) (fs : filesystem) (before after : list str),
    fs (SSHKeyParser.authorized_keys_path self)
    = Content (before ++ line :: after) ->
    (forall l, In l before -> key_data_token l <> Some key_data) ->
    exists entry,
      SSHKeyParser._find_key_by_data self fs key_data = Some entry /\
      k_type entry = t0 /\ startswith (lit "#") t0 = true /\
      k_data entry = key_data /\ k_full_line entry = strip line.
Proof.
  intros Hstrip Hraw Hs; split.
  - unfold loaded_entry; destruct (strip line); [reflexivity|now rewrite Hstrip].
  - intros self fs before after Hfs Hb.
    assert (Hm : SSHKeyParser.data_matches key_data line = true).
    { apply data_matches_iff; split; [exact Hraw|].
      unfold key_data_token; now rewrite Hs. }
    destruct (data_matches_parse _ _ Hm) as (e & Hp & Hd & Hl & _ & _ & Ht).
    exists e; rewrite (find_key_by_data_at self fs before after line key_data Hfs Hm Hb).
    rewrite Hs in Ht; cbn in Ht.
    repeat split; auto.
    destruct (startswith_inv _ _ Hstrip) as [rest Hr].
    rewrite Hr in Hs; change (lit "#" ++ rest) with ("#"%char :: rest) in Hs.
    destruct (split_first_char "#" rest t0 (key_data :: trailing) eq_refl Hs)
      as [t ->]; reflexivity.
Qed.

Lemma indented_comment_found_by_data_witness :
  let path := SSHKeyParser.default_authorized_keys_path in
  let line := text_line "  #ssh-rsa QUJD retired-key" in
  let fs := single_file path [line] in
  let self := SSHKeyParser.__init__ fs path in
  SSHKeyParser.key_cache self = [] /\
  exists entry,
    SSHKeyParser._find_key_by_data self fs (lit "QUJD") = Some entry /\
    k_type entry = lit "#ssh-rsa".
Proof.
  intros path line fs self; split; [reflexivity|].
  destruct (indented_comment_found_by_data
              line (lit "#ssh-rsa") (lit "QUJD") [lit "retired-key"]
              eq_refl eq_refl eq_refl) as [_ H].
  destruct (H self fs [] [] eq_refl) as (entry & Hf & Ht & _);
    [intros l []|].
  exists entry; split; [exact Hf|exact Ht].
Defined.

(** ** White space around a registry line *)

Lemma lstrip_spaces (ws s : str) :
  forallb isspace ws = true -> lstrip (ws ++ s) = lstrip s.
Proof.
  induction ws as [|c ws IH]; simpl; [reflexivity|].
  intros H; apply andb_true_iff in H as [Hc Hws]; rewrite Hc; auto.
Qed.

Lemma lstrip_all_spaces (ws : str) :
  forallb isspace ws = true -> lstrip ws = [].
Proof.
  intros H; rewrite <- (app_nil_r ws); now rewrite lstrip_spaces.
Qed.

Lemma lstrip_nil_spaces (s : str) : lstrip s = [] -> forallb isspace s = true.
Proof.
  induction s as [|c s IH]; simpl; [reflexivity|].
  destruct (isspace c); [exact IH|discriminate].
Qed.

Lemma lstrip_app_visible (s t : str) :
  lstrip s <> [] -> lstrip (s ++ t) = lstrip s ++ t.
Proof.
  induction s as [|c s IH]; simpl; [congruence|].
  destruct (isspace c); [exact IH|reflexivity].
Qed.

Lemma forallb_rev {A} (f : A -> bool) (l : list A) :
  forallb f l = true -> forallb f (rev l) = true.
Proof.
  rewrite !forallb_forall; intros H x Hx; apply H; now apply in_rev.
Qed.

Lemma rstrip_spaces (s ws : str) :
  forallb isspace ws = true -> rstrip (s ++ ws) = rstrip s.
Proof.
  intros H; unfold rstrip; rewrite rev_app_distr.
  now rewrite lstrip_spaces by (now apply forallb_rev).
Qed.

Lemma strip_padding (ws1 s ws2 : str) :
  forallb isspace ws1 = true -> forallb isspace ws2 = true ->
  strip (ws1 ++ s ++ ws2) = strip s.
Proof.
  intros H1 H2; unfold strip; rewrite lstrip_spaces by exact H1.
  destruct (lstrip s) as [|c r] eqn:E.
  - rewrite lstrip_all_spaces; [reflexivity|].
    rewrite forallb_app, H2, (lstrip_nil_spaces _ E); reflexivity.
  - rewrite lstrip_app_visible by (rewrite E; discriminate).
    rewrite E; now apply rstrip_spaces.
Qed.

(** X7: white space before and after a registry line (indentation, the
    line terminator or its absence on the last line, trailing blanks) does
    not change what the loader stores for it. *)
Theorem load_ignores_padding
        (cache : dict KeyInfo) (line_num : nat) (ws1 line ws2 : str) :
  forallb isspace ws1 = true -> forallb isspace ws2 = true ->
  SSHKeyParser.load_line cache line_num (ws1 ++ line ++ ws2)
  = SSHKeyParser.load_line cache line_num line.
Proof.
  intros H1 H2; unfold SSHKeyParser.load_line.
  now rewrite strip_padding.
Qed.

Lemma load_ignores_padding_witness :
  SSHKeyParser.load_line [] 1 (lit "  " ++ lit "ssh-rsa QUJD me" ++ text_line " ")
  = SSHKeyParser.load_line [] 1 (lit "ssh-rsa QUJD me").
Proof.
  apply (load_ignores_padding [] 1 (lit "  ") (lit "ssh-rsa QUJD me")
                              (text_line " ")); reflexivity.
Defined.

(** ** The accessors on a loaded registry *)

Lemma options_of_absent (tokens : list str) (key : str) :
  (forall t, In t tokens -> occurs (lit "=") t ->
             fst (split_once "=" t) <> key) ->
  dict_get (options_of tokens) key = None.
Proof.
  intros H; destruct (dict_get (options_of tokens) key) as [v|] eqn:E;
    [|reflexivity].
  destruct (options_of_sound _ _ _ E) as (t & Hin & Hocc & Hs).
  exfalso; apply (H t Hin Hocc); now rewrite Hs.
Qed.

Lemma parse_authorized_key_line_fields (line t0 t1 : str) (trailing : list str) :
  split line = t0 :: t1 :: trailing ->
  exists entry,
    SSHKeyParser._parse_authorized_key_line line = Some entry /\
    k_comment entry = hd [] trailing /\
    k_options entry = options_of (removelast trailing).
Proof.
  intros Hs; unfold SSHKeyParser._parse_authorized_key_line; rewrite Hs.
  eexists; split; [reflexivity|]; cbn [k_comment k_options nth].
  split; [destruct trailing; reflexivity|].
  destruct trailing as [|t2 [|t3 more]]; [reflexivity..|].
  change (Nat.ltb 3 (length (t0 :: t1 :: t2 :: t3 :: more))) with true.
  cbv iota; rewrite slice_2_minus1, fold_add_option; reflexivity.
Qed.

(** X8: on a loaded registry the accessors answer from the last line that
    has the fingerprint: the comment is its third token (empty when there
    is none), the options are built from its tokens after the key data
    without the last one, and [SSH_USER] is absent whenever none of
    those tokens is an [SSH_USER=...] assignment, whatever the last token
    of the line is. *)
Theorem accessors_on_loaded_registry
        (fs : filesystem) (path : str) (before after : list str)
        (line key_type key_data : str) (trailing : list str) :
  fs path = Content (before ++ line :: after) ->
  key_line line key_type key_data trailing ->
  let fingerprint := SSHKeyParser._generate_fingerprint key_type key_data in
  (forall l ki, In l after -> loaded_entry l = Some ki ->
                k_fingerprint ki <> fingerprint) ->
  let self := SSHKeyParser.__init__ fs path in
  SSHKeyParser.get_key_comment self fingerprint = hd [] trailing /\
  SSHKeyParser.get_key_options self fingerprint
  = options_of (removelast trailing) /\
  SSHKeyParser.get_ssh_user_from_options self fingerprint
  = dict_get (options_of (removelast trailing)) (lit "SSH_USER") /\
  ((forall t, In t (removelast trailing) -> occurs (lit "=") t ->
              fst (split_once "=" t) <> lit "SSH_USER") ->
   SSHKeyParser.get_ssh_user_from_options self fingerprint = None).
Proof.
  intros Hfs Hk fingerprint Hafter self.
  destruct (key_line_loaded _ _ _ _ Hk) as (e & He & Hp & _ & _ & Hf & _).
  destruct Hk as [_ Hs].
  destruct (parse_authorized_key_line_fields _ _ _ _ Hs) as (e' & Hp' & Hc & Ho).
  assert (e' = e) by congruence; subst e'.
  assert (Hget : SSHKeyParser.find_key_by_fingerprint self fingerprint
                 = Some (set_line_number e (1 + length before))).
  { unfold SSHKeyParser.find_key_by_fingerprint, self.
    rewrite (init_key_cache _ _ _ Hfs).
    apply load_lines_last; auto. }
  unfold SSHKeyParser.get_ssh_user_from_options, SSHKeyParser.get_key_options,
    SSHKeyParser.get_key_comment.
  rewrite Hget; cbn [set_line_number k_comment k_options].
  rewrite Hc, Ho; repeat split; auto.
  apply options_of_absent.
Qed.

Lemma accessors_on_loaded_registry_witness :
  let path := SSHKeyParser.default_authorized_keys_path in
  let fp := lit "90:2f:bd:d2:b1:df:0c:4f:70:b4:a5:d2:35:25:e9:32" in
  let self1 := SSHKeyParser.__init__
    (single_file path [text_line "ssh-rsa QUJD SSH_USER=alice alice@laptop"]) path in
  let self2 := SSHKeyParser.__init__
    (single_file path [text_line "ssh-rsa QUJD alice@laptop SSH_USER=alice"]) path in
  SSHKeyParser.get_ssh_user_from_options self1 fp = Some (lit "alice") /\
  SSHKeyParser.get_key_comment self1 fp = lit "SSH_USER=alice" /\
  SSHKeyParser.get_ssh_user_from_options self2 fp = None.
Proof.
  intros path fp self1 self2.
  destruct (accessors_on_loaded_registry
              (single_file path [text_line "ssh-rsa QUJD SSH_USER=alice alice@laptop"])
              path [] []
              (text_line "ssh-rsa QUJD SSH_USER=alice alice@laptop")
              (lit "ssh-rsa") (lit "QUJD")
              [lit "SSH_USER=alice"; lit "alice@laptop"])
    as (Hc & _ & Hu & _);
    [reflexivity|split; reflexivity|intros l ki []|].
  destruct (accessors_on_loaded_registry
              (single_file path [text_line "ssh-rsa QUJD alice@laptop SSH_USER=alice"])
              path [] []
              (text_line "ssh-rsa QUJD alice@laptop SSH_USER=alice")
              (lit "ssh-rsa") (lit "QUJD")
              [lit "alice@laptop"; lit "SSH_USER=alice"])
    as (_ & _ & _ & Hn);
    [reflexivity|split; reflexivity|intros l ki []|].
  split; [exact Hu|split; [exact Hc|]].
  apply Hn; intros t [<-|[]] Hocc.
  apply contains_occurs in Hocc; discriminate Hocc.
Defined.

Lemma find_key_by_data_absent_witness :
  let path := SSHKeyParser.default_authorized_keys_path in
  let fs := single_file path [text_line "#ssh-rsa QUJD disabled"] in
  SSHKeyParser._find_key_by_data (SSHKeyParser.__init__ fs path) fs (lit "QUJD")
  = None.
Proof.
  intros path fs.
  apply (proj2 (find_key_by_data_absent (SSHKeyParser.__init__ fs path) fs
                                        (lit "QUJD"))).
  intros l [<-|[]]; left; reflexivity.
Defined.

(* ================================================================== *)
(** * Further properties of the auth-log scan *)

(** ** The two tests on a log line *)

Lemma is_ssh_connection_line_iff (line ip username : str) :
  AuthLogParser._is_ssh_connection_line line ip username = true
  <-> names_user_and_address line ip username.
Proof.
  unfold AuthLogParser._is_ssh_connection_line, Re.search_escaped,
    names_user_and_address; cbn [existsb]; rewrite orb_false_r; split.
  - intros H; apply orb_true_iff in H as [H|H];
      [|apply orb_true_iff in H as [H|H]]; apply contains_occurs in H.
    + exists (lit "publickey"); split; [now left|exact H].
    + exists (lit "password"); split; [right; now left|exact H].
    + exists (lit "keyboard-interactive"); split; [do 2 right; now left|exact H].
  - intros (m & [<-|[<-|[<-|[]]]] & H); apply contains_occurs in H.
    + apply orb_true_iff; left; exact H.
    + apply orb_true_iff; right; apply orb_true_iff; left; exact H.
    + apply orb_true_iff; right; apply orb_true_iff; right; exact H.
Qed.

Lemma is_accepted_from_iff (ip line : str) :
  AuthLogParser.is_accepted_from ip line = true <-> names_address line ip.
Proof.
  unfold AuthLogParser.is_accepted_from, names_address.
  rewrite !andb_true_iff, !contains_occurs; tauto.
Qed.

Lemma find_recent_content (self : AuthLogParser.t) (fs : filesystem)
      (ip username : str) (max_lines : Z) (lines : list str) :
  (1 <= max_lines)%Z ->
  fs (AuthLogParser.auth_log_path self) = Content lines ->
  let window := rev (last_lines (Z.to_nat max_lines) lines) in
  AuthLogParser.find_recent_ssh_connection self fs ip username max_lines
  = match find (fun l => AuthLogParser._is_ssh_connection_line l ip username)
               window with
    | Some l => Some (AuthLogParser._parse_ssh_connection_line l)
    | None =>
        match find (AuthLogParser.is_accepted_from ip) window with
        | Some l => Some (AuthLogParser._parse_ssh_connection_line l)
        | None => None
        end
    end.
Proof.
  intros Hm Hfs window.
  unfold AuthLogParser.find_recent_ssh_connection,
    AuthLogParser.find_recent_ssh_connection_body, exists_, read_lines.
  rewrite Hfs; cbn [negb bind]; rewrite recent_lines_last by exact Hm.
  fold window.
  destruct (find _ window); [reflexivity|].
  destruct (find _ window); reflexivity.
Qed.

Lemma find_recent_unavailable (self : AuthLogParser.t) (fs : filesystem)
      (ip username : str) (max_lines : Z) :
  (forall lines, fs (AuthLogParser.auth_log_path self) <> Content lines) ->
  AuthLogParser.find_recent_ssh_connection self fs ip username max_lines = None.
Proof.
  unfold AuthLogParser.find_recent_ssh_connection,
    AuthLogParser.find_recent_ssh_connection_body, exists_, read_lines.
  intros H; destruct (fs (AuthLogParser.auth_log_path self)) as [| |l|l];
    try reflexivity.
  now destruct (H l).
Qed.

(** X9: evidence returned by the scan is the parse of a line among the
    last [max_lines] lines of the log that names the user and the address
    or, failing that, the address only. *)
Theorem find_recent_sound
        (self : AuthLogParser.t) (fs : filesystem) (ip_address username : str)
        (max_lines : Z) (evidence : ConnectionInfo) :
  (1 <= max_lines)%Z ->
  AuthLogParser.find_recent_ssh_connection self fs ip_address username max_lines
  = Some evidence ->
  exists lines line,
    fs (AuthLogParser.auth_log_path self) = Content lines /\
    In line (last_lines (Z.to_nat max_lines) lines) /\
    (names_user_and_address line ip_address username \/
     names_address line ip_address) /\
    evidence = AuthLogParser._parse_ssh_connection_line line.
Proof.
  intros Hm H.
  destruct (fs (AuthLogParser.auth_log_path self)) as [| |lines|lines] eqn:Hfs;
    try (rewrite find_recent_unavailable in H
           by (intros ? ?; congruence); discriminate H).
  rewrite (find_recent_content self fs ip_address username max_lines lines Hm Hfs)
    in H.
  exists lines.
  destruct (find _ _) as [l|] eqn:E1 in H.
  - apply find_some in E1 as [Hin Hl]; apply in_rev in Hin.
    exists l; repeat split; auto; [|congruence].
    left; now apply is_ssh_connection_line_iff.
  - destruct (find _ _) as [l|] eqn:E2 in H; [|discriminate H].
    apply find_some in E2 as [Hin Hl]; apply in_rev in Hin.
    exists l; repeat split; auto; [|congruence].
    right; now apply is_accepted_from_iff.
Qed.

Lemma find_recent_sound_witness :
  let path := AuthLogParser.auth_log_path AuthLogParser.__init__ in
  let log := [ text_line "sshd[5]: Accepted password for alice from 10.0.0.5 port 4 ssh2";
               text_line "cron[9]: job done" ] in
  exists line,
    In line log /\
    AuthLogParser.find_recent_ssh_connection
      AuthLogParser.__init__ (single_file path log) (lit "10.0.0.5") (lit "alice") 1000
    = Some (AuthLogParser._parse_ssh_connection_line line).
Proof.
  intros path log.
  assert (H : AuthLogParser.find_recent_ssh_connection
                AuthLogParser.__init__ (single_file path log)
                (lit "10.0.0.5") (lit "alice") 1000
              = Some (mk_ConnectionInfo (lit "unknown") (lit "unknown")
                                        (lit "password") (lit "unknown")))
    by (vm_compute; reflexivity).
  destruct (find_recent_sound AuthLogParser.__init__ (single_file path log)
                              (lit "10.0.0.5") (lit "alice") 1000 _
                              ltac:(lia) H)
    as (lines & line & Hfs & Hin & _ & He).
  assert (E : Content log = Content lines) by (rewrite <- Hfs; reflexivity).
  injection E as <-.
  exists line; split; [exact (in_skipn _ _ _ Hin)|].
  rewrite H; f_equal; exact He.
Defined.

(** X10: the scan finds nothing exactly when the log is missing or
    unreadable, or none of its last [max_lines] lines names the user and
    the address or the address only. *)
Theorem find_recent_absent
        (self : AuthLogParser.t) (fs : filesystem) (ip_address username : str)
        (max_lines : Z) :
  (1 <= max_lines)%Z ->
  (AuthLogParser.find_recent_ssh_connection self fs ip_address username max_lines
   = None
   <->
   match fs (AuthLogParser.auth_log_path self) with
   | Content lines =>
       forall line, In line (last_lines (Z.to_nat max_lines) lines) ->
                    ~ names_user_and_address line ip_address username /\
                    ~ names_address line ip_address
   | _ => True
   end).
Proof.
  intros Hm.
  destruct (fs (AuthLogParser.auth_log_path self)) as [| |lines|lines] eqn:Hfs;
    try (rewrite find_recent_unavailable by (intros ? ?; congruence); tauto).
  rewrite (find_recent_content self fs ip_address username max_lines lines Hm Hfs).
  split.
  - intros H line Hin; apply in_rev in Hin.
    destruct (find _ _) as [l|] eqn:E1 in H; [discriminate H|].
    destruct (find _ _) as [l|] eqn:E2 in H; [discriminate H|].
    pose proof (find_none _ _ E1 line Hin) as H1; cbv beta in H1.
    pose proof (find_none _ _ E2 line Hin) as H2.
    split; intros Hc;
      [apply is_ssh_connection_line_iff in Hc|apply is_accepted_from_iff in Hc];
      congruence.
  - intros H.
    rewrite !find_absent; [reflexivity| |]; intros l Hl; apply in_rev in Hl;
      destruct (H l Hl) as [H1 H2].
    + destruct (AuthLogParser.is_accepted_from ip_address l) eqn:E;
        [|reflexivity].
      now apply is_accepted_from_iff in E.
    + destruct (AuthLogParser._is_ssh_connection_line l ip_address username)
        eqn:E; [|reflexivity].
      now apply is_ssh_connection_line_iff in E.
Qed.

Lemma find_recent_absent_witness :
  let path := AuthLogParser.auth_log_path AuthLogParser.__init__ in
  AuthLogParser.find_recent_ssh_connection
    AuthLogParser.__init__
    (single_file path [text_line "sshd[5]: Failed password for alice from 10.0.0.5"])
    (lit "10.0.0.5") (lit "alice") 1000
  = None.
Proof.
  intros path.
  apply (proj2 (find_recent_absent
                  AuthLogParser.__init__
                  (single_file path
                     [text_line "sshd[5]: Failed password for alice from 10.0.0.5"])
                  (lit "10.0.0.5") (lit "alice") 1000 ltac:(lia))).
  intros line [<-|[]]; split.
  - intros H; apply is_ssh_connection_line_iff in H; discriminate H.
  - intros H; apply is_accepted_from_iff in H; discriminate H.
Defined.

(** X11: a line that names the user and the address wins over every more
    recent line that names the address only: the evidence is taken from
    the last line of the window that names the user and the address. *)
Theorem user_match_has_priority
        (self : AuthLogParser.t) (fs : filesystem) (ip_address username : str)
        (max_lines : Z) (lines older newer : list str) (line : str) :
  (1 <= max_lines)%Z ->
  fs (AuthLogParser.auth_log_path self) = Content lines ->
  last_lines (Z.to_nat max_lines) lines = older ++ line :: newer ->
  names_user_and_address line ip_address username ->
  (forall l, In l newer -> ~ names_user_and_address l ip_address username) ->
  AuthLogParser.find_recent_ssh_connection self fs ip_address username max_lines
  = Some (AuthLogParser._parse_ssh_connection_line line).
Proof.
  intros Hm Hfs Hw Hline Hnewer.
  rewrite (find_recent_content self fs ip_address username max_lines lines Hm Hfs).
  rewrite Hw, rev_app_distr; cbn [rev]; rewrite <- app_assoc; cbn [app].
  rewrite (find_first _ (rev newer) _ line); [reflexivity| |].
  - intros l Hl; apply in_rev in Hl.
    destruct (AuthLogParser._is_ssh_connection_line l ip_address username) eqn:E;
      [|reflexivity].
    apply is_ssh_connection_line_iff in E; now apply Hnewer in Hl.
  - now apply is_ssh_connection_line_iff.
Qed.

Lemma user_match_has_priority_witness :
  let path := AuthLogParser.auth_log_path AuthLogParser.__init__ in
  let mine := text_line "sshd[5]: Accepted password for alice from 10.0.0.5 port 4 ssh2" in
  let other := text_line "sshd[6]: Accepted publickey for bob from 10.0.0.5 port 7 ssh2" in
  names_address other (lit "10.0.0.5") /\
  AuthLogParser.find_recent_ssh_connection
    AuthLogParser.__init__ (single_file path [mine; other])
    (lit "10.0.0.5") (lit "alice") 1000
  = Some (AuthLogParser._parse_ssh_connection_line mine).
Proof.
  intros path mine other; split.
  - apply is_accepted_from_iff; reflexivity.
  - apply (user_match_has_priority
             AuthLogParser.__init__ (single_file path [mine; other])
             (lit "10.0.0.5") (lit "alice") 1000 [mine; other] [] [other] mine).
    + lia.
    + reflexivity.
    + reflexivity.
    + apply is_ssh_connection_line_iff; reflexivity.
    + intros l [<-|[]] H; apply is_ssh_connection_line_iff in H; discriminate H.
Defined.

(** X12: when no line of the window names the user and the address, the
    evidence is taken from the most recent line that names the address
    together with [Accepted] and [sshd], whichever user that line is
    about. *)
Theorem address_only_fallback
        (self : AuthLogParser.t) (fs : filesystem) (ip_address username : str)
        (max_lines : Z) (lines older newer : list str) (line : str) :
  (1 <= max_lines)%Z ->
  fs (AuthLogParser.auth_log_path self) = Content lines ->
  last_lines (Z.to_nat max_lines) lines = older ++ line :: newer ->
  (forall l, In l (older ++ line :: newer) ->
             ~ names_user_and_address l ip_address username) ->
  names_address line ip_address ->
  (forall l, In l newer -> ~ names_address l ip_address) ->
  AuthLogParser.find_recent_ssh_connection self fs ip_address username max_lines
  = Some (AuthLogParser._parse_ssh_connection_line line).
Proof.
  intros Hm Hfs Hw Hnone Hline Hnewer.
  rewrite (find_recent_content self fs ip_address username max_lines lines Hm Hfs).
  rewrite Hw, find_absent.
  - rewrite rev_app_distr; cbn [rev]; rewrite <- app_assoc; cbn [app].
    rewrite (find_first _ (rev newer) _ line); [reflexivity| |].
    + intros l Hl; apply in_rev in Hl.
      destruct (AuthLogParser.is_accepted_from ip_address l) eqn:E;
        [|reflexivity].
      apply is_accepted_from_iff in E; now apply Hnewer in Hl.
    + now apply is_accepted_from_iff.
  - intros l Hl; apply in_rev in Hl.
    destruct (AuthLogParser._is_ssh_connection_line l ip_address username) eqn:E;
      [|reflexivity].
    apply is_ssh_connection_line_iff in E; now apply Hnone in Hl.
Qed.

Lemma address_only_fallback_witness :
  let path := AuthLogParser.auth_log_path AuthLogParser.__init__ in
  let other := text_line "sshd[6]: Accepted publickey for bob from 10.0.0.5 port 7 ssh2" in
  AuthLogParser.find_recent_ssh_connection
    AuthLogParser.__init__ (single_file path [other])
    (lit "10.0.0.5") (lit "alice") 1000
  = Some (AuthLogParser._parse_ssh_connection_line other).
Proof.
  intros path other.
  apply (address_only_fallback
           AuthLogParser.__init__ (single_file path [other])
           (lit "10.0.0.5") (lit "alice") 1000 [other] [] [] other).
  - lia.
  - reflexivity.
  - reflexivity.
  - intros l [<-|[]] H; apply is_ssh_connection_line_iff in H; discriminate H.
  - apply is_accepted_from_iff; reflexivity.
  - intros l [].
Defined.

(** ** The evidence of a line *)

(** X13: the key data of the evidence is either a run of at least 50
    base64 characters that the line shows after one of the words [key],
    [RSA], [ED25519], [ECDSA], [DSA] and a space, or the sentinel
    ["unknown"], and the sentinel means that the line shows no such run at
    all. *)
Theorem key_data_evidence (line : str) :
  let key_data := c_key_data (AuthLogParser._parse_ssh_connection_line line) in
  (key_data = lit "unknown" /\
   forall p run, In p AuthLogParser.key_data_patterns ->
                 forallb Re.cls_base64 run = true -> 50 <= length run ->
                 ~ occurs (Re.prefix p ++ run) line)
  \/
  (key_data <> lit "unknown" /\
   forallb Re.cls_base64 key_data = true /\ 50 <= length key_data /\
   exists p, In p AuthLogParser.key_data_patterns /\
             occurs (Re.prefix p ++ key_data) line).
Proof.
  unfold AuthLogParser._parse_ssh_connection_line; cbn [c_key_data].
  destruct (Re.first_match AuthLogParser.key_data_patterns line) as [g|] eqn:E;
    cbn [AuthLogParser.or_unknown].
  - right.
    destruct (first_match_some _ _ _ E) as (p & Hp & Hs).
    destruct (search_sound _ _ _ Hs) as (Hc & Hlen & Hocc).
    assert (Hp' : Re.cls p = Re.cls_base64 /\ Re.min_run p = 50)
      by (destruct Hp as [<-|[<-|[<-|[<-|[<-|[]]]]]]; split; reflexivity).
    destruct Hp' as [Ecls Emin]; rewrite Ecls in Hc; rewrite Emin in Hlen.
    split; [intros ->; simpl in Hlen; lia|].
    split; [exact Hc|split; [exact Hlen|exists p; auto]].
  - left; split; [reflexivity|].
    intros p run Hp Hrun Hlen.
    assert (Hp' : Re.cls p = Re.cls_base64 /\ Re.min_run p = 50)
      by (destruct Hp as [<-|[<-|[<-|[<-|[<-|[]]]]]]; split; reflexivity).
    destruct Hp' as [Ecls Emin].
    apply search_complete;
      [now apply (first_match_none _ _ E)|now rewrite Ecls|now rewrite Emin].
Qed.

Lemma match_alt_some (alts : list str) (s g : str) :
  Re.match_alt alts s = Some g -> In g alts /\ startswith g s = true.
Proof.
  induction alts as [|a alts IH]; simpl; [discriminate|].
  destruct (startswith a s) eqn:E.
  - intros [= <-]; auto.
  - intros H; destruct (IH H); auto.
Qed.

Lemma match_alt_none (alts : list str) (s : str) :
  Re.match_alt alts s = None -> forall a, In a alts -> startswith a s = false.
Proof.
  induction alts as [|a alts IH]; simpl; [intros _ ? []|].
  destruct (startswith a s) eqn:E; [discriminate|].
  intros H b [<-|Hb]; auto.
Qed.

Lemma search_alt_unfold (alts : list str) (s : str) :
  Re.search_alt alts s =
  match Re.match_alt alts s with
  | Some g => Some g
  | None => match s with [] => None | _ :: s' => Re.search_alt alts s' end
  end.
Proof. destruct s; reflexivity. Qed.

Lemma search_alt_some (alts : list str) (s g : str) :
  Re.search_alt alts s = Some g -> In g alts /\ occurs g s.
Proof.
  induction s as [|c s IH]; rewrite search_alt_unfold;
    destruct (Re.match_alt alts _) as [g'|] eqn:E; try discriminate.
  - intros [= ->]; destruct (match_alt_some _ _ _ E) as [Hin Hs].
    split; [exact Hin|apply contains_occurs; rewrite contains_unfold, Hs; reflexivity].
  - intros [= ->]; destruct (match_alt_some _ _ _ E) as [Hin Hs].
    split; [exact Hin|apply contains_occurs; rewrite contains_unfold, Hs; reflexivity].
  - intros H; destruct (IH H) as [Hin (b & a & ->)].
    split; [exact Hin|exists (c :: b), a; reflexivity].
Qed.

Lemma search_alt_none (alts : list str) (s : str) :
  Re.search_alt alts s = None -> forall a, In a alts -> ~ occurs a s.
Proof.
  induction s as [|c s IH]; rewrite search_alt_unfold;
    destruct (Re.match_alt alts _) eqn:E; try discriminate;
    intros H a Ha Hocc; apply contains_occurs in Hocc;
    rewrite contains_unfold, (match_alt_none _ _ E a Ha) in Hocc;
    simpl in Hocc; [discriminate Hocc|].
  apply contains_occurs in Hocc; exact (IH H a Ha Hocc).
Qed.

(** X14: the key type of the evidence is one of [RSA], [ECDSA], [ED25519],
    [DSA] that occurs in the line, or ["unknown"] when none of them occurs
    anywhere in the line. *)
Theorem key_type_evidence (line : str) :
  let key_type := c_key_type (AuthLogParser._parse_ssh_connection_line line) in
  (key_type = lit "unknown" /\
   forall name, In name key_type_names -> ~ occurs name line)
  \/
  (In key_type key_type_names /\ occurs key_type line).
Proof.
  unfold AuthLogParser._parse_ssh_connection_line; cbn [c_key_type].
  fold key_type_names.
  destruct (Re.search_alt key_type_names line) as [g|] eqn:E;
    cbn [AuthLogParser.or_unknown].
  - right; now apply search_alt_some.
  - left; split; [reflexivity|now apply search_alt_none].
Qed.

(* ================================================================== *)
(** * Further properties of the correlation *)

(** ** Logged SHA256 fingerprints and the index *)

Lemma fingerprint_has_colon (kt kd : str) (bs : list byte) :
  Base64.b64decode kd = Some bs ->
  In ":"%char (SSHKeyParser._generate_fingerprint kt kd).
Proof.
  intros H; rewrite (generate_fingerprint_decoded kt kd bs H).
  pose proof (digest_length bs) as Hlen.
  destruct (MD5.digest bs) as [|b0 [|b1 d]]; try discriminate Hlen.
  cbn [map join]; change (lit ":") with [":"%char].
  apply in_or_app; right; now left.
Qed.

(** The keys of the index are MD5 fingerprints, which contain a colon, or
    the sentinel. *)
Lemma index_key_shape (fs : filesystem) (path : str) (fp : str) (ki : KeyInfo) :
  dict_get (SSHKeyParser.key_cache (SSHKeyParser.__init__ fs path)) fp = Some ki ->
  fp = lit "unknown" \/ In ":"%char fp.
Proof.
  intros H.
  destruct (index_entry_line fs path fp ki H)
    as (lines & i & line & e & _ & _ & He & Hf & _).
  destruct (loaded_key_line _ _ He) as (tr & _ & Hg).
  rewrite <- Hf, Hg.
  destruct (Base64.b64decode (k_data e)) as [bs|] eqn:E.
  - right; now apply fingerprint_has_colon with bs.
  - left; now apply fingerprint_unknown_iff.
Qed.

(** X15: a fingerprint that the log shows in the SHA256 form
    ([RSA SHA256:...], [ED25519 SHA256:...], [ECDSA SHA256:...],
    [DSA SHA256:...]) becomes the fingerprint of the evidence and never
    resolves in the index, whatever the registry holds: the index is keyed
    by colon-separated MD5 fingerprints. *)
Theorem sha256_fingerprint_never_resolves
        (fs : filesystem) (path : str) (line fingerprint : str) :
  Re.first_match sha256_patterns line = Some fingerprint ->
  c_fingerprint (AuthLogParser._parse_ssh_connection_line line) = fingerprint /\
  SSHKeyParser.by_logged_fingerprint
    (SSHKeyParser.__init__ fs path)
    (Some (AuthLogParser._parse_ssh_connection_line line)) = None.
Proof.
  intros H.
  assert (Hfp : c_fingerprint (AuthLogParser._parse_ssh_connection_line line)
                = fingerprint).
  { unfold AuthLogParser._parse_ssh_connection_line; cbn [c_fingerprint].
    change AuthLogParser.fingerprint_patterns
      with (sha256_patterns ++ skipn 4 AuthLogParser.fingerprint_patterns).
    now rewrite first_match_app, H. }
  split; [exact Hfp|].
  unfold SSHKeyParser.by_logged_fingerprint; rewrite Hfp.
  destruct (str_eqb fingerprint (lit "unknown")) eqn:Eu; [reflexivity|].
  cbn [negb]; unfold SSHKeyParser.find_key_by_fingerprint.
  destruct (dict_get _ fingerprint) as [ki|] eqn:Eg; [exfalso|reflexivity].
  destruct (index_key_shape _ _ _ _ Eg) as [->|Hcolon];
    [now rewrite str_eqb_refl in Eu|].
  destruct (first_match_some _ _ _ H) as (p & Hp & Hs).
  destruct (search_sound _ _ _ Hs) as (Hc & _ & _).
  assert (Ecls : Re.cls p = Re.cls_base64)
    by (destruct Hp as [<-|[<-|[<-|[<-|[]]]]]; reflexivity).
  rewrite Ecls in Hc.
  rewrite forallb_forall in Hc; apply Hc in Hcolon; discriminate Hcolon.
Qed.

Lemma sha256_fingerprint_never_resolves_witness :
  let path := SSHKeyParser.default_authorized_keys_path in
  let line := text_line
    "sshd[5]: Accepted publickey for alice from 10.0.0.5 port 4 ssh2: RSA SHA256:kC1qZ3uVJ0" in
  c_fingerprint (AuthLogParser._parse_ssh_connection_line line) = lit "kC1qZ3uVJ0" /\
  SSHKeyParser.by_logged_fingerprint
    (SSHKeyParser.__init__
       (single_file path [text_line "ssh-rsa QUJD alice@laptop"]) path)
    (Some (AuthLogParser._parse_ssh_connection_line line)) = None.
Proof.
  intros path line.
  apply (sha256_fingerprint_never_resolves
           (single_file path [text_line "ssh-rsa QUJD alice@laptop"]) path
           line (lit "kC1qZ3uVJ0")).
  reflexivity.
Defined.

(** ** What the correlation can return *)

Lemma dict_get_in_values {V} (d : dict V) (k : str) (v : V) :
  dict_get d k = Some v -> In v (dict_values d).
Proof.
  unfold dict_values; induction d as [|[k0 v0] d IH]; simpl; [discriminate|].
  destruct (str_eqb k0 k); [intros [= ->]; now left|auto].
Qed.

Lemma find_key_by_data_line (self : SSHKeyParser.t) (fs : filesystem)
      (key_data : str) (entry : KeyInfo) :
  SSHKeyParser._find_key_by_data self fs key_data = Some entry ->
  exists lines line,
    yields (fs (SSHKeyParser.authorized_keys_path self)) lines /\
    In line lines /\
    SSHKeyParser._parse_authorized_key_line (strip line) = Some entry.
Proof.
  intros H.
  destruct (file_cases (fs (SSHKeyParser.authorized_keys_path self)))
    as [Hfs|[Hfs|[lines Hfs]]];
    try (rewrite find_key_by_data_closed in H by auto; discriminate H).
  rewrite (find_key_by_data_yields self fs lines key_data Hfs) in H.
  destruct (find _ lines) as [line|] eqn:Hfind; [|discriminate H].
  apply find_some in Hfind as [Hin _].
  exists lines, line; auto.
Qed.

Lemma scan_recent_some (self : SSHKeyParser.t) (fs : filesystem) (ip : str)
      (lines : list str) (entry : KeyInfo) :
  SSHKeyParser.scan_recent self fs ip lines = Some entry ->
  exists key_data, SSHKeyParser._find_key_by_data self fs key_data = Some entry.
Proof.
  induction lines as [|l lines IH]; simpl; [discriminate|].
  destruct (AuthLogParser.is_accepted_from ip l); [|exact IH].
  destruct (negb _); [|exact IH].
  destruct (SSHKeyParser._find_key_by_data self fs _) as [k|] eqn:E; [|exact IH].
  intros [= ->]; eauto.
Qed.

(** X16: whatever the log and the environment say, a key returned by
    [find_key_by_ip_and_user] is an entry of the index or the parse of a
    line the registry file yields (to its end, or up to a read that
    fails); no entry is made up from log text or from the environment. *)
Theorem resolved_key_is_registered
        (self : SSHKeyParser.t) (fs : filesystem) (env : environ)
        (ip_address username : str) (entry : KeyInfo) :
  SSHKeyParser.find_key_by_ip_and_user self fs env ip_address username
  = Some entry ->
  In entry (dict_values (SSHKeyParser.key_cache self)) \/
  exists lines line,
    yields (fs (SSHKeyParser.authorized_keys_path self)) lines /\
    In line lines /\
    SSHKeyParser._parse_authorized_key_line (strip line) = Some entry.
Proof.
  unfold SSHKeyParser.find_key_by_ip_and_user,
    SSHKeyParser.find_key_by_ip_and_user_body.
  set (ci := AuthLogParser.find_recent_ssh_connection _ _ _ _ _).
  destruct (SSHKeyParser.by_logged_fingerprint self ci) as [k|] eqn:E1.
  { cbn; intros [= ->]; left.
    unfold SSHKeyParser.by_logged_fingerprint in E1.
    destruct ci as [c|]; [|discriminate E1].
    destruct (negb _); [|discriminate E1].
    eapply dict_get_in_values; exact E1. }
  destruct (SSHKeyParser.by_logged_key_data self fs ci) as [k|] eqn:E2.
  { cbn; intros [= ->]; right.
    unfold SSHKeyParser.by_logged_key_data in E2.
    destruct ci as [c|]; [|discriminate E2].
    destruct (negb _); [|discriminate E2].
    eapply find_key_by_data_line; exact E2. }
  destruct (SSHKeyParser.by_recent_lines self fs ip_address) as [[k|]|] eqn:E3;
    cbn; try discriminate.
  { intros [= ->]; right.
    unfold SSHKeyParser.by_recent_lines in E3.
    destruct (exists_ fs _); [|discriminate E3].
    destruct (read_lines fs _) as [lines|]; [|discriminate E3].
    cbn in E3; injection E3 as E3.
    destruct (scan_recent_some _ _ _ _ _ E3) as [kd Hkd].
    eapply find_key_by_data_line; exact Hkd. }
  intros H; left.
  unfold SSHKeyParser._find_key_from_ssh_environment in H.
  destruct (truthy (env (lit "SSH_KEY_FINGERPRINT"))).
  - eapply dict_get_in_values; exact H.
  - destruct (truthy (env (lit "SSH_KEY_COMMENT"))); [|discriminate H].
    apply find_some in H as [Hin _]; exact Hin.
Qed.

Lemma resolved_key_is_registered_witness :
  let path := SSHKeyParser.default_authorized_keys_path in
  let fs := single_file path [text_line "ssh-rsa QUJD alice@laptop"] in
  let self := SSHKeyParser.__init__ fs path in
  let env : environ := fun name =>
    if str_eqb name (lit "SSH_KEY_COMMENT") then Some (lit "alice@laptop")
    else None in
  exists entry,
    SSHKeyParser.find_key_by_ip_and_user self fs env (lit "10.0.0.5") (lit "alice")
    = Some entry /\
    In entry (dict_values (SSHKeyParser.key_cache self)).
Proof.
  intros path fs self env.
  assert (H : SSHKeyParser.find_key_by_ip_and_user
                self fs env (lit "10.0.0.5") (lit "alice")
              = Some (mk_KeyInfo (lit "ssh-rsa") (lit "QUJD")
                        (lit "90:2f:bd:d2:b1:df:0c:4f:70:b4:a5:d2:35:25:e9:32")
                        (lit "alice@laptop") [] (lit "ssh-rsa QUJD alice@laptop")
                        (Some 1)))
    by (vm_compute; reflexivity).
  eexists; split; [exact H|].
  destruct (resolved_key_is_registered _ _ _ _ _ _ H)
    as [Hin | (lines & line & _ & _ & Hp)]; [exact Hin|].
  vm_compute; left; reflexivity.
Defined.

(** ** The auth log is missing or cannot be read *)

(** X17: when the auth log exists but cannot be read, the correlation
    returns nothing, even when the environment names a key of the
    registry: the second read of the log raises inside the outer [try] and
    the environment step is never reached. *)
Theorem unreadable_log_hides_environment
        (fs : filesystem) (registry_path : str) (env : environ)
        (ip_address username : str) :
  fs (lit "/var/log/auth.log") = Unreadable ->
  SSHKeyParser.find_key_by_ip_and_user
    (SSHKeyParser.__init__ fs registry_path) fs env ip_address username = None.
Proof.
  intros Hlog.
  unfold SSHKeyParser.find_key_by_ip_and_user,
    SSHKeyParser.find_key_by_ip_and_user_body.
  rewrite find_recent_unavailable
    by (cbn [AuthLogParser.__init__ AuthLogParser.auth_log_path];
        intros ? ?; congruence).
  cbn [SSHKeyParser.by_logged_fingerprint SSHKeyParser.by_logged_key_data].
  unfold SSHKeyParser.by_recent_lines, exists_, read_lines.
  cbn [SSHKeyParser.__init__ SSHKeyParser.auth_log_path].
  rewrite Hlog; reflexivity.
Qed.

Lemma unreadable_log_hides_environment_witness :
  let path := SSHKeyParser.default_authorized_keys_path in
  let fs : filesystem := fun p =>
    if str_eqb p path then Content [text_line "ssh-rsa QUJD alice@laptop"]
    else Unreadable in
  let self := SSHKeyParser.__init__ fs path in
  let env : environ := fun name =>
    if str_eqb name (lit "SSH_KEY_COMMENT") then Some (lit "alice@laptop")
    else None in
  SSHKeyParser._find_key_from_ssh_environment self env <> None /\
  SSHKeyParser.find_key_by_ip_and_user self fs env (lit "10.0.0.5") (lit "alice")
  = None.
Proof.
  intros path fs self env; split; [vm_compute; discriminate|].
  apply (unreadable_log_hides_environment fs path env (lit "10.0.0.5") (lit "alice")).
  reflexivity.
Defined.

(** X18: when the auth log is missing, the correlation is decided by the
    environment alone: the result is that of the environment step. *)
Theorem missing_log_defers_to_environment
        (fs : filesystem) (registry_path : str) (env : environ)
        (ip_address username : str) :
  fs (lit "/var/log/auth.log") = Missing ->
  let self := SSHKeyParser.__init__ fs registry_path in
  SSHKeyParser.find_key_by_ip_and_user self fs env ip_address username
  = SSHKeyParser._find_key_from_ssh_environment self env.
Proof.
  intros Hlog self.
  unfold SSHKeyParser.find_key_by_ip_and_user,
    SSHKeyParser.find_key_by_ip_and_user_body.
  rewrite find_recent_unavailable
    by (cbn [AuthLogParser.__init__ AuthLogParser.auth_log_path];
        intros ? ?; congruence).
  cbn [SSHKeyParser.by_logged_fingerprint SSHKeyParser.by_logged_key_data].
  unfold SSHKeyParser.by_recent_lines, exists_.
  cbn [self SSHKeyParser.__init__ SSHKeyParser.auth_log_path].
  rewrite Hlog; cbn.
  destruct (SSHKeyParser._find_key_from_ssh_environment _ env); reflexivity.
Qed.

Lemma missing_log_defers_to_environment_witness :
  let path := SSHKeyParser.default_authorized_keys_path in
  let fs := single_file path [text_line "ssh-rsa QUJD alice@laptop"] in
  let self := SSHKeyParser.__init__ fs path in
  let env : environ := fun name =>
    if str_eqb name (lit "SSH_KEY_COMMENT") then Some (lit "alice@laptop")
    else None in
  SSHKeyParser.find_key_by_ip_and_user self fs env (lit "10.0.0.5") (lit "alice")
  = comment_scan self (Some (lit "alice@laptop")).
Proof.
  intros path fs self env.
  exact (missing_log_defers_to_environment fs path env (lit "10.0.0.5")
                                           (lit "alice") eq_refl).
Defined.

(* ================================================================== *)
(** * Properties of the connection detector *)

(** ** Tokens *)

Lemma split_tokens (s t : str) :
  In t (split s) -> t <> [] /\ visible t = true.
Proof.
  revert t; induction s as [|c s IH]; intros t; [intros []|].
  cbn [split]; destruct (isspace c) eqn:Hc; [apply IH|].
  assert (Hone : [c] <> [] /\ visible [c] = true)
    by (split; [discriminate|unfold visible; simpl; now rewrite Hc]).
  destruct s as [|d s']; [intros [<-|[]]; exact Hone|].
  destruct (isspace d) eqn:Hd.
  - intros [<-|Hin]; [exact Hone|now apply IH].
  - destruct (split (d :: s')) as [|w ws] eqn:Hs; [intros [<-|[]]; exact Hone|].
    intros [<-|Hin].
    + destruct (IH w (or_introl eq_refl)) as [_ Hw].
      split; [discriminate|unfold visible in *; simpl; now rewrite Hc, Hw].
    + apply IH; now right.
Qed.

Lemma split_nil_iff (s : str) : split s = [] <-> forallb isspace s = true.
Proof.
  induction s as [|c s IH]; [simpl; tauto|].
  cbn [split forallb]; destruct (isspace c); [exact IH|].
  split; [|discriminate].
  destruct s as [|d s']; [discriminate|].
  destruct (isspace d); [discriminate|].
  destruct (split (d :: s')); discriminate.
Qed.

Lemma split_char_first (sep : ascii) (s : str) :
  exists field rest,
    split_char sep s = field :: rest /\ ~ In sep field /\
    (contains [sep] s = true -> exists tail, s = field ++ sep :: tail).
Proof.
  induction s as [|c s IH].
  - exists [], []; repeat split; auto; discriminate.
  - destruct IH as (f & r & Hs & Hf & Ht).
    cbn [split_char]; destruct (Ascii.eqb c sep) eqn:E.
    + apply Ascii.eqb_eq in E; subst c.
      exists [], (split_char sep s); repeat split; auto.
      intros _; now exists s.
    + rewrite Hs; exists (c :: f), r; repeat split; auto.
      * intros [->|Hin]; [now rewrite Ascii.eqb_refl in E|auto].
      * rewrite contains_unfold; cbn [startswith].
        rewrite Ascii.eqb_sym, E; cbn [andb orb].
        intros Hc; destruct (Ht Hc) as [tail ->]; now exists tail.
Qed.

(** ** The source address *)

Lemma first_item_split (v : str) :
  SSHConnectionDetector.first_item (split v) = Raise
  <-> forallb isspace v = true.
Proof.
  rewrite <- split_nil_iff; unfold SSHConnectionDetector.first_item.
  destruct (split v); split; congruence.
Qed.

Lemma truthy_iff (value : option str) :
  truthy value = false <-> value = None \/ value = Some [].
Proof.
  destruct value as [[|c s]|]; simpl; split; intros H; auto;
    try discriminate; destruct H; discriminate.
Qed.

Lemma get_source_ip_raises_iff (w : SSHConnectionDetector.world) :
  SSHConnectionDetector._get_source_ip w = Raise <->
  blank_value (SSHConnectionDetector.env w (lit "SSH_CONNECTION")) \/
  (unset_or_empty (SSHConnectionDetector.env w) (lit "SSH_CONNECTION") /\
   blank_value (SSHConnectionDetector.env w (lit "SSH_CLIENT"))).
Proof.
  unfold SSHConnectionDetector._get_source_ip, unset_or_empty.
  destruct (truthy (SSHConnectionDetector.env w (lit "SSH_CONNECTION"))) eqn:Tc.
  - destruct (SSHConnectionDetector.env w (lit "SSH_CONNECTION")) as [[|c s]|];
      try discriminate Tc.
    rewrite first_item_split; split.
    + intros H; left; exists (c :: s); repeat split; [discriminate|exact H].
    + intros [(s' & Hs & _ & H) | [[Hu|Hu] _]]; try discriminate Hu.
      injection Hs as <-; exact H.
  - assert (Hnb : ~ blank_value
                      (SSHConnectionDetector.env w (lit "SSH_CONNECTION"))).
    { intros (s' & Hs & Hne & _); rewrite Hs in Tc.
      destruct s'; [congruence|discriminate Tc]. }
    apply truthy_iff in Tc.
    destruct (truthy (SSHConnectionDetector.env w (lit "SSH_CLIENT"))) eqn:Tl.
    + destruct (SSHConnectionDetector.env w (lit "SSH_CLIENT")) as [[|c s]|];
        try discriminate Tl.
      rewrite first_item_split; split.
      * intros H; right; split; [exact Tc|].
        exists (c :: s); repeat split; [discriminate|exact H].
      * intros [Hb | [_ (s' & Hs & _ & H)]]; [contradiction|].
        injection Hs as <-; exact H.
    + split.
      * destruct (SSHConnectionDetector.source_ip_from_ss w); discriminate.
      * intros [Hb | [_ (s' & Hs & Hne & _)]]; [contradiction|].
        rewrite Hs in Tl; destruct s'; [congruence|discriminate Tl].
Qed.

Lemma both_terminals_raises_iff (w : SSHConnectionDetector.world) :
  SSHConnectionDetector.both_terminals w = Raise <->
  terminal_test_raises (SSHConnectionDetector.stdin_isatty w)
                       (SSHConnectionDetector.stdout_isatty w).
Proof.
  unfold SSHConnectionDetector.both_terminals, terminal_test_raises.
  destruct (SSHConnectionDetector.stdin_isatty w) as [[|]|]; cbn [bind].
  - split; [intros H; right; split; [reflexivity|exact H]|].
    intros [H|[_ H]]; [discriminate H|exact H].
  - split; [discriminate|].
    intros [H|[H _]]; discriminate H.
  - split; [now left|reflexivity].
Qed.

(** The block after the terminal test never raises. *)
Lemma get_connection_type_cases (w : SSHConnectionDetector.world) :
  (truthy (SSHConnectionDetector.env w (lit "SSH_ORIGINAL_COMMAND")) = true /\
   SSHConnectionDetector._get_connection_type w
   = Return (lit "Command execution")) \/
  (truthy (SSHConnectionDetector.env w (lit "SSH_ORIGINAL_COMMAND")) = false /\
   truthy (SSHConnectionDetector.env w (lit "SSH_TUNNEL")) = true /\
   SSHConnectionDetector._get_connection_type w = Return (lit "Tunnel")) \/
  (truthy (SSHConnectionDetector.env w (lit "SSH_ORIGINAL_COMMAND")) = false /\
   truthy (SSHConnectionDetector.env w (lit "SSH_TUNNEL")) = false /\
   ((SSHConnectionDetector.both_terminals w = Raise /\
     SSHConnectionDetector._get_connection_type w = Raise) \/
    (exists interactive kind,
        SSHConnectionDetector.both_terminals w = Return interactive /\
        SSHConnectionDetector._get_connection_type w = Return kind /\
        In kind connection_types /\
        (interactive = true -> kind = lit "Interactive shell") /\
        (SSHConnectionDetector.run
           w [lit "ps"; lit "-o"; lit "cmd="; lit "-p";
              SSHConnectionDetector.ppid w] = Raise ->
         kind = lit "Interactive shell")))).
Proof.
  unfold SSHConnectionDetector._get_connection_type, connection_types.
  destruct (truthy (SSHConnectionDetector.env w (lit "SSH_ORIGINAL_COMMAND")));
    [left; split; reflexivity|right].
  destruct (truthy (SSHConnectionDetector.env w (lit "SSH_TUNNEL")));
    [left; repeat split; reflexivity|right].
  split; [reflexivity|split; [reflexivity|]].
  destruct (SSHConnectionDetector.both_terminals w) as [[|]|]; cbn [bind].
  - right; exists true, (lit "Interactive shell").
    repeat split; auto; do 2 right; now left.
  - right; exists false.
    destruct (SSHConnectionDetector.run w _) as [[rc out]|];
      cbn [bind try_except fst snd].
    + destruct (rc =? 0)%Z; cbn [try_except].
      * destruct (contains (lit "tunnel") _); cbn [try_except].
        -- exists (lit "Tunnel"); repeat split; try discriminate.
           right; now left.
        -- destruct (contains (lit "command") _); cbn [try_except].
           ++ exists (lit "Command execution"); repeat split; try discriminate.
              now left.
           ++ exists (lit "Interactive shell"); repeat split; auto.
              do 2 right; now left.
      * exists (lit "Interactive shell"); repeat split; auto.
        do 2 right; now left.
    + exists (lit "Interactive shell"); repeat split; auto.
      do 2 right; now left.
  - left; split; reflexivity.
Qed.

Lemma get_connection_type_raises_iff (w : SSHConnectionDetector.world) :
  SSHConnectionDetector._get_connection_type w = Raise <->
  unset_or_empty (SSHConnectionDetector.env w) (lit "SSH_ORIGINAL_COMMAND") /\
  unset_or_empty (SSHConnectionDetector.env w) (lit "SSH_TUNNEL") /\
  terminal_test_raises (SSHConnectionDetector.stdin_isatty w)
                       (SSHConnectionDetector.stdout_isatty w).
Proof.
  unfold unset_or_empty; rewrite <- !truthy_iff, <- both_terminals_raises_iff.
  destruct (get_connection_type_cases w)
    as [[H1 E]|[(H1 & H2 & E)|(H1 & H2 & [[Hb E]|(i & k & Hb & E & _)])]];
    rewrite E; split; try discriminate; try (intros (A & B & C); congruence).
  auto.
Qed.

(** X19: [get_connection_info] raises exactly when the variable that
    supplies the address ([SSH_CONNECTION], or [SSH_CLIENT] when the former
    is unset or empty) is set to white space only, or when
    [SSH_ORIGINAL_COMMAND] and [SSH_TUNNEL] are unset or empty and the
    terminal test raises ([sys.stdin.isatty()] does, or it answers true and
    [sys.stdout.isatty()] raises); every dictionary it returns has
    ['key_fingerprint'] and ['key_comment'] equal to ["unknown"], and the
    address and the connection type the two helpers returned. *)
Theorem connection_info_failure (w : SSHConnectionDetector.world) :
  (SSHConnectionDetector.get_connection_info w = Raise <->
   (blank_value (SSHConnectionDetector.env w (lit "SSH_CONNECTION")) \/
    (unset_or_empty (SSHConnectionDetector.env w) (lit "SSH_CONNECTION") /\
     blank_value (SSHConnectionDetector.env w (lit "SSH_CLIENT")))) \/
   (unset_or_empty (SSHConnectionDetector.env w) (lit "SSH_ORIGINAL_COMMAND") /\
    unset_or_empty (SSHConnectionDetector.env w) (lit "SSH_TUNNEL") /\
    terminal_test_raises (SSHConnectionDetector.stdin_isatty w)
                         (SSHConnectionDetector.stdout_isatty w))) /\
  (forall details,
      SSHConnectionDetector.get_connection_info w = Return details ->
      d_key_fingerprint details = lit "unknown" /\
      d_key_comment details = lit "unknown" /\
      SSHConnectionDetector._get_source_ip w = Return (d_ip_address details) /\
      SSHConnectionDetector._get_connection_type w
      = Return (d_connection_type details)).
Proof.
  split.
  - rewrite <- get_source_ip_raises_iff, <- get_connection_type_raises_iff.
    unfold SSHConnectionDetector.get_connection_info.
    destruct (SSHConnectionDetector._get_source_ip w); cbn [bind].
    + destruct (SSHConnectionDetector._get_connection_type w); cbn [bind].
      * split; [discriminate|intros [H|H]; discriminate H].
      * split; [now right|reflexivity].
    + split; [now left|reflexivity].
  - intros details; unfold SSHConnectionDetector.get_connection_info.
    destruct (SSHConnectionDetector._get_source_ip w); cbn [bind];
      [|discriminate].
    destruct (SSHConnectionDetector._get_connection_type w); cbn [bind];
      [|discriminate].
    intros [= <-]; cbn; auto.
Qed.

Lemma connection_info_failure_witness :
  let w := SSHConnectionDetector.mk_world
             (fun name => if str_eqb name (lit "SSH_CLIENT")
                          then Some (lit "10.0.0.5 50022 22") else None)
             (fun _ => Raise) (Return true) Raise (lit "1") in
  SSHConnectionDetector.get_connection_info w = Raise.
Proof.
  intros w.
  apply (proj2 (proj1 (connection_info_failure w))).
  right; split; [left; reflexivity|].
  split; [left; reflexivity|].
  right; split; reflexivity.
Defined.

(** X20: an address taken from the environment is the first token of
    [SSH_CONNECTION], or of [SSH_CLIENT] when [SSH_CONNECTION] is unset or
    empty; it is not empty and contains no white space, and [ss] is not
    consulted. *)
Theorem source_ip_from_environment
        (w : SSHConnectionDetector.world) (value token : str) (rest : list str) :
  (SSHConnectionDetector.env w (lit "SSH_CONNECTION") = Some value \/
   (unset_or_empty (SSHConnectionDetector.env w) (lit "SSH_CONNECTION") /\
    SSHConnectionDetector.env w (lit "SSH_CLIENT") = Some value)) ->
  split value = token :: rest ->
  SSHConnectionDetector._get_source_ip w = Return token /\
  token <> [] /\ visible token = true.
Proof.
  intros Hsrc Hs.
  assert (Hv : truthy (Some value) = true)
    by (destruct value; [discriminate Hs|reflexivity]).
  split; [|apply split_tokens with value; rewrite Hs; now left].
  unfold SSHConnectionDetector._get_source_ip.
  destruct Hsrc as [H | [Hu H]].
  - now rewrite H, Hv, Hs.
  - apply truthy_iff in Hu; now rewrite Hu, H, Hv, Hs.
Qed.

Lemma source_ip_from_environment_witness :
  let w := SSHConnectionDetector.mk_world
             (fun name => if str_eqb name (lit "SSH_CONNECTION")
                          then Some (lit "10.0.0.5 50022 10.0.0.1 22") else None)
             (fun _ => Raise) (Return false) (Return false) (lit "1") in
  SSHConnectionDetector._get_source_ip w = Return (lit "10.0.0.5").
Proof.
  intros w.
  apply (source_ip_from_environment
           w (lit "10.0.0.5 50022 10.0.0.1 22") (lit "10.0.0.5")
           [lit "50022"; lit "10.0.0.1"; lit "22"]).
  - left; reflexivity.
  - reflexivity.
Defined.

(** X21: the address and the port can come from different variables: when
    [SSH_CONNECTION] holds a single token and [SSH_CLIENT] at least two,
    the address is the token of [SSH_CONNECTION] and the port is the second
    token of [SSH_CLIENT]. *)
Theorem address_and_port_from_different_variables
        (w : SSHConnectionDetector.world) (connection client : str)
        (address other port : str) (rest : list str) :
  SSHConnectionDetector.env w (lit "SSH_CONNECTION") = Some connection ->
  split connection = [address] ->
  SSHConnectionDetector.env w (lit "SSH_CLIENT") = Some client ->
  split client = other :: port :: rest ->
  SSHConnectionDetector._get_source_ip w = Return address /\
  SSHConnectionDetector._get_source_port w = port.
Proof.
  intros Hc Hsc Hl Hsl.
  assert (Hv : truthy (Some connection) = true)
    by (destruct connection; [discriminate Hsc|reflexivity]).
  assert (Hv' : truthy (Some client) = true)
    by (destruct client; [discriminate Hsl|reflexivity]).
  unfold SSHConnectionDetector._get_source_ip,
    SSHConnectionDetector._get_source_port, SSHConnectionDetector.port_of.
  rewrite Hc, Hl, Hv, Hv', Hsc, Hsl; split; reflexivity.
Qed.

Lemma address_and_port_from_different_variables_witness :
  let w := SSHConnectionDetector.mk_world
             (fun name =>
                if str_eqb name (lit "SSH_CONNECTION") then Some (lit "10.0.0.5")
                else if str_eqb name (lit "SSH_CLIENT")
                     then Some (lit "192.168.1.9 40000 22")
                     else None)
             (fun _ => Raise) (Return false) (Return false) (lit "1") in
  SSHConnectionDetector._get_source_ip w = Return (lit "10.0.0.5") /\
  SSHConnectionDetector._get_source_port w = lit "40000".
Proof.
  intros w.
  apply (address_and_port_from_different_variables
           w (lit "10.0.0.5") (lit "192.168.1.9 40000 22")
           (lit "10.0.0.5") (lit "192.168.1.9") (lit "40000") [lit "22"]);
    reflexivity.
Defined.

Lemma scan_ss_some (lines : list str) (ip : str) :
  SSHConnectionDetector.scan_ss lines = Some ip ->
  exists line field tail,
    In line lines /\ occurs (lit "sshd") line /\ occurs (lit "ESTAB") line /\
    nth_error (split line) 3 = Some field /\
    field = ip ++ ":"%char :: tail /\ ~ In ":"%char ip /\ visible ip = true.
Proof.
  induction lines as [|line lines IH]; cbn [SSHConnectionDetector.scan_ss];
    [discriminate|].
  assert (Hrest : SSHConnectionDetector.scan_ss lines = Some ip ->
                  exists line0 field tail,
                    In line0 (line :: lines) /\ occurs (lit "sshd") line0 /\
                    occurs (lit "ESTAB") line0 /\
                    nth_error (split line0) 3 = Some field /\
                    field = ip ++ ":"%char :: tail /\ ~ In ":"%char ip /\
                    visible ip = true).
  { intros H; destruct (IH H) as (l & f & t & Hin & Hrem).
    exists l, f, t; split; [now right|exact Hrem]. }
  destruct (contains (lit "sshd") line && contains (lit "ESTAB") line) eqn:Hm;
    [|exact Hrest].
  destruct (Nat.leb 4 (length (split line))) eqn:Hlen; [|exact Hrest].
  destruct (contains (lit ":") (nth 3 (split line) [])) eqn:Hcolon;
    [|exact Hrest].
  intros [= <-].
  apply andb_true_iff in Hm as [H1 H2].
  apply Nat.leb_le in Hlen.
  assert (Hnth : nth_error (split line) 3 = Some (nth 3 (split line) []))
    by (apply nth_error_nth'; lia).
  set (field := nth 3 (split line) []) in *.
  destruct (split_char_first ":" field) as (f & r & Hs & Hf & Ht).
  destruct (Ht Hcolon) as [tail Htail].
  rewrite Hs; cbn [nth].
  exists line, field, tail; split; [now left|].
  split; [now apply contains_occurs|].
  split; [now apply contains_occurs|].
  split; [exact Hnth|split; [exact Htail|split; [exact Hf|]]].
  apply nth_error_In in Hnth.
  destruct (split_tokens _ _ Hnth) as [_ Hvis].
  unfold visible in *; rewrite Htail, forallb_app in Hvis.
  now apply andb_true_iff in Hvis as [Hvis _].
Qed.

(** X22: with neither [SSH_CONNECTION] nor [SSH_CLIENT] set, the address
    never fails: it is ["unknown"] when [ss -tnp] cannot be run or returns
    a non-zero code, and otherwise ["unknown"] or the text before the first
    colon of the fourth field of a line of the output that contains [sshd]
    and [ESTAB] (so it has no colon and no white space). *)
Theorem source_ip_via_ss
        (w : SSHConnectionDetector.world) :
  unset_or_empty (SSHConnectionDetector.env w) (lit "SSH_CONNECTION") ->
  unset_or_empty (SSHConnectionDetector.env w) (lit "SSH_CLIENT") ->
  exists ip,
    SSHConnectionDetector._get_source_ip w = Return ip /\
    (ip = lit "unknown" \/
     exists output line field tail,
       SSHConnectionDetector.run w [lit "ss"; lit "-tnp"] = Return (0%Z, output) /\
       In line (split_char "010" output) /\
       occurs (lit "sshd") line /\ occurs (lit "ESTAB") line /\
       nth_error (split line) 3 = Some field /\
       field = ip ++ ":"%char :: tail /\
       ~ In ":"%char ip /\ visible ip = true).
Proof.
  intros H1 H2; apply truthy_iff in H1, H2.
  unfold SSHConnectionDetector._get_source_ip; rewrite H1, H2.
  unfold SSHConnectionDetector.source_ip_from_ss.
  destruct (SSHConnectionDetector.run w [lit "ss"; lit "-tnp"])
    as [[rc output]|] eqn:Hrun; cbn [bind try_except fst snd];
    [|exists (lit "unknown"); auto].
  destruct (Z.eqb_spec rc 0) as [->|Hrc]; cbn [try_except];
    [|exists (lit "unknown"); auto].
  destruct (SSHConnectionDetector.scan_ss _) as [ip|] eqn:Hscan;
    [|exists (lit "unknown"); auto].
  exists ip; split; [reflexivity|right].
  destruct (scan_ss_some _ _ Hscan) as (line & field & tail & Hrem).
  exists output, line, field, tail; split; [reflexivity|exact Hrem].
Qed.

Lemma source_ip_via_ss_witness :
  let output :=
    text_line "State Recv-Q Send-Q Local Peer Process"
    ++ text_line "ESTAB 0 0 10.0.0.5:22 10.0.0.9:50022 users:((sshd,pid=7,fd=4))" in
  let w := SSHConnectionDetector.mk_world
             (fun _ => None)
             (fun argv => if list_eq_dec str_eq_dec argv [lit "ss"; lit "-tnp"]
                          then Return (0%Z, output) else Raise)
             (Return false) (Return false) (lit "1") in
  SSHConnectionDetector._get_source_ip w = Return (lit "10.0.0.5") /\
  exists ip, SSHConnectionDetector._get_source_ip w = Return ip /\
             ~ In ":"%char ip.
Proof.
  intros output w; split; [reflexivity|].
  destruct (source_ip_via_ss w) as (ip & Hip & Hshape);
    [left; reflexivity|left; reflexivity|].
  exists ip; split; [exact Hip|].
  destruct Hshape as [->|(o & l & f & t & _ & _ & _ & _ & _ & _ & Hc & _)];
    [|exact Hc].
  intros [H|[H|[H|[H|[H|[H|[H|[]]]]]]]]; discriminate H.
Defined.

(** ** The connection type *)

(** X23: a connection type that is returned is one of [Command execution],
    [Tunnel], [Interactive shell], never the initial ["unknown"]; the
    function raises exactly when [SSH_ORIGINAL_COMMAND] and [SSH_TUNNEL] are
    unset or empty and the terminal test raises; a non-empty
    [SSH_ORIGINAL_COMMAND] decides for [Command execution] before anything
    else is looked at, whatever the streams do; and with neither variable
    set, when the terminal test does not raise, a process whose parent
    cannot be listed is reported as [Interactive shell]. *)
Theorem connection_type_range (w : SSHConnectionDetector.world) :
  (forall kind,
      SSHConnectionDetector._get_connection_type w = Return kind ->
      In kind connection_types /\ kind <> lit "unknown") /\
  (SSHConnectionDetector._get_connection_type w = Raise <->
   unset_or_empty (SSHConnectionDetector.env w) (lit "SSH_ORIGINAL_COMMAND") /\
   unset_or_empty (SSHConnectionDetector.env w) (lit "SSH_TUNNEL") /\
   terminal_test_raises (SSHConnectionDetector.stdin_isatty w)
                        (SSHConnectionDetector.stdout_isatty w)) /\
  (truthy (SSHConnectionDetector.env w (lit "SSH_ORIGINAL_COMMAND")) = true ->
   SSHConnectionDetector._get_connection_type w
   = Return (lit "Command execution")) /\
  (unset_or_empty (SSHConnectionDetector.env w) (lit "SSH_ORIGINAL_COMMAND") ->
   unset_or_empty (SSHConnectionDetector.env w) (lit "SSH_TUNNEL") ->
   ~ terminal_test_raises (SSHConnectionDetector.stdin_isatty w)
                          (SSHConnectionDetector.stdout_isatty w) ->
   SSHConnectionDetector.run
     w [lit "ps"; lit "-o"; lit "cmd="; lit "-p"; SSHConnectionDetector.ppid w]
   = Raise ->
   SSHConnectionDetector._get_connection_type w
   = Return (lit "Interactive shell")).
Proof.
  split; [|split; [apply get_connection_type_raises_iff|split]].
  - intros kind Hk.
    assert (Hin : In kind connection_types).
    { destruct (get_connection_type_cases w)
        as [[_ E]|[(_ & _ & E)|(_ & _ & [[_ E]|(i & k & _ & E & Hin & _)])]];
        rewrite E in Hk; try discriminate Hk; injection Hk as <-;
        [now left|right; now left|exact Hin]. }
    split; [exact Hin|].
    intros ->; destruct Hin as [H|[H|[H|[]]]]; discriminate H.
  - unfold SSHConnectionDetector._get_connection_type; now intros ->.
  - intros H1 H2 Ht Hps; apply truthy_iff in H1, H2.
    rewrite <- both_terminals_raises_iff in Ht.
    destruct (get_connection_type_cases w)
      as [[T _]|[(_ & T & _)|(_ & _ & [[Hb _]|(i & k & _ & E & _ & _ & Hk)])]];
      try congruence.
    rewrite E, (Hk Hps); reflexivity.
Qed.

Lemma connection_type_range_witness :
  let w := SSHConnectionDetector.mk_world
             (fun name =>
                if str_eqb name (lit "SSH_ORIGINAL_COMMAND") then Some (lit "ls")
                else if str_eqb name (lit "SSH_TUNNEL") then Some (lit "1")
                else None)
             (fun _ => Raise) Raise Raise (lit "1") in
  SSHConnectionDetector._get_connection_type w
  = Return (lit "Command execution").
Proof.
  intros w.
  apply (proj1 (proj2 (proj2 (connection_type_range w)))).
  reflexivity.
Defined.

(* ================================================================== *)
(** * The rescan of the last 100 lines *)

Lemma last_hundred (lines : list str) :
  (if Nat.ltb 100 (length lines) then slice_from (-100) lines else lines)
  = last_lines 100 lines.
Proof.
  unfold last_lines, slice_from, slice_index.
  destruct (Nat.ltb_spec 100 (length lines)) as [Hgt|Hle].
  - change (-100 <? 0)%Z with true; cbv iota.
    f_equal; lia.
  - replace (length lines - 100) with 0 by lia; reflexivity.
Qed.

Lemma scan_recent_first (self : SSHKeyParser.t) (fs : filesystem) (ip : str)
      (skipped rest : list str) (line : str) (entry : KeyInfo) :
  (forall l, In l skipped ->
     AuthLogParser.is_accepted_from ip l = false \/
     c_key_data (AuthLogParser._parse_ssh_connection_line l) = lit "unknown" \/
     SSHKeyParser._find_key_by_data
       self fs (c_key_data (AuthLogParser._parse_ssh_connection_line l)) = None) ->
  AuthLogParser.is_accepted_from ip line = true ->
  c_key_data (AuthLogParser._parse_ssh_connection_line line) <> lit "unknown" ->
  SSHKeyParser._find_key_by_data
    self fs (c_key_data (AuthLogParser._parse_ssh_connection_line line))
  = Some entry ->
  SSHKeyParser.scan_recent self fs ip (skipped ++ line :: rest) = Some entry.
Proof.
  intros Hskip Hline Hkd Hfind.
  induction skipped as [|l skipped IH]; cbn [app SSHKeyParser.scan_recent].
  - apply str_eqb_neq in Hkd; now rewrite Hline, Hkd, Hfind.
  - assert (IH' := IH (fun x Hx => Hskip x (or_intror Hx))).
    destruct (Hskip l (or_introl eq_refl)) as [H|[H|H]].
    + now rewrite H.
    + rewrite H, str_eqb_refl; cbn [negb].
      destruct (AuthLogParser.is_accepted_from ip l); exact IH'.
    + rewrite H.
      destruct (AuthLogParser.is_accepted_from ip l); [|exact IH'].
      destruct (negb _); exact IH'.
Qed.

(** X24: when the evidence of the scan resolves neither by fingerprint nor
    by key data, the last 100 lines of the log are searched again, newest
    first, for a line that names the address (whatever user it is about)
    and shows key data found in the registry file; the key of the first
    such line is returned, before the environment is consulted. *)
Theorem rescan_resolves_by_address
        (fs : filesystem) (registry_path : str) (env : environ)
        (ip_address username : str) (lines older newer : list str)
        (line : str) (entry : KeyInfo) :
  let self := SSHKeyParser.__init__ fs registry_path in
  let evidence :=
    AuthLogParser.find_recent_ssh_connection
      AuthLogParser.__init__ fs ip_address username
      AuthLogParser.default_max_lines in
  let key_data_of l := c_key_data (AuthLogParser._parse_ssh_connection_line l) in
  fs (lit "/var/log/auth.log") = Content lines ->
  SSHKeyParser.by_logged_fingerprint self evidence = None ->
  SSHKeyParser.by_logged_key_data self fs evidence = None ->
  last_lines 100 lines = older ++ line :: newer ->
  names_address line ip_address ->
  key_data_of line <> lit "unknown" ->
  SSHKeyParser._find_key_by_data self fs (key_data_of line) = Some entry ->
  (forall l, In l newer ->
     ~ names_address l ip_address \/
     key_data_of l = lit "unknown" \/
     SSHKeyParser._find_key_by_data self fs (key_data_of l) = None) ->
  SSHKeyParser.find_key_by_ip_and_user self fs env ip_address username
  = Some entry.
Proof.
  intros self evidence key_data_of Hlog H1 H2 Hw Hline Hkd Hfind Hnewer.
  unfold SSHKeyParser.find_key_by_ip_and_user,
    SSHKeyParser.find_key_by_ip_and_user_body.
  fold evidence; rewrite H1, H2.
  unfold SSHKeyParser.by_recent_lines, exists_, read_lines.
  cbn [self SSHKeyParser.__init__ SSHKeyParser.auth_log_path].
  rewrite Hlog; cbn [bind]; rewrite last_hundred, Hw.
  rewrite rev_app_distr; cbn [rev]; rewrite <- app_assoc; cbn [app].
  fold self.
  rewrite (scan_recent_first self fs ip_address (rev newer) (rev older) line entry);
    [reflexivity| |now apply is_accepted_from_iff|exact Hkd|exact Hfind].
  intros l Hl; apply in_rev in Hl.
  destruct (Hnewer l Hl) as [H|[H|H]]; [left|right; now left|right; now right].
  destruct (AuthLogParser.is_accepted_from ip_address l) eqn:E; [|reflexivity].
  now apply is_accepted_from_iff in E.
Qed.

Lemma rescan_resolves_by_address_witness :
  let key_data :=
    lit "AAAAB3NzaC1yc2EAAAADAQABAAAAFQECAwQFBgcICQoLDA0ODxAREhMUFQ==" in
  let registry := [lit "ssh-rsa " ++ key_data ++ text_line " bob@desk"] in
  let mine := text_line "sshd[5]: Accepted password for alice from 10.0.0.5 port 4 ssh2" in
  let other := lit "sshd[6]: Accepted publickey for bob from 10.0.0.5 port 7 ssh2: RSA "
                   ++ key_data ++ text_line "" in
  let fs := two_files SSHKeyParser.default_authorized_keys_path registry
                      (lit "/var/log/auth.log") [other; mine] in
  let self := SSHKeyParser.__init__ fs SSHKeyParser.default_authorized_keys_path in
  exists entry,
    SSHKeyParser.find_key_by_ip_and_user
      self fs (fun _ => None) (lit "10.0.0.5") (lit "alice") = Some entry /\
    k_comment entry = lit "bob@desk".
Proof.
  intros key_data registry mine other fs self.
  assert (Hfind : SSHKeyParser._find_key_by_data self fs key_data
                  = Some (mk_KeyInfo (lit "ssh-rsa") key_data
                            (lit "71:df:e8:df:06:f5:b0:16:63:18:b5:e3:45:87:54:60")
                            (lit "bob@desk") []
                            (lit "ssh-rsa " ++ key_data ++ lit " bob@desk") None))
    by (vm_compute; reflexivity).
  eexists; split.
  - apply (rescan_resolves_by_address
             fs SSHKeyParser.default_authorized_keys_path (fun _ => None)
             (lit "10.0.0.5") (lit "alice") [other; mine] [] [mine] other).
    + reflexivity.
    + vm_compute; reflexivity.
    + vm_compute; reflexivity.
    + reflexivity.
    + apply is_accepted_from_iff; reflexivity.
    + vm_compute; discriminate.
    + exact Hfind.
    + intros l [<-|[]]; right; left; reflexivity.
  - reflexivity.
Defined.
